(** * The seed command and the project forms of revolv

    A shallow embedding of [revolv/base/management/commands/seed.py] and
    [revolv/project/forms.py].  The seed command is a sequence of calls
    into an object-relational mapping layer: the database is an explicit
    record of tables, a computation is a function from the world (database,
    standard output, log of raised exceptions) to a result and a new world,
    and a Python exception is the [Raise] result. *)

From Stdlib Require Import String Ascii List Bool Arith ZArith Lia.
From Stdlib Require Import DecimalString.
Import ListNotations.
Open Scope string_scope.
Open Scope list_scope.

(** ** Exceptions *)

Module Exn.

(** The model classes whose managers the command calls. *)
Inductive Model := MUser | MRevolvUserProfile | MProject | MPage.

(** The exceptions of the framework that the ORM calls of the command can
    raise.  [DoesNotExist m] is [m.DoesNotExist], a subclass of
    [django.core.exceptions.ObjectDoesNotExist]. *)
Inductive exn :=
| DoesNotExist (m : Model)
| MultipleObjectsReturned (m : Model)
| IntegrityError
| IndexError
| NotImplementedError (msg : string).

Definition model_eqb (a b : Model) : bool :=
  match a, b with
  | MUser, MUser | MRevolvUserProfile, MRevolvUserProfile
  | MProject, MProject | MPage, MPage => true
  | _, _ => false
  end.

Definition object_name (m : Model) : string :=
  match m with
  | MUser => "User"
  | MRevolvUserProfile => "RevolvUserProfile"
  | MProject => "Project"
  | MPage => "Page"
  end.

(** [str(e)] *)
Definition str (e : exn) : string :=
  match e with
  | DoesNotExist m => object_name m ++ " matching query does not exist."
  | MultipleObjectsReturned m =>
      "get() returned more than one " ++ object_name m
  | IntegrityError => "UNIQUE constraint failed"
  | IndexError => "list index out of range"
  | NotImplementedError msg => msg
  end.

(** [except m.DoesNotExist] *)
Definition is_DoesNotExist (m : Model) (e : exn) : bool :=
  match e with
  | DoesNotExist m' => model_eqb m m'
  | _ => false
  end.

(** [except ObjectDoesNotExist] *)
Definition is_ObjectDoesNotExist (e : exn) : bool :=
  match e with
  | DoesNotExist _ => true
  | _ => false
  end.

End Exn.
Import Exn.

(** ** The database *)

Inductive Role := Donor | Ambassador | Administrator.

Inductive ProjectStatus := Active | Completed | Proposed | Drafted.

Record User := mkUser {
  user_id : nat;
  username : string;
  email : string;
  first_name : string;
  last_name : string;
  password : string
}.

Record RevolvUserProfile := mkProfile {
  profile_id : nat;
  profile_user : nat;          (* one-to-one key to User *)
  profile_role : Role
}.

(** The keyword arguments of a project.  The free-text columns
    (mission statement, description, about) and the coordinates are
    payload that no operation of the command reads; the record keeps the
    columns that identify a project. *)
Record ProjectData := mkProjectData {
  funding_goal : Z;
  title : string;
  tagline : string;
  video_url : string;
  solar_url : string;
  org_name : string;
  location : string;
  cover_photo : string
}.

Record Project := mkProject {
  project_id : nat;
  ambassador : nat;            (* foreign key to RevolvUserProfile *)
  project_status : ProjectStatus;
  project_data : ProjectData
}.

Record Payment := mkPayment {
  payment_id : nat;
  pay_project : nat;           (* foreign key to Project *)
  pay_user : nat;              (* foreign key to RevolvUserProfile *)
  pay_entrant : nat;           (* foreign key to RevolvUserProfile *)
  pay_amount : Z
}.

Inductive PageContent :=
| PlainPage
| CustomPage (body : string)
| LinkPage (link_href : string).

Record Page := mkPage {
  page_id : nat;
  page_parent : option nat;    (* None for a root of the page tree *)
  page_title : string;
  page_slug : string;
  page_content : PageContent;
  page_live : bool
}.

Record Site := mkSite {
  site_id : nat;
  root_page : nat              (* foreign key to Page *)
}.

Record DB := mkDB {
  users : list User;
  profiles : list RevolvUserProfile;
  projects : list Project;
  payments : list Payment;
  pages : list Page;
  sites : list Site;
  next_user : nat;
  next_profile : nat;
  next_project : nat;
  next_payment : nat;
  next_page : nat
}.

Definition set_users (f : list User -> list User) (d : DB) : DB :=
  mkDB (f (users d)) (profiles d) (projects d) (payments d) (pages d)
       (sites d) (next_user d) (next_profile d) (next_project d)
       (next_payment d) (next_page d).

Definition set_profiles
  (f : list RevolvUserProfile -> list RevolvUserProfile) (d : DB) : DB :=
  mkDB (users d) (f (profiles d)) (projects d) (payments d) (pages d)
       (sites d) (next_user d) (next_profile d) (next_project d)
       (next_payment d) (next_page d).

Definition set_projects (f : list Project -> list Project) (d : DB) : DB :=
  mkDB (users d) (profiles d) (f (projects d)) (payments d) (pages d)
       (sites d) (next_user d) (next_profile d) (next_project d)
       (next_payment d) (next_page d).

Definition set_payments (f : list Payment -> list Payment) (d : DB) : DB :=
  mkDB (users d) (profiles d) (projects d) (f (payments d)) (pages d)
       (sites d) (next_user d) (next_profile d) (next_project d)
       (next_payment d) (next_page d).

Definition set_pages (f : list Page -> list Page) (d : DB) : DB :=
  mkDB (users d) (profiles d) (projects d) (payments d) (f (pages d))
       (sites d) (next_user d) (next_profile d) (next_project d)
       (next_payment d) (next_page d).

Definition set_sites (f : list Site -> list Site) (d : DB) : DB :=
  mkDB (users d) (profiles d) (projects d) (payments d) (pages d)
       (f (sites d)) (next_user d) (next_profile d) (next_project d)
       (next_payment d) (next_page d).

Definition bump_user (d : DB) : DB :=
  mkDB (users d) (profiles d) (projects d) (payments d) (pages d)
       (sites d) (S (next_user d)) (next_profile d) (next_project d)
       (next_payment d) (next_page d).

Definition bump_profile (d : DB) : DB :=
  mkDB (users d) (profiles d) (projects d) (payments d) (pages d)
       (sites d) (next_user d) (S (next_profile d)) (next_project d)
       (next_payment d) (next_page d).

Definition bump_project (d : DB) : DB :=
  mkDB (users d) (profiles d) (projects d) (payments d) (pages d)
       (sites d) (next_user d) (next_profile d) (S (next_project d))
       (next_payment d) (next_page d).

Definition bump_payment (d : DB) : DB :=
  mkDB (users d) (profiles d) (projects d) (payments d) (pages d)
       (sites d) (next_user d) (next_profile d) (next_project d)
       (S (next_payment d)) (next_page d).

Definition bump_page (d : DB) : DB :=
  mkDB (users d) (profiles d) (projects d) (payments d) (pages d)
       (sites d) (next_user d) (next_profile d) (next_project d)
       (next_payment d) (S (next_page d)).

Definition mem (i : nat) (ids : list nat) : bool := existsb (Nat.eqb i) ids.

(** ** Deletion

    The foreign keys of the models are "managed entirely by an external
    ORM", whose deletion removes the rows that reference a deleted row.
    The round trip that [test_seed_then_clear] asserts depends on it: the
    payments are gone after the users are cleared, before the payment
    specification looks for their owners. *)

(** Modelled from the spec: [revolv.payments.models] is not among these
    sources.  A payment references its project; deleting projects deletes
    their payments. *)
Definition delete_projects (dead : Project -> bool) (d : DB) : DB :=
  let ids := map project_id (filter dead (projects d)) in
  set_payments (filter (fun y => negb (mem (pay_project y) ids)))
    (set_projects (filter (fun j => negb (dead j))) d).

(** Modelled from the spec: [revolv.project.models] and
    [revolv.payments.models] are not among these sources.  A project
    references the profile of its ambassador, a payment the profiles of
    its user and of its entrant; deleting profiles deletes their projects
    and their payments. *)
Definition delete_profiles (dead : RevolvUserProfile -> bool) (d : DB) : DB :=
  let ids := map profile_id (filter dead (profiles d)) in
  set_payments
    (filter (fun y => negb (mem (pay_user y) ids || mem (pay_entrant y) ids)))
    (set_profiles (filter (fun p => negb (dead p)))
       (delete_projects (fun j => mem (ambassador j) ids) d)).

(** Modelled from the spec: [revolv.base.models] is not among these
    sources.  A profile references its user; deleting users deletes their
    profiles. *)
Definition delete_users (dead : User -> bool) (d : DB) : DB :=
  let ids := map user_id (filter dead (users d)) in
  set_users (filter (fun u => negb (dead u)))
    (delete_profiles (fun p => mem (profile_user p) ids) d).

(** The descendants of a set of pages: a page whose parent is in the set
    joins it; [length (pages d)] rounds reach every level of the tree. *)
Fixpoint page_closure (ps : list Page) (fuel : nat) (ids : list nat)
  : list nat :=
  match fuel with
  | O => ids
  | S fuel' =>
      let more :=
        filter (fun p =>
                  match page_parent p with
                  | Some q => mem q ids && negb (mem (page_id p) ids)
                  | None => false
                  end) ps in
      page_closure ps fuel' (ids ++ map page_id more)
  end.

(** Deleting a page deletes its subtree and the sites rooted in it. *)
Definition delete_page (pid : nat) (d : DB) : DB :=
  let ids := page_closure (pages d) (length (pages d)) [pid] in
  set_sites (filter (fun s => negb (mem (root_page s) ids)))
    (set_pages (filter (fun p => negb (mem (page_id p) ids))) d).

(** ** Computations *)

Record World := mkWorld {
  db : DB;
  stdout : list string;        (* the lines printed so far *)
  raised : list exn            (* every exception raised so far, caught or not *)
}.

Inductive result (A : Type) :=
| Ok (a : A)
| Raise (e : exn).
Arguments Ok {A} a.
Arguments Raise {A} e.

Definition M (A : Type) : Type := World -> result A * World.

Definition ret {A} (a : A) : M A := fun w => (Ok a, w).

Definition bind {A B} (c : M A) (k : A -> M B) : M B :=
  fun w =>
    match c w with
    | (Ok a, w') => k a w'
    | (Raise e, w') => (Raise e, w')
    end.

Notation "x <- c ;; k" := (bind c (fun x => k))
  (at level 61, c at next level, right associativity).
Notation "c ;;; k" := (bind c (fun _ => k))
  (at level 61, right associativity).

(** [raise e] *)
Definition raise {A} (e : exn) : M A :=
  fun w => (Raise e, mkWorld (db w) (stdout w) (raised w ++ [e])).

(** [try: body / except <catches> as e: handler e] *)
Definition try_except {A} (body : M A) (catches : exn -> bool)
  (handler : exn -> M A) : M A :=
  fun w =>
    match body w with
    | (Ok a, w') => (Ok a, w')
    | (Raise e, w') => if catches e then handler e w' else (Raise e, w')
    end.

(** [print s] *)
Definition print (s : string) : M unit :=
  fun w => (Ok tt, mkWorld (db w) (stdout w ++ [s]) (raised w)).

Definition get_db : M DB := fun w => (Ok (db w), w).

Definition modify_db (f : DB -> DB) : M unit :=
  fun w => (Ok tt, mkWorld (f (db w)) (stdout w) (raised w)).

(** [for x in xs: f x] *)
Fixpoint for_each {A} (xs : list A) (f : A -> M unit) : M unit :=
  match xs with
  | [] => ret tt
  | x :: rest => f x ;;; for_each rest f
  end.

(** [if c: body] *)
Definition when (c : bool) (body : M unit) : M unit :=
  if c then body else ret tt.

Definition run {A} (c : M A) (d : DB) : result A * World :=
  c (mkWorld d [] []).

(** ** The ORM calls of the command *)

(** [Manager.get]: exactly one row must match. *)
Definition get_one {R} (m : Model) (rows : list R) : M R :=
  match rows with
  | [] => raise (DoesNotExist m)
  | [r] => ret r
  | _ :: _ :: _ => raise (MultipleObjectsReturned m)
  end.

(** [User.objects.get(username=name)] *)
Definition User_get (name : string) : M User :=
  d <- get_db ;;
  get_one MUser (filter (fun u => username u =? name) (users d)).

(** [RevolvUserProfile.objects.get(user=user)] *)
Definition Profile_get_user (user : User) : M RevolvUserProfile :=
  d <- get_db ;;
  get_one MRevolvUserProfile
    (filter (fun p => profile_user p =? user_id user)%nat (profiles d)).

(** [RevolvUserProfile.objects.get(user__username=name)] *)
Definition Profile_get_username (name : string) : M RevolvUserProfile :=
  d <- get_db ;;
  get_one MRevolvUserProfile
    (filter (fun p =>
               existsb (fun u => (user_id u =? profile_user p)%nat
                                 && (username u =? name)) (users d))
            (profiles d)).

(** [Project.objects.get(tagline=t)] *)
Definition Project_get_tagline (t : string) : M Project :=
  d <- get_db ;;
  get_one MProject
    (filter (fun j => tagline (project_data j) =? t) (projects d)).

(** [profile.delete()], [user.delete()], [project.delete()] *)
Definition Profile_delete (p : RevolvUserProfile) : M unit :=
  modify_db (delete_profiles (fun q => profile_id q =? profile_id p)%nat).

Definition User_delete (u : User) : M unit :=
  modify_db (delete_users (fun v => user_id v =? user_id u)%nat).

Definition Project_delete (j : Project) : M unit :=
  modify_db (delete_projects (fun k => project_id k =? project_id j)%nat).

(** Modelled from the spec: the managers of [revolv.base.models] are not
    among these sources.  [create_user] and its two variants make one user
    and the profile of that user; the variants differ in the role.  The
    framework enforces the "uniqueness of usernames": a second user of the
    same name is refused with an integrity error and nothing is written. *)
Definition create_user_with_role (role : Role)
  (name mail first last pass : string) : M RevolvUserProfile :=
  d <- get_db ;;
  if existsb (fun u => username u =? name) (users d)
  then raise IntegrityError
  else
    let u := mkUser (next_user d) name mail first last pass in
    let p := mkProfile (next_profile d) (next_user d) role in
    modify_db (fun d =>
      bump_profile (bump_user
        (set_profiles (fun l => l ++ [p])
           (set_users (fun l => l ++ [u]) d)))) ;;;
    ret p.

Definition create_user := create_user_with_role Donor.
Definition create_user_as_ambassador := create_user_with_role Ambassador.
Definition create_user_as_admin := create_user_with_role Administrator.

(** Modelled from the spec: the factories of [revolv.project.models] are
    not among these sources.  [Project.factories.<status>.create] inserts
    one project of that lifecycle status. *)
Definition Project_create (st : ProjectStatus) (amb : RevolvUserProfile)
  (data : ProjectData) : M Project :=
  d <- get_db ;;
  let j := mkProject (next_project d) (profile_id amb) st data in
  modify_db (fun d => bump_project (set_projects (fun l => l ++ [j]) d)) ;;;
  ret j.

(** Modelled from the spec: the factories of [revolv.payments.models] are
    not among these sources.  [Payment.factories.base.create] inserts one
    payment record. *)
Definition Payment_create (project : Project)
  (user entrant : RevolvUserProfile) (amount : Z) : M Payment :=
  d <- get_db ;;
  let y := mkPayment (next_payment d) (project_id project)
             (profile_id user) (profile_id entrant) amount in
  modify_db (fun d => bump_payment (set_payments (fun l => l ++ [y]) d)) ;;;
  ret y.

(** Modelled from the spec: the payment manager is not among these
    sources.  [Payment.objects.payments(user=p).delete()] deletes the
    payments made by [p]. *)
Definition Payments_of_user_delete (p : RevolvUserProfile) : M unit :=
  modify_db (set_payments
    (filter (fun y => negb (pay_user y =? profile_id p)%nat))).

(** [Site.objects.all()[0]]: indexing an empty query set is an
    [IndexError], not a [DoesNotExist]. *)
Definition Site_first : M Site :=
  d <- get_db ;;
  match sites d with
  | [] => raise IndexError
  | s :: _ => ret s
  end.

(** [site.root_page]: following the foreign key fetches the page. *)
Definition Site_root_page (s : Site) : M Page :=
  d <- get_db ;;
  get_one MPage (filter (fun p => page_id p =? root_page s)%nat (pages d)).

(** [parent.add_child(instance=page)]: the page is saved under [parent]
    and gets its key. *)
Definition add_child (parent : Page) (t slug : string) (c : PageContent)
  (live : bool) : M Page :=
  d <- get_db ;;
  let p := mkPage (next_page d) (Some (page_id parent)) t slug c live in
  modify_db (fun d => bump_page (set_pages (fun l => l ++ [p]) d)) ;;;
  ret p.

(** [page.save_revision(user=user, submitted_for_moderation=False).publish()]:
    the page is live afterwards. *)
Definition save_revision_publish (page : Page) (user : User) : M unit :=
  modify_db (set_pages (map (fun p =>
    if (page_id p =? page_id page)%nat
    then mkPage (page_id p) (page_parent p) (page_title p) (page_slug p)
           (page_content p) true
    else p))).

(** [page.delete()] *)
Definition Page_delete (p : Page) : M unit :=
  modify_db (delete_page (page_id p)).

(** [Page.add_root(title=t)] *)
Definition Page_add_root (t : string) : M Page :=
  d <- get_db ;;
  let p := mkPage (next_page d) None t "" PlainPage true in
  modify_db (fun d => bump_page (set_pages (fun l => l ++ [p]) d)) ;;;
  ret p.

(** [site.root_page = page; site.save()]: the row of the site is updated,
    or inserted when it is gone. *)
Definition Site_save_root (s : Site) (page : Page) : M unit :=
  let s' := mkSite (site_id s) (page_id page) in
  modify_db (set_sites (fun l =>
    if existsb (fun x => site_id x =? site_id s)%nat l
    then map (fun x => if (site_id x =? site_id s)%nat then s' else x) l
    else l ++ [s'])).

(** ** seed.py *)

Module Seed.

(** [class SeedSpec]: a specification seeds and clears its slice of the
    data; [class_name] is [self.__class__.__name__]. *)
Record SeedSpec := mkSeedSpec {
  class_name : string;
  seed : bool -> M unit;
  clear : bool -> M unit
}.

(** The abstract base class. *)
Definition AbstractSeedSpec : SeedSpec :=
  mkSeedSpec "SeedSpec"
    (fun _ => raise (NotImplementedError
                       "Abstract SeedSpec class tried to call seed()"))
    (fun _ => raise (NotImplementedError
                       "Abstract SeedSpec class tried to call clear()")).

(** The line every [except] clause of the specifications prints. *)
Definition clear_warning (cls : string) (e : exn) : string :=
  "[Seed:Warning] Error in " ++ cls ++ " when trying to clear: " ++ str e.

Definition warn_unless (quiet : bool) (cls : string) (e : exn) : M unit :=
  when (negb quiet) (print (clear_warning cls e)).

(** *** RevolvUserProfileSeedSpec *)

Definition usernames_to_clear : list string :=
  ["donor"; "ambassador"; "administrator"].

Definition RevolvUserProfile_seed (quiet : bool) : M unit :=
  create_user "donor" "donor@re-volv.org" "Joe" "Donor" "password" ;;;
  create_user_as_ambassador "ambassador" "ambassador@re-volv.org"
    "Joe" "Ambassador" "password" ;;;
  create_user_as_admin "administrator" "administrator@re-volv.org"
    "Joe" "Admin" "password" ;;;
  ret tt.

(** The body of the [try] of [RevolvUserProfileSeedSpec.clear]. *)
Definition RevolvUserProfile_clear_one (name : string) : M unit :=
  user <- User_get name ;;
  profile <- Profile_get_user user ;;
  Profile_delete profile ;;;
  User_delete user.

Definition RevolvUserProfile_clear (quiet : bool) : M unit :=
  for_each usernames_to_clear (fun name =>
    try_except (RevolvUserProfile_clear_one name)
      (is_DoesNotExist MUser)
      (warn_unless quiet "RevolvUserProfileSeedSpec")).

Definition RevolvUserProfileSeedSpec : SeedSpec :=
  mkSeedSpec "RevolvUserProfileSeedSpec"
    RevolvUserProfile_seed RevolvUserProfile_clear.

(** *** ProjectSeedSpec *)

Definition studio : ProjectData :=
  mkProjectData 12000 "Power Community Dance Studio"
    "Dance forever, dance until dawn."
    "https://www.youtube.com/watch?v=fzShzO2pk-E"
    "http://home.solarlog-web.net/1445.html"
    "The Community Dance Studio"
    "2415 Bowditch St, Berkeley, CA 94704, United States"
    "covers/box.jpg".

Definition dairy : ProjectData :=
  mkProjectData 14000 "Power for Comoonity Dairy"
    "Some say that milk is power."
    "https://www.youtube.com/watch?v=JtA8gqWA6PE"
    "http://home.solarlog-web.net/1445.html"
    "Comoonity Dairy"
    "1238 5th Street, Berkeley, CA, United States"
    "covers/Dairy-Products-vitamin-D-foods.jpg".

Definition educathing : ProjectData :=
  mkProjectData 22000 "Some Education Thing"
    "Our children need to learn."
    "https://www.youtube.com/watch?v=slbco4zHmt8"
    "http://home.solarlog-web.net/1445.html"
    "Educathing"
    "School, Oakland, CA, United States"
    "covers/education.jpg".

Definition emblem : ProjectData :=
  mkProjectData 24000 "Roy's our Boy!"
    "The force is strong with this boy."
    "https://www.youtube.com/watch?v=I7WqXwb4GQg"
    "http://home.solarlog-web.net/1445.html"
    "Fire Emblem"
    "140 New Montgomery, San Francisco, CA, United States"
    "covers/education.jpg".

Definition projects_to_clear : list ProjectData :=
  [studio; dairy; educathing; emblem].

Definition Project_seed (quiet : bool) : M unit :=
  amb <- Profile_get_username "ambassador" ;;
  Project_create Active amb studio ;;;
  Project_create Completed amb dairy ;;;
  Project_create Proposed amb educathing ;;;
  Project_create Drafted amb emblem ;;;
  ret tt.

(** The body of the [try] of [ProjectSeedSpec.clear]. *)
Definition Project_clear_one (project : ProjectData) : M unit :=
  j <- Project_get_tagline (tagline project) ;;
  Project_delete j.

Definition Project_clear (quiet : bool) : M unit :=
  for_each projects_to_clear (fun project =>
    try_except (Project_clear_one project)
      (is_DoesNotExist MProject)
      (warn_unless quiet "ProjectSeedSpec")).

Definition ProjectSeedSpec : SeedSpec :=
  mkSeedSpec "ProjectSeedSpec" Project_seed Project_clear.

(** *** PaymentSeedSpec *)

Definition Payment_seed (quiet : bool) : M unit :=
  donor <- Profile_get_username "donor" ;;
  amb <- Profile_get_username "ambassador" ;;
  administrator <- Profile_get_username "administrator" ;;
  studio_p <- Project_get_tagline (tagline studio) ;;
  dairy_p <- Project_get_tagline (tagline dairy) ;;
  Payment_create studio_p donor donor 50 ;;;
  Payment_create dairy_p donor administrator 50 ;;;
  Payment_create studio_p donor administrator 50 ;;;
  Payment_create studio_p donor administrator 50 ;;;
  Payment_create dairy_p administrator administrator 50 ;;;
  Payment_create studio_p amb amb 50 ;;;
  ret tt.

(** The body of the [try] of [PaymentSeedSpec.clear]. *)
Definition Payment_clear_body : M unit :=
  donor <- Profile_get_username "donor" ;;
  amb <- Profile_get_username "ambassador" ;;
  administrator <- Profile_get_username "administrator" ;;
  Payments_of_user_delete donor ;;;
  Payments_of_user_delete amb ;;;
  Payments_of_user_delete administrator.

Definition Payment_clear (quiet : bool) : M unit :=
  try_except Payment_clear_body
    (is_DoesNotExist MRevolvUserProfile)
    (warn_unless quiet "PaymentSeedSpec").

Definition PaymentSeedSpec : SeedSpec :=
  mkSeedSpec "PaymentSeedSpec" Payment_seed Payment_clear.

(** *** CMSPageSeedSpec *)

(** An entry of [page_hierarchy]: [("link", title, href)] or
    [("page", title, children)]. *)
#[warnings="-register-all"]
Inductive PageTuple :=
| link (title : string) (href : string)
| page (title : string) (children : list PageTuple).

Definition page_hierarchy : list PageTuple :=
  [ page "About Us"
      [ link "Our Mission" "/about-us/";
        page "Our Team" [];
        page "Partners" [];
        page "Jobs" [] ];
    page "What We Do"
      [ page "How It Works" [];
        page "Projects" [];
        link "Solar In Your Community" "/what-we-do/" ];
    page "Get Involved"
      [ link "Donate to the Solar Seed Fund" "/get-involved/";
        page "Solar Ambassador Program" [];
        page "Support Us" [];
        page "Join Our Mailing List" [];
        page "Volunteer" [] ];
    page "Solar Education"
      [ link "Educational Resources" "/solar-education/";
        page "Solar Education Week" [] ];
    page "Media"
      [ link "Blog" "/media/";
        page "Press Room" [];
        page "RE-volv in the News" [] ];
    page "Contact"
      [ link "Contact Us" "/contact/" ] ].

(** [title.lower().replace(" ", "-")] *)
Definition lower_ascii (c : ascii) : ascii :=
  let n := nat_of_ascii c in
  if (65 <=? n)%nat && (n <=? 90)%nat then ascii_of_nat (n + 32) else c.

Fixpoint slugify (s : string) : string :=
  match s with
  | EmptyString => EmptyString
  | String c rest =>
      let c' := lower_ascii c in
      String (if Ascii.eqb c' " " then "-"%char else c') (slugify rest)
  end.

Definition publish_page_for_parent (t slug : string) (c : PageContent)
  (parent : option Page) (user : User) : M Page :=
  page_parent <-
    match parent with
    | Some p => ret p
    | None => only_site <- Site_first ;; Site_root_page only_site
    end ;;
  (* this actually saves the page *)
  page <- add_child page_parent t slug c true ;;
  save_revision_publish page user ;;;
  ret page.

Definition publish_page (t body : string) (user : User)
  (parent : option Page) : M Page :=
  publish_page_for_parent t (slugify t) (CustomPage body) parent user.

Definition publish_link_page (t href : string) (user : User)
  (parent : option Page) : M Page :=
  publish_page_for_parent t (slugify t) (LinkPage href) parent user.

Fixpoint seed_page_tuple (page_tuple : PageTuple) (user : User)
  (parent : option Page) : M unit :=
  match page_tuple with
  | link t data => publish_link_page t data user parent ;;; ret tt
  | page t data =>
      new_page <- publish_page t "This is the body of the page" user parent ;;
      (fix children (l : list PageTuple) : M unit :=
         match l with
         | [] => ret tt
         | x :: rest => seed_page_tuple x user (Some new_page) ;;; children rest
         end) data
  end.

Definition recursively_seed_pages (pages : list PageTuple) (user : User)
  (parent : option Page) : M unit :=
  for_each pages (fun page_tuple => seed_page_tuple page_tuple user parent).

Definition CMSPage_seed (quiet : bool) : M unit :=
  user <- User_get "administrator" ;;
  recursively_seed_pages page_hierarchy user None.

(** The body of the [try] of [CMSPageSeedSpec.clear]. *)
Definition CMSPage_clear_body : M unit :=
  only_site <- Site_first ;;
  root <- Site_root_page only_site ;;
  Page_delete root ;;;
  new_root_page <- Page_add_root "RE-volv Main Site Root" ;;
  Site_save_root only_site new_root_page.

Definition CMSPage_clear (quiet : bool) : M unit :=
  try_except CMSPage_clear_body
    is_ObjectDoesNotExist
    (warn_unless quiet "CMSPageSeedSpec").

Definition CMSPageSeedSpec : SeedSpec :=
  mkSeedSpec "CMSPageSeedSpec" CMSPage_seed CMSPage_clear.

(** *** The command *)

Definition SPECS_TO_RUN : list (string * SeedSpec) :=
  [ ("revolvuserprofile", RevolvUserProfileSeedSpec);
    ("project", ProjectSeedSpec);
    ("payment", PaymentSeedSpec);
    ("cms", CMSPageSeedSpec) ].

(** The options of the command line; [opt_spec] is [None] when [--spec]
    is not passed. *)
Record Options := mkOptions {
  opt_clear : bool;
  opt_spec : option string;
  opt_quiet : bool;
  opt_list : bool
}.

(** [dict(SPECS_TO_RUN).get(name)] *)
Fixpoint dict_get (l : list (string * SeedSpec)) (name : string)
  : option SeedSpec :=
  match l with
  | [] => None
  | (k, v) :: rest =>
      match dict_get rest name with
      | Some v' => Some v'           (* a later pair overrides an earlier one *)
      | None => if k =? name then Some v else None
      end
  end.

(** Truth value of [options["spec"]]: [None] and the empty string are
    false. *)
Definition spec_given (o : Options) : option string :=
  match opt_spec o with
  | Some "" => None
  | Some name => Some name
  | None => None
  end.

Definition join (sep : string) (l : list string) : string :=
  String.concat sep l.

Definition show_nat (n : nat) : string :=
  NilEmpty.string_of_uint (Nat.to_uint n).

Definition log (o : Options) (message : string) : M unit :=
  when (negb (opt_quiet o)) (print message).

(** The list [specs_to_run] that [handle] builds, with the warning it logs
    on the way. *)
Definition select_specs (o : Options) : M (list SeedSpec) :=
  match spec_given o with
  | Some name =>
      match dict_get SPECS_TO_RUN name with
      | Some spec => ret [spec]
      | None =>
          log o ("[Seed:Warning] Trying to run only spec " ++ name
                 ++ ", but it doesn't exist.") ;;;
          ret []
      end
  | None => ret (map snd SPECS_TO_RUN)
  end.

Definition handle (o : Options) : M unit :=
  if opt_list o then
    log o "[Seed:Info] The following seeds are available: " ;;;
    log o ("[Seed:Info]    " ++ join ", " (map fst SPECS_TO_RUN)) ;;;
    log o "[Seed:Info] Done."
  else
    let verb := if opt_clear o then "Clearing" else "Seeding" in
    specs_to_run <- select_specs o ;;
    log o ("[Seed:Info] " ++ verb ++ " objects from "
           ++ show_nat (length specs_to_run) ++ " seed spec(s)...") ;;;
    for_each specs_to_run (fun spec =>
      if opt_clear o
      then clear spec (opt_quiet o)
      else seed spec (opt_quiet o)) ;;;
    log o "[Seed:Info] Done!".

End Seed.

(** ** forms.py *)

Module Forms.

(** A decimal number as the form receives it after parsing:
    [(-1)^sign * coefficient * 10^exponent], or one of the special values. *)
Inductive Decimal :=
| Finite (sign : bool) (coefficient : N) (exponent : Z)
| NaN
| Infinity (sign : bool).

(** The form fields that [forms.py] declares. *)
Inductive Field :=
| DecimalField (min_value : option Z) (decimal_places : option nat)
    (localize : bool) (hidden : bool)
| FloatField (localize : bool).

(** [class Meta] of a model form together with the fields declared in the
    class body. *)
Record ModelForm := mkModelForm {
  model : string;
  declared_fields : list (string * Field);
  fields : list string
}.

Definition ProjectForm : ModelForm :=
  mkModelForm "Project"
    [ ("funding_goal", DecimalField (Some 0%Z) (Some 2%nat) true false);
      ("impact_power", FloatField true);
      ("location_latitude", DecimalField None None false true);
      ("location_longitude", DecimalField None None false true) ]
    [ "title"; "mission_statement"; "funding_goal"; "impact_power";
      "end_date"; "video_url"; "cover_photo"; "org_name"; "org_about";
      "org_start_date"; "location"; "location_latitude";
      "location_longitude" ].

Definition ProjectStatusForm : ModelForm :=
  mkModelForm "Project" [] [].

Definition PostFundingUpdateForm : ModelForm :=
  mkModelForm "Project" [] ["post_funding_updates"; "solar_url"].

Definition PostProjectUpdateForm : ModelForm :=
  mkModelForm "ProjectUpdate" [] ["update_text"; "project"].

Definition name_in (n : string) (l : list string) : bool :=
  existsb (String.eqb n) l.

(** Modelled from the spec: the form machinery is the web framework's and
    is not among these sources.  A model form offers the model fields
    named in [Meta.fields], in that order, and every field declared in the
    class body; a declared field of a listed name takes the place of the
    model's. *)
Definition base_fields (f : ModelForm) : list string :=
  fields f
  ++ filter (fun n => negb (name_in n (fields f)))
       (map fst (declared_fields f)).

(** The names a submission can set. *)
Definition editable (f : ModelForm) (n : string) : bool :=
  name_in n (base_fields f).

Definition declared_field (f : ModelForm) (n : string) : option Field :=
  option_map snd
    (find (fun nf => String.eqb (fst nf) n) (declared_fields f)).

Inductive ValidationError := invalid | required | min_value_error
                             | max_decimal_places.

(** [value < m] for a finite decimal and an integer bound. *)
Definition decimal_ltb (sign : bool) (coefficient : N) (exponent : Z)
  (m : Z) : bool :=
  let c := (if sign then - Z.of_N coefficient else Z.of_N coefficient)%Z in
  if (0 <=? exponent)%Z
  then (c * 10 ^ exponent <? m)%Z
  else (c <? m * 10 ^ (- exponent))%Z.

(** Modelled from the spec: the validation of a decimal form field is the
    web framework's and is not among these sources.  An empty value is
    refused as required; a special value is refused as invalid; the number
    of decimal places is the magnitude of the exponent and must not exceed
    [decimal_places]; the value must not be below [min_value].  The result
    lists the errors; the empty list accepts the value. *)
Definition clean_decimal (min_value : option Z) (decimal_places : option nat)
  (value : option Decimal) : list ValidationError :=
  match value with
  | None => [required]
  | Some NaN => [invalid]
  | Some (Infinity _) => [invalid]
  | Some (Finite sign coefficient exponent) =>
      let decimals := Z.abs_nat exponent in
      let too_many :=
        match decimal_places with
        | Some places => (places <? decimals)%nat
        | None => false
        end in
      if too_many then [max_decimal_places] else
      match min_value with
      | Some m =>
          if decimal_ltb sign coefficient exponent m
          then [min_value_error] else []
      | None => []
      end
  end.

(** Cleaning a value submitted for [funding_goal], with the arguments of
    the declaration in [ProjectForm]. *)
Definition clean_funding_goal (value : option Decimal)
  : list ValidationError :=
  match declared_field ProjectForm "funding_goal" with
  | Some (DecimalField min_value decimal_places _ _) =>
      clean_decimal min_value decimal_places value
  | _ => []
  end.

(** The submitted decimal is below zero. *)
Definition negative (d : Decimal) : bool :=
  match d with
  | Finite sign coefficient _ => sign && negb (coefficient =? 0)%N
  | NaN => false
  | Infinity sign => sign
  end.

(** The submitted decimal is written with more than [n] decimal places. *)
Definition more_places_than (n : nat) (d : Decimal) : bool :=
  match d with
  | Finite _ _ exponent => (exponent <? - Z.of_nat n)%Z
  | _ => false
  end.

End Forms.

(** ** Databases used as examples *)

Import Seed.

(** No row in any table. *)
Definition empty_db : DB := mkDB [] [] [] [] [] [] 1 1 1 1 1.

(** The database after the migrations of the CMS: the root of the page
    tree, the welcome page under it, and the one site rooted in the
    welcome page.  No user, profile, project or payment. *)
Definition fresh_db : DB :=
  mkDB [] [] [] []
    [ mkPage 1 None "Root" "root" PlainPage true;
      mkPage 2 (Some 1) "Welcome to your new Wagtail site!" "home"
        PlainPage true ]
    [ mkSite 1 2 ]
    1 1 1 1 3.

Definition seed_options : Options := mkOptions false None false false.
Definition clear_options : Options := mkOptions true None false false.

(** The database of a run from [d], whatever the outcome. *)
Definition db_after (o : Options) (d : DB) : DB := db (snd (run (handle o) d)).

Definition outcome (o : Options) (d : DB) : result unit :=
  fst (run (handle o) d).

Definition output (o : Options) (d : DB) : list string :=
  stdout (snd (run (handle o) d)).

(** A user whose profile is gone: the state between the two deletions of
    [RevolvUserProfileSeedSpec.clear]. *)
Definition orphan_user_db : DB :=
  mkDB [ mkUser 1 "donor" "donor@re-volv.org" "Joe" "Donor" "password" ]
    [] [] []
    (pages fresh_db) (sites fresh_db) 2 2 1 1 3.

(** A database in which somebody else runs a project that shares its
    tagline with the seeded project [emblem]. *)
Definition namesake_db : DB :=
  mkDB [ mkUser 1 "roy" "roy@example.org" "Roy" "Pherae" "password" ]
    [ mkProfile 1 1 Ambassador ]
    [ mkProject 1 1 Active
        (mkProjectData 500 "The other emblem" (tagline emblem)
           "" "" "Pherae" "Lycia" "") ]
    []
    (pages fresh_db) (sites fresh_db) 2 2 2 1 3.

(** A database in use: a user with a profile, a project and a payment of
    her own, next to the pages of the CMS. *)
Definition busy_db : DB :=
  mkDB [ mkUser 4 "lyn" "lyn@example.org" "Lyn" "Sacae" "password" ]
    [ mkProfile 7 4 Ambassador ]
    [ mkProject 2 7 Active
        (mkProjectData 900 "Plains solar" "Sun over the plains."
           "" "" "Lorca" "Sacae" "") ]
    [ mkPayment 5 2 7 7 20 ]
    (pages fresh_db) (sites fresh_db) 5 8 3 6 3.

(** The database after a full seed of [fresh_db]. *)
Definition seeded_db : DB := db_after seed_options fresh_db.

(** ** Assertions on databases *)

Definition seed_username (n : string) : bool :=
  existsb (String.eqb n) usernames_to_clear.

Definition seed_tagline (t : string) : bool :=
  existsb (fun p => t =? tagline p) projects_to_clear.

(** Every key and every foreign key of the four seeded tables is below
    the sequence of its table: the keys the sequences hand out next are in
    use nowhere. *)
Definition keys_below (d : DB) : bool :=
  forallb (fun u => user_id u <? next_user d)%nat (users d)
  && forallb (fun p => (profile_id p <? next_profile d)%nat
                       && (profile_user p <? next_user d)%nat) (profiles d)
  && forallb (fun j => (project_id j <? next_project d)%nat
                       && (ambassador j <? next_profile d)%nat) (projects d)
  && forallb (fun y => (pay_project y <? next_project d)%nat
                       && (pay_user y <? next_profile d)%nat
                       && (pay_entrant y <? next_profile d)%nat) (payments d).

(** None of the seeded user names and none of the seeded taglines is
    taken, and the sequences are ahead of the keys. *)
Definition restorable (d : DB) : bool :=
  keys_below d
  && negb (existsb (fun u => seed_username (username u)) (users d))
  && negb (existsb (fun j => seed_tagline (tagline (project_data j)))
             (projects d)).

(** The first site exists, its root page is one row of the page table,
    and the sequence of the page table is past that row. *)
Definition site_ready (d : DB) : bool :=
  match sites d with
  | [] => false
  | s :: _ =>
      (length (filter (fun p => page_id p =? root_page s)%nat (pages d))
       =? 1)%nat
      && (root_page s <? next_page d)%nat
  end.

(** The state from which seeding is meant to start: [restorable], with
    the site of the CMS in place. *)
Definition seedable (d : DB) : bool := restorable d && site_ready d.

(** What [restorable] says, table by table. *)
Record Ready (d : DB) : Prop := mkReady {
  ready_users : forall u, In u (users d) -> user_id u < next_user d;
  ready_profiles : forall p, In p (profiles d) ->
    profile_id p < next_profile d /\ profile_user p < next_user d;
  ready_projects : forall j, In j (projects d) ->
    project_id j < next_project d /\ ambassador j < next_profile d;
  ready_payments : forall y, In y (payments d) ->
    pay_project y < next_project d /\ pay_user y < next_profile d
    /\ pay_entrant y < next_profile d;
  ready_names : forall u, In u (users d) ->
    seed_username (username u) = false;
  ready_taglines : forall j, In j (projects d) ->
    seed_tagline (tagline (project_data j)) = false
}.

(** ** The rows of a seed

    The rows the first three specifications insert, given the keys the
    sequences hand out: [nu], [np], [nj], [ny] are the next keys of the
    user, profile, project and payment tables. *)

Definition seed_user_rows (nu : nat) : list User :=
  [ mkUser nu "donor" "donor@re-volv.org" "Joe" "Donor" "password";
    mkUser (S nu) "ambassador" "ambassador@re-volv.org" "Joe" "Ambassador"
      "password";
    mkUser (S (S nu)) "administrator" "administrator@re-volv.org" "Joe"
      "Admin" "password" ].

Definition seed_profile_rows (nu np : nat) : list RevolvUserProfile :=
  [ mkProfile np nu Donor;
    mkProfile (S np) (S nu) Ambassador;
    mkProfile (S (S np)) (S (S nu)) Administrator ].

Definition seed_project_rows (np nj : nat) : list Project :=
  [ mkProject nj (S np) Active studio;
    mkProject (S nj) (S np) Completed dairy;
    mkProject (S (S nj)) (S np) Proposed educathing;
    mkProject (S (S (S nj))) (S np) Drafted emblem ].

Definition seed_payment_rows (np nj ny : nat) : list Payment :=
  [ mkPayment ny nj np np 50;
    mkPayment (S ny) (S nj) np (S (S np)) 50;
    mkPayment (S (S ny)) nj np (S (S np)) 50;
    mkPayment (S (S (S ny))) nj np (S (S np)) 50;
    mkPayment (S (S (S (S ny)))) (S nj) (S (S np)) (S (S np)) 50;
    mkPayment (S (S (S (S (S ny))))) nj (S np) (S np) 50 ].

(** The database after the user, project and payment specifications have
    seeded [d]. *)
Definition after_users (d : DB) : DB :=
  mkDB (users d ++ seed_user_rows (next_user d))
       (profiles d ++ seed_profile_rows (next_user d) (next_profile d))
       (projects d) (payments d) (pages d) (sites d)
       (3 + next_user d) (3 + next_profile d) (next_project d)
       (next_payment d) (next_page d).

Definition after_projects (d : DB) : DB :=
  mkDB (users d ++ seed_user_rows (next_user d))
       (profiles d ++ seed_profile_rows (next_user d) (next_profile d))
       (projects d ++ seed_project_rows (next_profile d) (next_project d))
       (payments d) (pages d) (sites d)
       (3 + next_user d) (3 + next_profile d) (4 + next_project d)
       (next_payment d) (next_page d).

Definition after_payments (d : DB) : DB :=
  mkDB (users d ++ seed_user_rows (next_user d))
       (profiles d ++ seed_profile_rows (next_user d) (next_profile d))
       (projects d ++ seed_project_rows (next_profile d) (next_project d))
       (payments d ++ seed_payment_rows (next_profile d) (next_project d)
                        (next_payment d))
       (pages d) (sites d)
       (3 + next_user d) (3 + next_profile d) (4 + next_project d)
       (6 + next_payment d) (next_page d).

(** The page table holds the page of key [r] once, and the sequence of
    the table is past [r]. *)
Definition root_in_place (r : nat) (d : DB) : Prop :=
  length (filter (fun p => page_id p =? r)%nat (pages d)) = 1
  /\ r < next_page d.

(** The tables of [d'] are those of [d] with the rows [nus], [nps], [njs]
    and [nys] at their ends. *)
Definition extends (d d' : DB) (nus : list User)
  (nps : list RevolvUserProfile) (njs : list Project) (nys : list Payment)
  : Prop :=
  users d' = users d ++ nus
  /\ profiles d' = profiles d ++ nps
  /\ projects d' = projects d ++ njs
  /\ payments d' = payments d ++ nys.

(** The keys of the added rows come from the sequences of [d]. *)
Definition fresh_rows (d : DB) (nus : list User)
  (nps : list RevolvUserProfile) (njs : list Project) : Prop :=
  Forall (fun u => next_user d <= user_id u) nus
  /\ Forall (fun p => next_profile d <= profile_id p) nps
  /\ Forall (fun j => next_project d <= project_id j) njs.

(** The tables of [d'] are those of [d] with the rows of the seed at
    their ends. *)
Definition seeded_from (d d' : DB) : Prop :=
  extends d d' (seed_user_rows (next_user d))
    (seed_profile_rows (next_user d) (next_profile d))
    (seed_project_rows (next_profile d) (next_project d))
    (seed_payment_rows (next_profile d) (next_project d) (next_payment d)).

(** The first site of [d] is [s], with its root page in place. *)
Definition site_in_place (s : Site) (rest : list Site) (d : DB) : Prop :=
  sites d = s :: rest /\ root_in_place (root_page s) d.

(** ** Assertions on computations *)

(** [c] leaves the part [f] of the database as it finds it, whatever the
    outcome. *)
Definition preserves {A X} (f : DB -> X) (c : M A) : Prop :=
  forall w, f (db (snd (c w))) = f (db w).

(** [s.startswith(p)] *)
Fixpoint startswith (s p : string) {struct p} : bool :=
  match p with
  | EmptyString => true
  | String a p' =>
      match s with
      | EmptyString => false
      | String b s' => Ascii.eqb a b && startswith s' p'
      end
  end.

(** A printed line is the warning of an [except] clause. *)
Definition is_clear_warning (line : string) : bool :=
  startswith line "[Seed:Warning] Error in ".

(** The account of the exceptions of a run of [c]: the exceptions raised
    during the run are [caught] followed by the one the run ends with, if
    it ends with one; a caught exception is a record-not-found error and
    is caught only while clearing; the warnings among the printed lines are
    those of the caught exceptions, one each and in order, and there is
    none when [quiet]. *)
Definition accounts {A} (clearing quiet : bool) (c : M A) : Prop :=
  forall w, exists caught lines,
    raised (snd (c w)) =
      raised w ++ caught
      ++ match fst (c w) with Ok _ => [] | Raise e => [e] end
    /\ stdout (snd (c w)) = stdout w ++ lines
    /\ Forall (fun e => is_ObjectDoesNotExist e = true) caught
    /\ (clearing = false -> caught = [])
    /\ Forall2 (fun line e => exists cls, line = clear_warning cls e)
         (filter is_clear_warning lines)
         (if quiet then [] else caught).

(** [c] returns from every world whose database satisfies [P], and leaves
    a database that satisfies [Q]. *)
Definition succeeds {A} (P : DB -> Prop) (c : M A) (Q : DB -> Prop) : Prop :=
  forall w, P (db w) -> exists a w', c w = (Ok a, w') /\ Q (db w').

(** [c1] is [c2] with the printing taken out: from worlds that agree on
    the database and on the log of exceptions, the two end with the same
    result in worlds that agree again, and [c1] prints nothing. *)
Definition silenced {A} (c1 c2 : M A) : Prop :=
  forall w1 w2, db w1 = db w2 -> raised w1 = raised w2 ->
    fst (c1 w1) = fst (c2 w2)
    /\ db (snd (c1 w1)) = db (snd (c2 w2))
    /\ raised (snd (c1 w1)) = raised (snd (c2 w2))
    /\ stdout (snd (c1 w1)) = stdout w1.

(** ** The tables of a specification *)

Inductive Table := Users | Profiles | Projects | Payments | Pages | Sites.

(** Table [t] holds the same rows in [d1] and in [d2]. *)
Definition same_rows (t : Table) (d1 d2 : DB) : Prop :=
  match t with
  | Users => users d1 = users d2
  | Profiles => profiles d1 = profiles d2
  | Projects => projects d1 = projects d2
  | Payments => payments d1 = payments d2
  | Pages => pages d1 = pages d2
  | Sites => sites d1 = sites d2
  end.

(** The tables a specification is the seed of, by its registered name. *)
Definition tables_of (name : string) : list Table :=
  if name =? "revolvuserprofile" then [Users; Profiles]
  else if name =? "project" then [Projects]
  else if name =? "payment" then [Payments]
  else if name =? "cms" then [Pages; Sites]
  else [].

(** The tables of other specifications whose rows reference the rows of
    this one, and go with them when they are deleted. *)
Definition tables_referencing (name : string) : list Table :=
  if name =? "revolvuserprofile" then [Projects; Payments]
  else if name =? "project" then [Payments]
  else [].

(** ** Further assertions *)

(** [c] takes every database to one that stands in the relation [R] to
    it, whatever the outcome. *)
Definition keeps {A} (R : DB -> DB -> Prop) (c : M A) : Prop :=
  forall w, R (db w) (db (snd (c w))).

(** The users, profiles, projects and payments of [b] are those of [a]
    with rows added at the ends of the tables. *)
Definition appended (a b : DB) : Prop :=
  (exists l, users b = users a ++ l)
  /\ (exists l, profiles b = profiles a ++ l)
  /\ (exists l, projects b = projects a ++ l)
  /\ (exists l, payments b = payments a ++ l).

(** The users, profiles, projects and payments of [b] are those of [a]
    with rows taken out. *)
Definition thinned (a b : DB) : Prop :=
  (exists k, users b = filter k (users a))
  /\ (exists k, profiles b = filter k (profiles a))
  /\ (exists k, projects b = filter k (projects a))
  /\ (exists k, payments b = filter k (payments a)).

(** No seeded user name and no seeded tagline is taken. *)
Definition unseeded (d : DB) : bool :=
  negb (existsb (fun u => seed_username (username u)) (users d))
  && negb (existsb (fun j => seed_tagline (tagline (project_data j)))
             (projects d)).

(** An upper-case letter of ASCII. *)
Definition is_upper (c : ascii) : bool :=
  (65 <=? nat_of_ascii c)%nat && (nat_of_ascii c <=? 90)%nat.

(** The number of entries of a page hierarchy, at all levels. *)
Fixpoint count_entries (x : PageTuple) : nat :=
  match x with
  | link _ _ => 1
  | page _ children =>
      S ((fix sum (l : list PageTuple) : nat :=
            match l with
            | [] => 0
            | y :: rest => count_entries y + sum rest
            end) children)
  end.

Definition count_pages (l : list PageTuple) : nat :=
  list_sum (map count_entries l).

(** The four projects of [ProjectSeedSpec.seed] for the ambassador of key
    [amb], with keys from [nj] on. *)
Definition project_rows_for (amb nj : nat) : list Project :=
  [ mkProject nj amb Active studio;
    mkProject (S nj) amb Completed dairy;
    mkProject (S (S nj)) amb Proposed educathing;
    mkProject (S (S (S nj))) amb Drafted emblem ].

(** The six payments of [PaymentSeedSpec.seed] for the profiles and
    projects of the given keys, with keys from [ny] on. *)
Definition payment_rows_for (donor amb admin studio_k dairy_k ny : nat)
  : list Payment :=
  [ mkPayment ny studio_k donor donor 50;
    mkPayment (S ny) dairy_k donor admin 50;
    mkPayment (S (S ny)) studio_k donor admin 50;
    mkPayment (S (S (S ny))) studio_k donor admin 50;
    mkPayment (S (S (S (S ny)))) dairy_k admin admin 50;
    mkPayment (S (S (S (S (S ny))))) studio_k amb amb 50 ].

(** The rows a look-up by user name joins: the profiles whose user
    carries the name. *)
Definition profiles_named (name : string) (d : DB)
  : list RevolvUserProfile :=
  filter (fun p =>
            existsb (fun u => (user_id u =? profile_user p)%nat
                              && (username u =? name)) (users d))
         (profiles d).

Definition projects_tagged (t : string) (d : DB) : list Project :=
  filter (fun j => tagline (project_data j) =? t) (projects d).

Definition users_named (name : string) (d : DB) : list User :=
  filter (fun u => username u =? name) (users d).

(** The database with [rows] at the end of the project table, their keys
    taken from its sequence. *)
Definition add_projects (rows : list Project) (d : DB) : DB :=
  mkDB (users d) (profiles d) (projects d ++ rows) (payments d) (pages d)
       (sites d) (next_user d) (next_profile d)
       (length rows + next_project d) (next_payment d) (next_page d).

(** The database with [rows] at the end of the payment table, their keys
    taken from its sequence. *)
Definition add_payments (rows : list Payment) (d : DB) : DB :=
  mkDB (users d) (profiles d) (projects d) (payments d ++ rows) (pages d)
       (sites d) (next_user d) (next_profile d) (next_project d)
       (length rows + next_payment d) (next_page d).

(** The look-up of [Manager.get] among [rows] fails: the exception it
    raises. *)
Definition get_failure {R} (m : Model) (rows : list R) : option exn :=
  match rows with
  | [] => Some (DoesNotExist m)
  | [_] => None
  | _ :: _ :: _ => Some (MultipleObjectsReturned m)
  end.

(** The row [Manager.get] returns among [rows], if it returns. *)
Definition found {R} (rows : list R) : option R :=
  match rows with
  | [r] => Some r
  | _ => None
  end.

(** The look-ups of a full clear that find nothing in a database with no
    seeded rows, in the order they are made, each with the class whose
    [except] clause catches it. *)
Definition clear_misses : list (string * exn) :=
  [ ("RevolvUserProfileSeedSpec", DoesNotExist MUser);
    ("RevolvUserProfileSeedSpec", DoesNotExist MUser);
    ("RevolvUserProfileSeedSpec", DoesNotExist MUser);
    ("ProjectSeedSpec", DoesNotExist MProject);
    ("ProjectSeedSpec", DoesNotExist MProject);
    ("ProjectSeedSpec", DoesNotExist MProject);
    ("ProjectSeedSpec", DoesNotExist MProject);
    ("PaymentSeedSpec", DoesNotExist MRevolvUserProfile) ].

(** The lines of a run that is not quiet. *)
Definition unless_quiet (q : bool) (lines : list string) : list string :=
  if q then [] else lines.

(** The root page that [CMSPageSeedSpec.clear] adds, of key [k]. *)
Definition new_root_page (k : nat) : Page :=
  mkPage k None "RE-volv Main Site Root" "" PlainPage true.

(** The database after [CMSPageSeedSpec.clear] has run on the one site
    [s] of [d]: the subtree of the root page of [s] is gone, a new root
    page is there, and the site is rooted in it. *)
Definition rerooted (s : Site) (d : DB) : DB :=
  let ids := page_closure (pages d) (length (pages d)) [root_page s] in
  mkDB (users d) (profiles d) (projects d) (payments d)
       (filter (fun p => negb (mem (page_id p) ids)) (pages d)
        ++ [new_root_page (next_page d)])
       [mkSite (site_id s) (next_page d)]
       (next_user d) (next_profile d) (next_project d) (next_payment d)
       (S (next_page d)).

(** The site of the CMS is the only one, its root page is one row of the
    page table, and the keys of the pages are below the sequence. *)
Definition one_site_ready (d : DB) : bool :=
  match sites d with
  | [s] =>
      (length (filter (fun p => page_id p =? root_page s)%nat (pages d))
       =? 1)%nat
      && forallb (fun p => page_id p <? next_page d)%nat (pages d)
  | _ => false
  end.

(** The keys of the pages are below the sequence of the page table. *)
Definition pages_below (d : DB) : bool :=
  forallb (fun p => page_id p <? next_page d)%nat (pages d).

(** The database with [rows] at the end of the page table, their keys
    taken from its sequence. *)
Definition add_pages (rows : list Page) (d : DB) : DB :=
  mkDB (users d) (profiles d) (projects d) (payments d) (pages d ++ rows)
       (sites d) (next_user d) (next_profile d) (next_project d)
       (next_payment d) (length rows + next_page d).

(** The pages [rows] are published below the page of key [parent], with
    keys from [k] on: the keys are consecutive, every page is live and has
    the slug of its title, and the parent of every page is [parent] or a
    page of [rows] that was made before it. *)
Definition published (parent k : nat) (rows : list Page) : Prop :=
  map page_id rows = seq k (length rows)
  /\ Forall (fun p => page_live p = true
                      /\ page_slug p = slugify (page_title p)) rows
  /\ Forall (fun p => exists q, page_parent p = Some q
                                /\ (q = parent \/ k <= q < page_id p)) rows.

(** [c] returns from every world whose page keys are below the sequence,
    and leaves [n] new pages, [published] below [parent], prints nothing
    and raises nothing. *)
Definition publishes (c : M unit) (parent n : nat) : Prop :=
  forall w, pages_below (db w) = true ->
    exists rows,
      c w = (Ok tt, mkWorld (add_pages rows (db w)) (stdout w) (raised w))
      /\ length rows = n
      /\ published parent (next_page (db w)) rows.

(** The parent of every page has a key below the sequence of the page
    table. *)
Definition parents_below (d : DB) : bool :=
  forallb (fun p =>
             match page_parent p with
             | Some q => (q <? next_page d)%nat
             | None => true
             end) (pages d).

(** The database with [n] keys of the page table used up. *)
Definition skip_pages (n : nat) (d : DB) : DB :=
  mkDB (users d) (profiles d) (projects d) (payments d) (pages d)
       (sites d) (next_user d) (next_profile d) (next_project d)
       (next_payment d) (n + next_page d).

(** The projects that carry a seeded tagline. *)
Definition seeded_projects (d : DB) : list Project :=
  filter (fun j => seed_tagline (tagline (project_data j))) (projects d).

(** No seeded tagline is carried by more than one project. *)
Definition tagged_once (d : DB) : bool :=
  forallb (fun p => (length (projects_tagged (tagline p) d) <=? 1)%nat)
    projects_to_clear.

(** [c] ends with no exception but those of [P]. *)
Definition only_raises {A} (P : exn -> bool) (c : M A) : Prop :=
  forall w e, fst (c w) = Raise e -> P e = true.

(** The exceptions that a clear lets through: an index out of range, a
    look-up that finds more than one row, and a profile that is not
    there. *)
Definition clear_failure (e : exn) : bool :=
  match e with
  | IndexError => true
  | MultipleObjectsReturned _ => true
  | DoesNotExist MRevolvUserProfile => true
  | _ => false
  end.

(** The number of names at the head of [names] that no user carries. *)
Fixpoint leading_free (names : list string) (d : DB) : nat :=
  match names with
  | [] => 0
  | n :: rest =>
      if existsb (fun u => username u =? n) (users d) then 0
      else S (leading_free rest d)
  end.

(** The database after the first [k] users of the seed and their profiles
    have been made. *)
Definition after_first_users (k : nat) (d : DB) : DB :=
  mkDB (users d ++ firstn k (seed_user_rows (next_user d)))
       (profiles d
        ++ firstn k (seed_profile_rows (next_user d) (next_profile d)))
       (projects d) (payments d) (pages d) (sites d)
       (k + next_user d) (k + next_profile d) (next_project d)
       (next_payment d) (next_page d).

(** * Properties *)

(** ** The forms *)

(** C8: the form for creating and updating a project lets a submission
    set exactly the thirteen listed fields, and the form of the status
    review lets it set none. *)
Theorem project_form_fields :
  Forms.base_fields Forms.ProjectForm =
    [ "title"; "mission_statement"; "funding_goal"; "impact_power";
      "end_date"; "video_url"; "cover_photo"; "org_name"; "org_about";
      "org_start_date"; "location"; "location_latitude";
      "location_longitude" ]
  /\ length (Forms.base_fields Forms.ProjectForm) = 13
  /\ NoDup (Forms.base_fields Forms.ProjectForm)
  /\ (forall n, Forms.editable Forms.ProjectForm n = true <->
        In n [ "title"; "mission_statement"; "funding_goal"; "impact_power";
               "end_date"; "video_url"; "cover_photo"; "org_name";
               "org_about"; "org_start_date"; "location";
               "location_latitude"; "location_longitude" ])
  /\ Forms.base_fields Forms.ProjectStatusForm = []
  /\ (forall n, Forms.editable Forms.ProjectStatusForm n = false).
Proof.
  assert (E : Forms.base_fields Forms.ProjectForm =
    [ "title"; "mission_statement"; "funding_goal"; "impact_power";
      "end_date"; "video_url"; "cover_photo"; "org_name"; "org_about";
      "org_start_date"; "location"; "location_latitude";
      "location_longitude" ]) by reflexivity.
  split; [exact E|].
  split; [reflexivity|].
  split.
  { rewrite E.
    repeat (constructor;
            [ simpl; intros H;
              repeat (destruct H as [H|H]; [discriminate H|]); exact H | ]).
    constructor. }
  split.
  { intros n. unfold Forms.editable, Forms.name_in. rewrite E.
    rewrite existsb_exists. split.
    - intros [x [Hin Heq]]. apply String.eqb_eq in Heq. subst x. exact Hin.
    - intros Hin. exists n. split; [exact Hin | apply String.eqb_refl]. }
  split; reflexivity.
Qed.

(** C10: a submission whose funding goal is below zero, or is written
    with more than two decimal places, does not pass the cleaning of the
    [funding_goal] field. *)
Theorem funding_goal_rejects (d : Forms.Decimal) :
  Forms.negative d = true \/ Forms.more_places_than 2 d = true ->
  Forms.clean_funding_goal (Some d) <> [].
Proof.
  intros H. unfold Forms.clean_funding_goal. simpl.
  destruct d as [sign c e| |sign]; simpl in *; try discriminate.
  destruct (2 <? Z.abs_nat e)%nat eqn:Hp; [discriminate|].
  apply Nat.ltb_ge in Hp.
  destruct H as [H|H].
  - apply andb_true_iff in H. destruct H as [Hs Hc]. subst sign.
    apply negb_true_iff in Hc. apply N.eqb_neq in Hc.
    unfold Forms.decimal_ltb.
    assert (Hneg : (- Z.of_N c < 0)%Z) by lia.
    destruct (0 <=? e)%Z eqn:He.
    + apply Z.leb_le in He.
      assert (Hpow : (0 < 10 ^ e)%Z) by (apply Z.pow_pos_nonneg; lia).
      replace (- Z.of_N c * 10 ^ e <? 0)%Z with true; [discriminate|].
      symmetry. apply Z.ltb_lt. nia.
    + replace (- Z.of_N c <? 0 * 10 ^ (- e))%Z with true; [discriminate|].
      symmetry. apply Z.ltb_lt. lia.
  - apply Z.ltb_lt in H. lia.
Qed.

Lemma funding_goal_rejects_witness :
  Forms.clean_funding_goal (Some (Forms.Finite true 5 0)) <> []
  /\ Forms.clean_funding_goal (Some (Forms.Finite false 1005 (-3))) <> [].
Proof.
  split.
  - apply (funding_goal_rejects (Forms.Finite true 5 0)).
    left. reflexivity.
  - apply (funding_goal_rejects (Forms.Finite false 1005 (-3))).
    right. reflexivity.
Defined.

(** ** The command line *)

(** C6: with [--list] the command prints the names of the
    specifications and returns at once, whatever [--clear] and [--spec]
    say: no exception, the database as it was, and (when not silenced by
    [--quiet]) the three lines with the four names. *)
Theorem list_prints_and_exits (c q : bool) (s : option string) (w : World) :
  handle (mkOptions c s q true) w =
    (Ok tt,
     mkWorld (db w)
       (stdout w ++
        if q then []
        else [ "[Seed:Info] The following seeds are available: ";
               "[Seed:Info]    revolvuserprofile, project, payment, cms";
               "[Seed:Info] Done." ])
       (raised w)).
Proof.
  destruct w as [d out r]. destruct q; cbv -[app].
  - rewrite app_nil_r. reflexivity.
  - repeat rewrite <- app_assoc. reflexivity.
Qed.

Lemma dict_get_unknown (name : string) :
  ~ In name (map fst SPECS_TO_RUN) -> dict_get SPECS_TO_RUN name = None.
Proof.
  intros H. cbn in H. cbn -[String.eqb].
  destruct ("cms" =? name) eqn:E4;
    [ apply String.eqb_eq in E4; tauto |].
  destruct ("payment" =? name) eqn:E3;
    [ apply String.eqb_eq in E3; tauto |].
  destruct ("project" =? name) eqn:E2;
    [ apply String.eqb_eq in E2; tauto |].
  destruct ("revolvuserprofile" =? name) eqn:E1;
    [ apply String.eqb_eq in E1; tauto |].
  reflexivity.
Qed.

(** C9, as the code has it: a name that is not empty and is not one of
    the four registered names selects no specification; the command warns
    (unless [--quiet]), leaves the database as it was and returns without
    an exception. *)
Theorem unknown_spec_runs_nothing (c q : bool) (name : string) (w : World) :
  name <> "" ->
  ~ In name (map fst SPECS_TO_RUN) ->
  handle (mkOptions c (Some name) q false) w =
    (Ok tt,
     mkWorld (db w)
       (stdout w ++
        if q then []
        else [ ("[Seed:Warning] Trying to run only spec " ++ name
                ++ ", but it doesn't exist.")%string;
               ("[Seed:Info] " ++ (if c then "Clearing" else "Seeding")
                ++ " objects from 0 seed spec(s)...")%string;
               "[Seed:Info] Done!" ])
       (raised w)).
Proof.
  intros Hne Hin. unfold handle, select_specs, spec_given. cbn [opt_list opt_spec].
  destruct name as [|a name']; [congruence|].
  rewrite (dict_get_unknown _ Hin).
  destruct w as [d out r].
  unfold log, when, bind, print, ret, for_each. cbn.
  destruct q; cbn.
  - rewrite app_nil_r. reflexivity.
  - destruct c; cbn; repeat rewrite <- app_assoc; reflexivity.
Qed.

Lemma unknown_spec_runs_nothing_witness :
  handle (mkOptions false (Some "users") false false) (mkWorld fresh_db [] [])
  = (Ok tt,
     mkWorld fresh_db
       [ "[Seed:Warning] Trying to run only spec users, but it doesn't exist.";
         "[Seed:Info] Seeding objects from 0 seed spec(s)...";
         "[Seed:Info] Done!" ]
       []).
Proof.
  apply (unknown_spec_runs_nothing false false "users" (mkWorld fresh_db [] [])).
  - discriminate.
  - cbn. intros H.
    repeat (destruct H as [H|H]; [discriminate H|]). exact H.
Defined.

(** C9 fails for the empty name: it is none of the four names, and
    [--spec ""] counts as no [--spec] at all, so all four specifications
    run. *)
Lemma empty_spec_name_runs_all :
  ~ In "" (map fst SPECS_TO_RUN)
  /\ outcome (mkOptions false (Some "") false false) fresh_db = Ok tt
  /\ output (mkOptions false (Some "") false false) fresh_db =
       [ "[Seed:Info] Seeding objects from 4 seed spec(s)...";
         "[Seed:Info] Done!" ]
  /\ length (users fresh_db) = 0
  /\ length (users (db_after (mkOptions false (Some "") false false)
                      fresh_db)) = 3
  /\ db_after (mkOptions false (Some "") false false) fresh_db <> fresh_db.
Proof.
  split.
  { cbn. intros H. repeat (destruct H as [H|H]; [discriminate H|]). exact H. }
  split; [vm_compute; reflexivity|].
  split; [vm_compute; reflexivity|].
  split; [reflexivity|].
  split; [vm_compute; reflexivity|].
  intros H. apply (f_equal (fun d => length (users d))) in H.
  vm_compute in H. discriminate H.
Qed.

(** ** Reasoning about computations *)

Lemma PageTuple_nested_ind (P : PageTuple -> Prop) :
  (forall t h, P (link t h)) ->
  (forall t l, Forall P l -> P (page t l)) ->
  forall x, P x.
Proof.
  intros Hlink Hpage. fix IH 1. intros [t h|t l].
  - apply Hlink.
  - apply Hpage. induction l as [|x l IHl]; constructor.
    + apply IH.
    + exact IHl.
Qed.

Section Silenced.

Lemma silenced_ret {A} (a : A) : silenced (ret a) (ret a).
Proof. intros w1 w2 Hd Hr. cbn. repeat split; congruence. Qed.

Lemma silenced_raise {A} (e : exn) : silenced (@raise A e) (raise e).
Proof. intros w1 w2 Hd Hr. cbn. repeat split; congruence. Qed.

Lemma silenced_get_db : silenced get_db get_db.
Proof. intros w1 w2 Hd Hr. cbn. repeat split; congruence. Qed.

Lemma silenced_modify_db (f : DB -> DB) :
  silenced (modify_db f) (modify_db f).
Proof. intros w1 w2 Hd Hr. cbn. repeat split; congruence. Qed.

Lemma silenced_print (s : string) : silenced (ret tt) (print s).
Proof. intros w1 w2 Hd Hr. cbn. repeat split; congruence. Qed.

Lemma silenced_bind {A B} (c1 c2 : M A) (k1 k2 : A -> M B) :
  silenced c1 c2 -> (forall a, silenced (k1 a) (k2 a)) ->
  silenced (bind c1 k1) (bind c2 k2).
Proof.
  intros Hc Hk w1 w2 Hd Hr. unfold bind.
  destruct (Hc w1 w2 Hd Hr) as (Hres & Hd' & Hr' & Hout).
  destruct (c1 w1) as [[a1|e1] w1'], (c2 w2) as [[a2|e2] w2'];
    cbn in *; try discriminate.
  - injection Hres as ->.
    destruct (Hk a2 w1' w2' Hd' Hr') as (Hres2 & Hd2 & Hr2 & Hout2).
    rewrite Hout2. repeat split; assumption.
  - injection Hres as ->. repeat split; assumption || reflexivity.
Qed.

Lemma silenced_try {A} (b1 b2 : M A) (catches : exn -> bool)
  (h1 h2 : exn -> M A) :
  silenced b1 b2 -> (forall e, silenced (h1 e) (h2 e)) ->
  silenced (try_except b1 catches h1) (try_except b2 catches h2).
Proof.
  intros Hb Hh w1 w2 Hd Hr. unfold try_except.
  destruct (Hb w1 w2 Hd Hr) as (Hres & Hd' & Hr' & Hout).
  destruct (b1 w1) as [[a1|e1] w1'], (b2 w2) as [[a2|e2] w2'];
    cbn in *; try discriminate.
  - repeat split; assumption.
  - injection Hres as ->. destruct (catches e2).
    + destruct (Hh e2 w1' w2' Hd' Hr') as (Hres2 & Hd2 & Hr2 & Hout2).
      rewrite Hout2. repeat split; assumption.
    + cbn. repeat split; assumption.
Qed.

Lemma silenced_for_each {A} (xs : list A) (f1 f2 : A -> M unit) :
  (forall x, silenced (f1 x) (f2 x)) ->
  silenced (for_each xs f1) (for_each xs f2).
Proof.
  intros Hf. induction xs as [|x xs IH]; cbn.
  - apply silenced_ret.
  - apply silenced_bind; [apply Hf | intros _; exact IH].
Qed.

End Silenced.

(** Takes a goal [silenced c c'] apart along the structure of [c]. *)
Ltac silence :=
  repeat first
    [ apply silenced_ret | apply silenced_raise | apply silenced_get_db
    | apply silenced_modify_db | apply silenced_print
    | apply silenced_bind; [| intros ?]
    | apply silenced_try; [| intros ?]
    | apply silenced_for_each; intros ?
    | match goal with
      | |- silenced (match ?x with _ => _ end) _ => destruct x
      end ].

Section SilencedCalls.

Lemma silenced_get_one {R} (m : Model) (rows : list R) :
  silenced (get_one m rows) (get_one m rows).
Proof. unfold get_one. silence. Qed.

Lemma silenced_create (role : Role) (n e f l p : string) :
  silenced (create_user_with_role role n e f l p)
           (create_user_with_role role n e f l p).
Proof. unfold create_user_with_role. silence. Qed.

Lemma silenced_Profile_get_username (n : string) :
  silenced (Profile_get_username n) (Profile_get_username n).
Proof.
  unfold Profile_get_username.
  apply silenced_bind; [silence | intros d; apply silenced_get_one].
Qed.

Lemma silenced_Project_get_tagline (t : string) :
  silenced (Project_get_tagline t) (Project_get_tagline t).
Proof.
  unfold Project_get_tagline.
  apply silenced_bind; [silence | intros d; apply silenced_get_one].
Qed.

Lemma silenced_User_get (n : string) :
  silenced (User_get n) (User_get n).
Proof.
  unfold User_get.
  apply silenced_bind; [silence | intros d; apply silenced_get_one].
Qed.

Lemma silenced_publish (t slug : string) (c : PageContent)
  (parent : option Page) (user : User) :
  silenced (publish_page_for_parent t slug c parent user)
           (publish_page_for_parent t slug c parent user).
Proof.
  unfold publish_page_for_parent, Site_first, Site_root_page, add_child,
    save_revision_publish.
  silence; apply silenced_get_one.
Qed.

Lemma silenced_seed_page_tuple (x : PageTuple) :
  forall user parent,
    silenced (seed_page_tuple x user parent) (seed_page_tuple x user parent).
Proof.
  induction x as [t h|t l IH] using PageTuple_nested_ind;
    intros user parent; cbn.
  - unfold publish_link_page.
    apply silenced_bind; [apply silenced_publish | intros; silence].
  - unfold publish_page.
    apply silenced_bind; [apply silenced_publish |].
    intros new_page. induction IH as [|x l Hx Hl IHl].
    + silence.
    + apply silenced_bind; [apply Hx | intros _; exact IHl].
Qed.

Lemma silenced_seed (spec : SeedSpec) :
  In spec (map snd SPECS_TO_RUN) ->
  silenced (seed spec true) (seed spec false).
Proof.
  cbn. intros [<-|[<-|[<-|[<-|[]]]]];
    cbn [seed clear RevolvUserProfileSeedSpec ProjectSeedSpec
         PaymentSeedSpec CMSPageSeedSpec].
  - unfold RevolvUserProfile_seed, create_user, create_user_as_ambassador,
      create_user_as_admin.
    repeat (apply silenced_bind; [apply silenced_create | intros ?]).
    silence.
  - unfold Project_seed, Project_create.
    apply silenced_bind; [apply silenced_Profile_get_username | intros ?].
    silence.
  - unfold Payment_seed, Payment_create.
    repeat (apply silenced_bind;
            [apply silenced_Profile_get_username | intros ?]).
    repeat (apply silenced_bind;
            [apply silenced_Project_get_tagline | intros ?]).
    silence.
  - unfold CMSPage_seed, recursively_seed_pages.
    apply silenced_bind; [apply silenced_User_get | intros user].
    apply silenced_for_each. intros x. apply silenced_seed_page_tuple.
Qed.

Lemma silenced_warn (cls : string) (e : exn) :
  silenced (warn_unless true cls e) (warn_unless false cls e).
Proof. unfold warn_unless, when. cbn. apply silenced_print. Qed.

Lemma silenced_clear (spec : SeedSpec) :
  In spec (map snd SPECS_TO_RUN) ->
  silenced (clear spec true) (clear spec false).
Proof.
  cbn. intros [<-|[<-|[<-|[<-|[]]]]];
    cbn [seed clear RevolvUserProfileSeedSpec ProjectSeedSpec
         PaymentSeedSpec CMSPageSeedSpec].
  - unfold RevolvUserProfile_clear. apply silenced_for_each. intros name.
    apply silenced_try; [| intros e; apply silenced_warn].
    unfold RevolvUserProfile_clear_one, Profile_get_user, Profile_delete,
      User_delete.
    apply silenced_bind; [apply silenced_User_get | intros ?].
    silence. apply silenced_get_one.
  - unfold Project_clear. apply silenced_for_each. intros project.
    apply silenced_try; [| intros e; apply silenced_warn].
    unfold Project_clear_one, Project_delete.
    apply silenced_bind; [apply silenced_Project_get_tagline | intros ?].
    silence.
  - unfold Payment_clear.
    apply silenced_try; [| intros e; apply silenced_warn].
    unfold Payment_clear_body, Payments_of_user_delete.
    repeat (apply silenced_bind;
            [apply silenced_Profile_get_username | intros ?]).
    silence.
  - unfold CMSPage_clear.
    apply silenced_try; [| intros e; apply silenced_warn].
    unfold CMSPage_clear_body, Site_first, Site_root_page, Page_delete,
      Page_add_root, Site_save_root.
    silence; apply silenced_get_one.
Qed.

End SilencedCalls.

Section Selection.

Lemma dict_get_registered (name : string) (spec : SeedSpec) :
  dict_get SPECS_TO_RUN name = Some spec -> In spec (map snd SPECS_TO_RUN).
Proof.
  cbn -[String.eqb].
  destruct ("cms" =? name);
    [ intros [= <-]; tauto |].
  destruct ("payment" =? name);
    [ intros [= <-]; tauto |].
  destruct ("project" =? name);
    [ intros [= <-]; tauto |].
  destruct ("revolvuserprofile" =? name);
    [ intros [= <-]; tauto | discriminate ].
Qed.

(** [handle] only ever runs registered specifications. *)
Lemma select_specs_registered (o : Options) (w : World) :
  match fst (select_specs o w) with
  | Ok l => Forall (fun spec => In spec (map snd SPECS_TO_RUN)) l
  | Raise _ => False
  end.
Proof.
  unfold select_specs. destruct (spec_given o) as [name|].
  - destruct (dict_get SPECS_TO_RUN name) as [spec|] eqn:E.
    + cbn. constructor; [| constructor].
      exact (dict_get_registered _ _ E).
    + unfold log, when. destruct (negb (opt_quiet o)); cbn; constructor.
  - cbn -[In]. rewrite Forall_forall. auto.
Qed.

Lemma silenced_bind_post {A B} (P : A -> Prop) (c1 c2 : M A)
  (k1 k2 : A -> M B) :
  silenced c1 c2 ->
  (forall w, match fst (c2 w) with Ok a => P a | Raise _ => True end) ->
  (forall a, P a -> silenced (k1 a) (k2 a)) ->
  silenced (bind c1 k1) (bind c2 k2).
Proof.
  intros Hc HP Hk w1 w2 Hd Hr. unfold bind.
  destruct (Hc w1 w2 Hd Hr) as (Hres & Hd' & Hr' & Hout).
  specialize (HP w2).
  destruct (c1 w1) as [[a1|e1] w1'], (c2 w2) as [[a2|e2] w2'];
    cbn in *; try discriminate.
  - injection Hres as ->.
    destruct (Hk a2 HP w1' w2' Hd' Hr') as (Hres2 & Hd2 & Hr2 & Hout2).
    rewrite Hout2. repeat split; assumption.
  - injection Hres as ->. repeat split; assumption || reflexivity.
Qed.

Lemma silenced_log (c l : bool) (s : option string) (msg : string) :
  silenced (log (mkOptions c s true l) msg)
           (log (mkOptions c s false l) msg).
Proof. unfold log, when. cbn. apply silenced_print. Qed.

Lemma silenced_select_specs (c l : bool) (s : option string) :
  silenced (select_specs (mkOptions c s true l))
           (select_specs (mkOptions c s false l)).
Proof.
  unfold select_specs, spec_given. cbn [opt_spec].
  destruct s as [[|a name]|]; try apply silenced_ret.
  destruct (dict_get SPECS_TO_RUN (String a name)); [apply silenced_ret|].
  apply silenced_bind; [apply silenced_log | intros _; apply silenced_ret].
Qed.

Lemma silenced_handle (c l : bool) (s : option string) :
  silenced (handle (mkOptions c s true l)) (handle (mkOptions c s false l)).
Proof.
  unfold handle. cbn [opt_list opt_clear opt_quiet]. destruct l.
  - repeat (apply silenced_bind; [apply silenced_log | intros _]).
    apply silenced_log.
  - apply silenced_bind_post
      with (P := Forall (fun spec => In spec (map snd SPECS_TO_RUN))).
    + apply silenced_select_specs.
    + intros w.
      pose proof (select_specs_registered (mkOptions c s false false) w) as H.
      destruct (fst (select_specs (mkOptions c s false false) w));
        [exact H | exact I].
    + intros specs Hspecs.
      apply silenced_bind; [apply silenced_log | intros _].
      apply silenced_bind; [| intros _; apply silenced_log].
      induction Hspecs as [|spec specs Hspec Hrest IH].
      * apply silenced_ret.
      * cbn [for_each]. apply silenced_bind; [| intros _; exact IH].
        destruct c; [apply silenced_clear | apply silenced_seed]; exact Hspec.
Qed.

End Selection.

(** C7: [--quiet] takes the output away and nothing else.  From the same
    world, the quiet run prints nothing, and it ends with the same result,
    the same database and the same exceptions raised as the run without
    [--quiet]. *)
Theorem quiet_changes_only_output (c l : bool) (s : option string)
  (w : World) :
  stdout (snd (handle (mkOptions c s true l) w)) = stdout w
  /\ fst (handle (mkOptions c s true l) w)
     = fst (handle (mkOptions c s false l) w)
  /\ db (snd (handle (mkOptions c s true l) w))
     = db (snd (handle (mkOptions c s false l) w))
  /\ raised (snd (handle (mkOptions c s true l) w))
     = raised (snd (handle (mkOptions c s false l) w)).
Proof.
  destruct (silenced_handle c l s w w eq_refl eq_refl) as (H1 & H2 & H3 & H4).
  repeat split; assumption.
Qed.

Section Accounts.

Variables clearing quiet : bool.

Lemma accounts_silent {A} (c : M A) :
  (forall w, exists a, c w = (Ok a, mkWorld (db (snd (c w))) (stdout w) (raised w))) ->
  accounts clearing quiet c.
Proof.
  intros H w. exists [], []. destruct (H w) as [a Ha]. rewrite Ha. cbn.
  repeat rewrite app_nil_r.
  repeat split; try constructor. destruct quiet; constructor.
Qed.

Lemma accounts_ret {A} (a : A) : accounts clearing quiet (ret a).
Proof.
  apply accounts_silent. intros [d o r]. exists a. reflexivity.
Qed.

Lemma accounts_get_db : accounts clearing quiet get_db.
Proof.
  apply accounts_silent. intros [d o r]. exists d. reflexivity.
Qed.

Lemma accounts_modify_db (f : DB -> DB) :
  accounts clearing quiet (modify_db f).
Proof.
  apply accounts_silent. intros [d o r]. exists tt. reflexivity.
Qed.

Lemma accounts_raise {A} (e : exn) : accounts clearing quiet (@raise A e).
Proof.
  intros w. exists [], []. cbn. rewrite app_nil_r.
  repeat split; try constructor. destruct quiet; constructor.
Qed.

Lemma accounts_print (s : string) :
  is_clear_warning s = false -> accounts clearing quiet (print s).
Proof.
  intros Hs w. exists [], [s]. cbn -[is_clear_warning].
  rewrite Hs, app_nil_r.
  repeat split; try constructor. destruct quiet; constructor.
Qed.

Lemma accounts_bind_post {A B} (P : A -> Prop) (c : M A) (k : A -> M B) :
  accounts clearing quiet c ->
  (forall w, match fst (c w) with Ok a => P a | Raise _ => True end) ->
  (forall a, P a -> accounts clearing quiet (k a)) ->
  accounts clearing quiet (bind c k).
Proof.
  intros Hc HP Hk w. unfold bind.
  destruct (Hc w) as (ca & la & Hr & Ho & Hf & Hn & Hw).
  specialize (HP w).
  destruct (c w) as [[a|e] w']; cbn [fst snd] in *.
  - destruct (Hk a HP w') as (cb & lb & Hr' & Ho' & Hf' & Hn' & Hw').
    exists (ca ++ cb), (la ++ lb).
    rewrite Hr', Ho', Hr, Ho. rewrite app_nil_r.
    repeat rewrite <- app_assoc.
    split; [reflexivity|]. split; [reflexivity|].
    split; [apply Forall_app; split; assumption|].
    split; [intros Hcl; rewrite (Hn Hcl), (Hn' Hcl); reflexivity|].
    rewrite filter_app. destruct quiet.
    + assert (Ea : filter is_clear_warning la = [])
        by (inversion Hw; reflexivity).
      assert (Eb : filter is_clear_warning lb = [])
        by (inversion Hw'; reflexivity).
      rewrite Ea, Eb. constructor.
    + apply Forall2_app; assumption.
  - exists ca, la. repeat split; assumption.
Qed.

Lemma accounts_bind {A B} (c : M A) (k : A -> M B) :
  accounts clearing quiet c ->
  (forall a, accounts clearing quiet (k a)) ->
  accounts clearing quiet (bind c k).
Proof.
  intros Hc Hk. apply accounts_bind_post with (P := fun _ => True).
  - exact Hc.
  - intros w. destruct (fst (c w)); exact I.
  - intros a _. apply Hk.
Qed.

Lemma accounts_for_each {A} (xs : list A) (f : A -> M unit) :
  Forall (fun x => accounts clearing quiet (f x)) xs ->
  accounts clearing quiet (for_each xs f).
Proof.
  intros H. induction H as [|x xs Hx Hxs IH]; cbn [for_each].
  - apply accounts_ret.
  - apply accounts_bind; [exact Hx | intros _; exact IH].
Qed.

Lemma is_clear_warning_clear_warning (cls : string) (e : exn) :
  is_clear_warning (clear_warning cls e) = true.
Proof. reflexivity. Qed.

(** An [except] clause of a specification: it catches record-not-found
    errors only, and only a run that clears gets there. *)
Lemma accounts_try_warn (body : M unit) (catches : exn -> bool)
  (cls : string) :
  clearing = true ->
  (forall e, catches e = true -> is_ObjectDoesNotExist e = true) ->
  accounts clearing quiet body ->
  accounts clearing quiet
    (try_except body catches (warn_unless quiet cls)).
Proof.
  intros Hcl Hcatch Hb w. unfold try_except.
  destruct (Hb w) as (ca & la & Hr & Ho & Hf & Hn & Hw).
  destruct (body w) as [[a|e] w']; cbn [fst snd] in *.
  - exists ca, la. repeat split; assumption.
  - destruct (catches e) eqn:Ec.
    + assert (Hfe : Forall (fun e => is_ObjectDoesNotExist e = true)
                      (ca ++ [e])).
      { apply Forall_app. split; [exact Hf|].
        constructor; [apply Hcatch; exact Ec | constructor]. }
      exists (ca ++ [e]),
        (la ++ if quiet then [] else [clear_warning cls e]).
      unfold warn_unless, when, print, ret.
      destruct quiet; cbn [negb fst snd db stdout raised].
      * rewrite Hr, Ho. repeat rewrite app_nil_r.
        repeat rewrite <- app_assoc.
        split; [reflexivity|]. split; [reflexivity|].
        split; [exact Hfe|]. split; [congruence|]. exact Hw.
      * rewrite Hr, Ho. repeat rewrite app_nil_r.
        repeat rewrite <- app_assoc.
        split; [reflexivity|]. split; [reflexivity|].
        split; [exact Hfe|]. split; [congruence|].
        rewrite filter_app. apply Forall2_app; [exact Hw|].
        cbn [filter]. rewrite is_clear_warning_clear_warning.
        constructor; [exists cls; reflexivity | constructor].
    + cbn [fst snd]. exists ca, la. repeat split; assumption.
Qed.

End Accounts.

(** Takes a goal [accounts c q m] apart along the structure of [m], as
    long as [m] has no [except] clause. *)
Ltac account :=
  repeat first
    [ apply accounts_ret | apply accounts_raise | apply accounts_get_db
    | apply accounts_modify_db
    | apply accounts_bind; [| intros ?]
    | match goal with
      | |- accounts _ _ (match ?x with _ => _ end) => destruct x
      end ].

Section AccountsCalls.

Variables clearing quiet : bool.

Lemma accounts_get_one {R} (m : Model) (rows : list R) :
  accounts clearing quiet (get_one m rows).
Proof. unfold get_one. account. Qed.

Lemma accounts_create (role : Role) (n e f l p : string) :
  accounts clearing quiet (create_user_with_role role n e f l p).
Proof. unfold create_user_with_role. account. Qed.

Lemma accounts_Profile_get_username (n : string) :
  accounts clearing quiet (Profile_get_username n).
Proof.
  unfold Profile_get_username.
  apply accounts_bind; [account | intros d; apply accounts_get_one].
Qed.

Lemma accounts_Project_get_tagline (t : string) :
  accounts clearing quiet (Project_get_tagline t).
Proof.
  unfold Project_get_tagline.
  apply accounts_bind; [account | intros d; apply accounts_get_one].
Qed.

Lemma accounts_User_get (n : string) :
  accounts clearing quiet (User_get n).
Proof.
  unfold User_get.
  apply accounts_bind; [account | intros d; apply accounts_get_one].
Qed.

Lemma accounts_publish (t slug : string) (c : PageContent)
  (parent : option Page) (user : User) :
  accounts clearing quiet (publish_page_for_parent t slug c parent user).
Proof.
  unfold publish_page_for_parent, Site_first, Site_root_page, add_child,
    save_revision_publish.
  account; apply accounts_get_one.
Qed.

Lemma accounts_seed_page_tuple (x : PageTuple) :
  forall user parent,
    accounts clearing quiet (seed_page_tuple x user parent).
Proof.
  induction x as [t h|t l IH] using PageTuple_nested_ind;
    intros user parent; cbn.
  - unfold publish_link_page.
    apply accounts_bind; [apply accounts_publish | intros; account].
  - unfold publish_page.
    apply accounts_bind; [apply accounts_publish |].
    intros new_page. induction IH as [|x l Hx Hl IHl].
    + account.
    + apply accounts_bind; [apply Hx | intros _; exact IHl].
Qed.

(** No [seed] has an [except] clause. *)
Lemma accounts_seed (spec : SeedSpec) (q : bool) :
  In spec (map snd SPECS_TO_RUN) ->
  accounts clearing quiet (seed spec q).
Proof.
  cbn. intros [<-|[<-|[<-|[<-|[]]]]];
    cbn [seed clear RevolvUserProfileSeedSpec ProjectSeedSpec
         PaymentSeedSpec CMSPageSeedSpec].
  - unfold RevolvUserProfile_seed, create_user, create_user_as_ambassador,
      create_user_as_admin.
    repeat (apply accounts_bind; [apply accounts_create | intros ?]).
    account.
  - unfold Project_seed, Project_create.
    apply accounts_bind; [apply accounts_Profile_get_username | intros ?].
    account.
  - unfold Payment_seed, Payment_create.
    repeat (apply accounts_bind;
            [apply accounts_Profile_get_username | intros ?]).
    repeat (apply accounts_bind;
            [apply accounts_Project_get_tagline | intros ?]).
    account.
  - unfold CMSPage_seed, recursively_seed_pages.
    apply accounts_bind; [apply accounts_User_get | intros user].
    apply accounts_for_each. rewrite Forall_forall. intros x _.
    apply accounts_seed_page_tuple.
Qed.

Lemma accounts_log (o : Options) (msg : string) :
  opt_quiet o = quiet ->
  is_clear_warning msg = false ->
  accounts clearing quiet (log o msg).
Proof.
  intros Hq Hm. unfold log, when. destruct (negb (opt_quiet o)).
  - apply accounts_print. exact Hm.
  - apply accounts_ret.
Qed.

End AccountsCalls.

Section AccountsClear.

Variable quiet : bool.

Lemma is_DoesNotExist_not_found (m : Model) (e : exn) :
  is_DoesNotExist m e = true -> is_ObjectDoesNotExist e = true.
Proof. destruct e; cbn; intros H; try discriminate H; reflexivity. Qed.

(** The [except] clauses of the four [clear] methods. *)
Lemma accounts_clear (spec : SeedSpec) :
  In spec (map snd SPECS_TO_RUN) ->
  accounts true quiet (clear spec quiet).
Proof.
  cbn. intros [<-|[<-|[<-|[<-|[]]]]];
    cbn [seed clear RevolvUserProfileSeedSpec ProjectSeedSpec
         PaymentSeedSpec CMSPageSeedSpec].
  - unfold RevolvUserProfile_clear. apply accounts_for_each.
    rewrite Forall_forall. intros name _.
    apply accounts_try_warn;
      [reflexivity | apply is_DoesNotExist_not_found |].
    unfold RevolvUserProfile_clear_one, Profile_get_user, Profile_delete,
      User_delete.
    apply accounts_bind; [apply accounts_User_get | intros ?].
    account. apply accounts_get_one.
  - unfold Project_clear. apply accounts_for_each.
    rewrite Forall_forall. intros project _.
    apply accounts_try_warn;
      [reflexivity | apply is_DoesNotExist_not_found |].
    unfold Project_clear_one, Project_delete.
    apply accounts_bind; [apply accounts_Project_get_tagline | intros ?].
    account.
  - unfold Payment_clear.
    apply accounts_try_warn;
      [reflexivity | apply is_DoesNotExist_not_found |].
    unfold Payment_clear_body, Payments_of_user_delete.
    repeat (apply accounts_bind;
            [apply accounts_Profile_get_username | intros ?]).
    account.
  - unfold CMSPage_clear.
    apply accounts_try_warn; [reflexivity | auto |].
    unfold CMSPage_clear_body, Site_first, Site_root_page, Page_delete,
      Page_add_root, Site_save_root.
    account; apply accounts_get_one.
Qed.

Lemma accounts_select_specs (o : Options) (clearing : bool) :
  opt_quiet o = quiet ->
  accounts clearing quiet (select_specs o).
Proof.
  intros Hq. unfold select_specs.
  destruct (spec_given o) as [name|]; [| apply accounts_ret].
  destruct (dict_get SPECS_TO_RUN name); [apply accounts_ret|].
  apply accounts_bind; [| intros _; apply accounts_ret].
  apply accounts_log; [exact Hq | reflexivity].
Qed.

Lemma accounts_handle (o : Options) :
  opt_quiet o = quiet ->
  accounts (opt_clear o) quiet (handle o).
Proof.
  intros Hq. unfold handle. destruct (opt_list o).
  - repeat (apply accounts_bind;
            [apply accounts_log; [exact Hq | reflexivity] | intros _]).
    apply accounts_log; [exact Hq | reflexivity].
  - apply accounts_bind_post
      with (P := Forall (fun spec => In spec (map snd SPECS_TO_RUN))).
    + apply accounts_select_specs. exact Hq.
    + intros w. pose proof (select_specs_registered o w) as H.
      destruct (fst (select_specs o w)); [exact H | exact I].
    + intros specs Hspecs.
      apply accounts_bind.
      { apply accounts_log; [exact Hq|].
        destruct (opt_clear o); reflexivity. }
      intros _.
      apply accounts_bind;
        [| intros _; apply accounts_log; [exact Hq | reflexivity]].
      apply accounts_for_each.
      apply Forall_impl with (2 := Hspecs). intros spec Hspec.
      rewrite Hq. destruct (opt_clear o).
      * apply accounts_clear. exact Hspec.
      * apply accounts_seed. exact Hspec.
Qed.

End AccountsClear.

(** C4: what the command does with exceptions.  Of the exceptions
    raised during a run, all but the one the run ends with were caught;
    each caught one is a record-not-found error, and the run was clearing;
    each caught one is reduced to one warning line, or to nothing under
    [--quiet].  So a run that seeds catches nothing, an exception of
    another class is never caught, and the exception that ends the run is
    the last one raised: it leaves the command as it was raised. *)
Theorem only_not_found_is_caught (o : Options) (w : World) :
  exists caught lines,
    raised (snd (handle o w)) =
      raised w ++ caught
      ++ match fst (handle o w) with Ok _ => [] | Raise e => [e] end
    /\ stdout (snd (handle o w)) = stdout w ++ lines
    /\ Forall (fun e => exists m, e = DoesNotExist m) caught
    /\ (opt_clear o = false -> caught = [])
    /\ Forall2 (fun line e => exists cls, line = clear_warning cls e)
         (filter is_clear_warning lines)
         (if opt_quiet o then [] else caught).
Proof.
  destruct (accounts_handle (opt_quiet o) o eq_refl w)
    as (caught & lines & Hr & Ho & Hf & Hn & Hw).
  exists caught, lines. repeat split; try assumption.
  apply Forall_impl with (2 := Hf). intros [m| | | |]; cbn; try discriminate.
  intros _. exists m. reflexivity.
Qed.

Section Preserves.

Context {X : Type} (f : DB -> X).

Lemma preserves_ret {A} (a : A) : preserves f (ret a).
Proof. intros w. reflexivity. Qed.

Lemma preserves_raise {A} (e : exn) : preserves f (@raise A e).
Proof. intros w. reflexivity. Qed.

Lemma preserves_get_db : preserves f get_db.
Proof. intros w. reflexivity. Qed.

Lemma preserves_print (s : string) : preserves f (print s).
Proof. intros w. reflexivity. Qed.

Lemma preserves_modify_db (g : DB -> DB) :
  (forall d, f (g d) = f d) -> preserves f (modify_db g).
Proof. intros H w. cbn. apply H. Qed.

Lemma preserves_bind {A B} (c : M A) (k : A -> M B) :
  preserves f c -> (forall a, preserves f (k a)) ->
  preserves f (bind c k).
Proof.
  intros Hc Hk w. unfold bind. specialize (Hc w).
  destruct (c w) as [[a|e] w']; cbn [snd] in *.
  - rewrite (Hk a w'). exact Hc.
  - exact Hc.
Qed.

Lemma preserves_try {A} (body : M A) (catches : exn -> bool)
  (handler : exn -> M A) :
  preserves f body -> (forall e, preserves f (handler e)) ->
  preserves f (try_except body catches handler).
Proof.
  intros Hb Hh w. unfold try_except. specialize (Hb w).
  destruct (body w) as [[a|e] w']; cbn [snd] in *.
  - exact Hb.
  - destruct (catches e); [rewrite (Hh e w')|]; exact Hb.
Qed.

Lemma preserves_for_each {A} (xs : list A) (g : A -> M unit) :
  (forall x, preserves f (g x)) -> preserves f (for_each xs g).
Proof.
  intros Hg. induction xs as [|x xs IH]; cbn [for_each].
  - apply preserves_ret.
  - apply preserves_bind; [apply Hg | intros _; exact IH].
Qed.

Lemma preserves_when (c : bool) (body : M unit) :
  preserves f body -> preserves f (when c body).
Proof. intros H. destruct c; [exact H | apply preserves_ret]. Qed.

End Preserves.

(** Takes a goal [preserves f c] apart along the structure of [c]; a write
    to the database must leave [f] alone by computation. *)
Ltac preserve :=
  repeat first
    [ apply preserves_ret | apply preserves_raise | apply preserves_get_db
    | apply preserves_print
    | apply preserves_modify_db; intros ?; reflexivity
    | apply preserves_when
    | apply preserves_bind; [| intros ?]
    | apply preserves_try; [| intros ?]
    | apply preserves_for_each; intros ?
    | match goal with
      | |- preserves _ (match ?x with _ => _ end) => destruct x
      end ].

(** Unfolds the calls of the specifications down to reads and writes. *)
Ltac open_calls :=
  unfold RevolvUserProfile_seed, RevolvUserProfile_clear,
    RevolvUserProfile_clear_one, Project_seed, Project_clear,
    Project_clear_one, Payment_seed, Payment_clear, Payment_clear_body,
    CMSPage_clear, CMSPage_clear_body, warn_unless,
    create_user, create_user_as_ambassador, create_user_as_admin,
    create_user_with_role, User_get, Profile_get_user, Profile_get_username,
    Project_get_tagline, Profile_delete, User_delete, Project_delete,
    Project_create, Payment_create, Payments_of_user_delete, Site_first,
    Site_root_page, Page_delete, Page_add_root, Site_save_root, get_one.

Section PreservesCalls.

Context {X : Type} (f : DB -> X).

(** The page operations leave every part of the database alone that
    writes to the page table leave alone. *)
Hypothesis f_set_pages : forall g d, f (set_pages g d) = f d.
Hypothesis f_bump_page : forall d, f (bump_page d) = f d.

Lemma preserves_publish (t slug : string) (c : PageContent)
  (parent : option Page) (user : User) :
  preserves f (publish_page_for_parent t slug c parent user).
Proof.
  unfold publish_page_for_parent, Site_first, Site_root_page, add_child,
    save_revision_publish, get_one.
  repeat first
    [ apply preserves_ret | apply preserves_raise | apply preserves_get_db
    | apply preserves_modify_db; intros ?;
      rewrite ?f_bump_page, ?f_set_pages; reflexivity
    | apply preserves_bind; [| intros ?]
    | match goal with
      | |- preserves _ (match ?x with _ => _ end) => destruct x
      end ].
Qed.

Lemma preserves_seed_page_tuple (x : PageTuple) :
  forall user parent, preserves f (seed_page_tuple x user parent).
Proof.
  induction x as [t h|t l IH] using PageTuple_nested_ind;
    intros user parent; cbn.
  - unfold publish_link_page.
    apply preserves_bind; [apply preserves_publish | intros; preserve].
  - unfold publish_page.
    apply preserves_bind; [apply preserves_publish |].
    intros new_page. induction IH as [|x l Hx Hl IHl].
    + preserve.
    + apply preserves_bind; [apply Hx | intros _; exact IHl].
Qed.

Lemma preserves_CMSPage_seed (q : bool) : preserves f (CMSPage_seed q).
Proof.
  unfold CMSPage_seed, recursively_seed_pages, User_get, get_one.
  apply preserves_bind; [preserve | intros user].
  apply preserves_for_each. intros x. apply preserves_seed_page_tuple.
Qed.

End PreservesCalls.

Section Frames.

Context {X : Type} (f : DB -> X).

Lemma preserves_bind_ret {A B} (a : A) (k : A -> M B) :
  preserves f (k a) -> preserves f (bind (ret a) k).
Proof. intros H w. exact (H w). Qed.

Lemma preserves_log (o : Options) (msg : string) :
  preserves f (log o msg).
Proof. unfold log. preserve. Qed.

(** A run of [handle] on one registered name is a run of that
    specification between two log lines. *)
Lemma preserves_handle_single (c q : bool) (name : string)
  (spec : SeedSpec) :
  In (name, spec) SPECS_TO_RUN ->
  preserves f (if c then clear spec q else seed spec q) ->
  preserves f (handle (mkOptions c (Some name) q false)).
Proof.
  intros Hin Hspec. unfold handle. cbn [opt_list opt_clear opt_quiet].
  assert (Hsel : select_specs (mkOptions c (Some name) q false)
                 = ret [spec]).
  { cbn in Hin.
    destruct Hin as [H|[H|[H|[H|[]]]]]; injection H as <- <-; reflexivity. }
  rewrite Hsel. apply preserves_bind_ret.
  apply preserves_bind; [apply preserves_log | intros _].
  apply preserves_bind; [| intros _; apply preserves_log].
  cbn [for_each]. apply preserves_bind; [| intros _; apply preserves_ret].
  exact Hspec.
Qed.

End Frames.

Section SpecFrames.

Variable q : bool.

Lemma frame_seed_users :
  preserves projects (RevolvUserProfile_seed q)
  /\ preserves payments (RevolvUserProfile_seed q)
  /\ preserves pages (RevolvUserProfile_seed q)
  /\ preserves sites (RevolvUserProfile_seed q).
Proof. repeat split; open_calls; preserve. Qed.

Lemma frame_seed_projects :
  preserves users (Project_seed q)
  /\ preserves profiles (Project_seed q)
  /\ preserves payments (Project_seed q)
  /\ preserves pages (Project_seed q)
  /\ preserves sites (Project_seed q).
Proof. repeat split; open_calls; preserve. Qed.

Lemma frame_seed_payments :
  preserves users (Payment_seed q)
  /\ preserves profiles (Payment_seed q)
  /\ preserves projects (Payment_seed q)
  /\ preserves pages (Payment_seed q)
  /\ preserves sites (Payment_seed q).
Proof. repeat split; open_calls; preserve. Qed.

Lemma frame_seed_cms :
  preserves users (CMSPage_seed q)
  /\ preserves profiles (CMSPage_seed q)
  /\ preserves projects (CMSPage_seed q)
  /\ preserves payments (CMSPage_seed q)
  /\ preserves sites (CMSPage_seed q).
Proof.
  repeat split; apply preserves_CMSPage_seed; intros; reflexivity.
Qed.

Lemma frame_clear_users :
  preserves pages (RevolvUserProfile_clear q)
  /\ preserves sites (RevolvUserProfile_clear q).
Proof. repeat split; open_calls; preserve. Qed.

Lemma frame_clear_projects :
  preserves users (Project_clear q)
  /\ preserves profiles (Project_clear q)
  /\ preserves pages (Project_clear q)
  /\ preserves sites (Project_clear q).
Proof. repeat split; open_calls; preserve. Qed.

Lemma frame_clear_payments :
  preserves users (Payment_clear q)
  /\ preserves profiles (Payment_clear q)
  /\ preserves projects (Payment_clear q)
  /\ preserves pages (Payment_clear q)
  /\ preserves sites (Payment_clear q).
Proof. repeat split; open_calls; preserve. Qed.

Lemma frame_clear_cms :
  preserves users (CMSPage_clear q)
  /\ preserves profiles (CMSPage_clear q)
  /\ preserves projects (CMSPage_clear q)
  /\ preserves payments (CMSPage_clear q).
Proof. repeat split; open_calls; preserve. Qed.

End SpecFrames.

(** ** One specification at a time *)

(** C2, as the code has it: [--spec name] with a registered name selects
    the specification of that name and no other.  A run that seeds writes
    to the tables of that specification only.  A run that clears deletes
    from those tables and, with the deleted rows, the rows of other
    specifications that reference them (the projects and payments of a
    cleared profile, the payments of a cleared project); every other table
    keeps its rows. *)
Theorem single_spec_frame (name : string) (spec : SeedSpec) (c q : bool)
  (t : Table) (w : World) :
  In (name, spec) SPECS_TO_RUN ->
  ~ In t (tables_of name ++ if c then tables_referencing name else []) ->
  select_specs (mkOptions c (Some name) q false) w = (Ok [spec], w)
  /\ same_rows t (db (snd (handle (mkOptions c (Some name) q false) w)))
       (db w).
Proof.
  intros Hin Ht. split.
  { cbn in Hin.
    destruct Hin as [H|[H|[H|[H|[]]]]]; injection H as <- <-; reflexivity. }
  assert (Hframe : forall X (f : DB -> X),
             preserves f (if c then clear spec q else seed spec q) ->
             f (db (snd (handle (mkOptions c (Some name) q false) w)))
             = f (db w)).
  { intros X f Hf. exact (preserves_handle_single f c q name spec Hin Hf w). }
  pose proof (frame_seed_users q) as (SU1 & SU2 & SU3 & SU4).
  pose proof (frame_seed_projects q) as (SJ1 & SJ2 & SJ3 & SJ4 & SJ5).
  pose proof (frame_seed_payments q) as (SY1 & SY2 & SY3 & SY4 & SY5).
  pose proof (frame_seed_cms q) as (SC1 & SC2 & SC3 & SC4 & SC5).
  pose proof (frame_clear_users q) as (CU1 & CU2).
  pose proof (frame_clear_projects q) as (CJ1 & CJ2 & CJ3 & CJ4).
  pose proof (frame_clear_payments q) as (CY1 & CY2 & CY3 & CY4 & CY5).
  pose proof (frame_clear_cms q) as (CC1 & CC2 & CC3 & CC4).
  cbn in Hin.
  destruct Hin as [H|[H|[H|[H|[]]]]]; injection H as <- <-;
    destruct c; destruct t; cbn in Ht;
    try (exfalso; apply Ht; tauto);
    cbn [same_rows];
    match goal with
    | |- ?f (db _) = _ => apply (Hframe _ f)
    end;
    cbn [seed clear RevolvUserProfileSeedSpec ProjectSeedSpec
         PaymentSeedSpec CMSPageSeedSpec];
    assumption.
Qed.

Lemma single_spec_frame_witness :
  select_specs (mkOptions true (Some "project") false false)
    (mkWorld seeded_db [] [])
  = (Ok [ProjectSeedSpec], mkWorld seeded_db [] [])
  /\ same_rows Profiles
       (db (snd (handle (mkOptions true (Some "project") false false)
                   (mkWorld seeded_db [] []))))
       (db (mkWorld seeded_db [] [])).
Proof.
  refine (single_spec_frame "project" ProjectSeedSpec true false Profiles
            (mkWorld seeded_db [] []) _ _).
  - right. left. reflexivity.
  - intros H. cbn [tables_of tables_referencing String.eqb Ascii.eqb
                   Bool.eqb app In] in H.
    repeat (destruct H as [H|H]; [discriminate H|]). exact H.
Defined.

(** C2 fails for a run that clears: clearing the user profiles alone also
    empties the tables of the project and of the payment specification. *)
Lemma clear_profiles_reaches_projects :
  let o := mkOptions true (Some "revolvuserprofile") true false in
  ~ In Projects (tables_of "revolvuserprofile")
  /\ ~ In Payments (tables_of "revolvuserprofile")
  /\ outcome o seeded_db = Ok tt
  /\ length (projects seeded_db) = 4
  /\ length (projects (db_after o seeded_db)) = 0
  /\ length (payments seeded_db) = 6
  /\ length (payments (db_after o seeded_db)) = 0
  /\ ~ same_rows Projects (db_after o seeded_db) seeded_db.
Proof.
  cbn zeta.
  split; [cbn; intros H; repeat (destruct H as [H|H]; [discriminate H|]);
          exact H|].
  split; [cbn; intros H; repeat (destruct H as [H|H]; [discriminate H|]);
          exact H|].
  split; [vm_compute; reflexivity|].
  split; [vm_compute; reflexivity|].
  split; [vm_compute; reflexivity|].
  split; [vm_compute; reflexivity|].
  split; [vm_compute; reflexivity|].
  cbn [same_rows]. intros H. apply (f_equal (@length _)) in H.
  vm_compute in H. discriminate H.
Qed.

(** ** Clearing what is not there *)

(** C3 at two databases.  With no site at all, the CMS specification
    indexes an empty query set: the [IndexError] is not the
    [ObjectDoesNotExist] its [except] clause names.  With a user whose
    profile is gone, the look-up of the profile raises
    [RevolvUserProfile.DoesNotExist], and the [except] clause of that loop
    names [User.DoesNotExist].  Both leave the command as exceptions. *)
Theorem clear_lets_not_found_escape :
  outcome clear_options empty_db = Raise IndexError
  /\ raised (snd (run (handle clear_options) empty_db))
     = [ DoesNotExist MUser; DoesNotExist MUser; DoesNotExist MUser;
         DoesNotExist MProject; DoesNotExist MProject;
         DoesNotExist MProject; DoesNotExist MProject;
         DoesNotExist MRevolvUserProfile; IndexError ]
  /\ outcome clear_options orphan_user_db
     = Raise (DoesNotExist MRevolvUserProfile)
  /\ raised (snd (run (handle clear_options) orphan_user_db))
     = [ DoesNotExist MRevolvUserProfile ]
  /\ db_after clear_options orphan_user_db = orphan_user_db.
Proof. repeat split; vm_compute; reflexivity. Qed.

(** ** Seeding and clearing a database that is ready for it *)

Section Lists.

Context {A : Type}.

Lemma filter_keeps_all (f : A -> bool) (l : list A) :
  (forall x, In x l -> f x = true) -> filter f l = l.
Proof.
  induction l as [|x l IH]; intros H; cbn; [reflexivity|].
  rewrite (H x (or_introl eq_refl)). f_equal.
  apply IH. intros y Hy. apply H. right. exact Hy.
Qed.

Lemma filter_keeps_none (f : A -> bool) (l : list A) :
  (forall x, In x l -> f x = false) -> filter f l = [].
Proof.
  induction l as [|x l IH]; intros H; cbn; [reflexivity|].
  rewrite (H x (or_introl eq_refl)).
  apply IH. intros y Hy. apply H. right. exact Hy.
Qed.

Lemma existsb_none (f : A -> bool) (l : list A) :
  (forall x, In x l -> f x = false) -> existsb f l = false.
Proof.
  induction l as [|x l IH]; intros H; cbn; [reflexivity|].
  rewrite (H x (or_introl eq_refl)).
  apply IH. intros y Hy. apply H. right. exact Hy.
Qed.

Lemma filter_map_length (f : A -> bool) (g : A -> A) (l : list A) :
  (forall x, f (g x) = f x) ->
  length (filter f (map g l)) = length (filter f l).
Proof.
  intros H. induction l as [|x l IH]; cbn; [reflexivity|].
  rewrite H. destruct (f x); cbn; congruence.
Qed.

End Lists.

(** Decides the comparisons of keys that are left in the goal. *)
Ltac decide_keys :=
  repeat match goal with
  | |- context [Nat.eqb ?a ?b] =>
      first
        [ replace (Nat.eqb a b) with true
            by (symmetry; apply Nat.eqb_eq; lia)
        | replace (Nat.eqb a b) with false
            by (symmetry; apply Nat.eqb_neq; lia) ]
  end.

Lemma bind_ok {A B} (c : M A) (k : A -> M B) (w w' : World) (a : A) :
  c w = (Ok a, w') -> bind c k w = k a w'.
Proof. intros H. unfold bind. rewrite H. reflexivity. Qed.

Lemma bind_raise {A B} (c : M A) (k : A -> M B) (w w' : World) (e : exn) :
  c w = (Raise e, w') -> bind c k w = (Raise e, w').
Proof. intros H. unfold bind. rewrite H. reflexivity. Qed.

Lemma existsb_false_all {A} (f : A -> bool) (l : list A) :
  existsb f l = false -> forall x, In x l -> f x = false.
Proof.
  intros H x Hx. destruct (f x) eqn:E; [|reflexivity].
  rewrite <- H. symmetry. apply existsb_exists. exists x. split; assumption.
Qed.

Lemma restorable_Ready (d : DB) : restorable d = true -> Ready d.
Proof.
  unfold restorable, keys_below. intros H.
  apply andb_prop in H as [H Htag]. apply negb_true_iff in Htag.
  apply andb_prop in H as [H Hname]. apply negb_true_iff in Hname.
  apply andb_prop in H as [H Hky].
  apply andb_prop in H as [H Hkj].
  apply andb_prop in H as [Hku Hkp].
  rewrite forallb_forall in Hku, Hkp, Hkj, Hky.
  constructor.
  - intros u Hu. apply Nat.ltb_lt. auto.
  - intros p Hp. specialize (Hkp p Hp).
    apply andb_prop in Hkp as [H1 H2].
    split; apply Nat.ltb_lt; assumption.
  - intros j Hj. specialize (Hkj j Hj).
    apply andb_prop in Hkj as [H1 H2].
    split; apply Nat.ltb_lt; assumption.
  - intros y Hy. specialize (Hky y Hy).
    apply andb_prop in Hky as [H1 H3]. apply andb_prop in H1 as [H1 H2].
    repeat split; apply Nat.ltb_lt; assumption.
  - exact (existsb_false_all _ _ Hname).
  - exact (existsb_false_all _ _ Htag).
Qed.

Lemma site_ready_in_place (d : DB) :
  site_ready d = true -> exists s rest, site_in_place s rest d.
Proof.
  unfold site_ready, site_in_place, root_in_place.
  destruct (sites d) as [|s rest]; [discriminate|].
  intros H. apply andb_prop in H as [H1 H2].
  exists s, rest. split; [reflexivity|]. split.
  - apply Nat.eqb_eq. exact H1.
  - apply Nat.ltb_lt. exact H2.
Qed.

Lemma db_ext (a b : DB) :
  users a = users b -> profiles a = profiles b ->
  projects a = projects b -> payments a = payments b ->
  pages a = pages b -> sites a = sites b ->
  next_user a = next_user b -> next_profile a = next_profile b ->
  next_project a = next_project b -> next_payment a = next_payment b ->
  next_page a = next_page b -> a = b.
Proof. destruct a, b. cbn. intros. subst. reflexivity. Qed.

(** Reads a table through the writes made to the database. *)
Ltac read_tables :=
  cbn [db stdout raised users profiles projects payments pages sites
       next_user next_profile next_project next_payment next_page
       bump_user bump_profile bump_project bump_payment bump_page
       set_users set_profiles set_projects set_payments set_pages
       set_sites after_users after_projects after_payments].

Section SeedRuns.

Variable d : DB.
Hypothesis ready : Ready d.
Variables (out : list string) (log : list exn).

Lemma no_user_named (name : string) :
  seed_username name = true ->
  forall u, In u (users d) -> (username u =? name) = false.
Proof.
  intros Hn u Hu. destruct (username u =? name) eqn:E; [|reflexivity].
  apply String.eqb_eq in E. rewrite <- E in Hn.
  rewrite (ready_names d ready u Hu) in Hn. discriminate Hn.
Qed.

Lemma no_project_tagged (t : string) :
  seed_tagline t = true ->
  forall j, In j (projects d) -> (tagline (project_data j) =? t) = false.
Proof.
  intros Ht j Hj. destruct (tagline (project_data j) =? t) eqn:E;
    [|reflexivity].
  apply String.eqb_eq in E. rewrite <- E in Ht.
  rewrite (ready_taglines d ready j Hj) in Ht. discriminate Ht.
Qed.

Lemma create_user_with_role_ok (role : Role) (n e f l p : string)
  (w : World) :
  existsb (fun u => username u =? n) (users (db w)) = false ->
  create_user_with_role role n e f l p w =
    (Ok (mkProfile (next_profile (db w)) (next_user (db w)) role),
     mkWorld
       (bump_profile (bump_user
          (set_profiles
             (fun x => x ++ [mkProfile (next_profile (db w))
                               (next_user (db w)) role])
             (set_users
                (fun x => x ++ [mkUser (next_user (db w)) n e f l p])
                (db w)))))
       (stdout w) (raised w)).
Proof.
  intros H. unfold create_user_with_role, bind, get_db. rewrite H.
  reflexivity.
Qed.

Lemma RevolvUserProfile_seed_ok (q : bool) :
  RevolvUserProfile_seed q (mkWorld d out log)
  = (Ok tt, mkWorld (after_users d) out log).
Proof.
  unfold RevolvUserProfile_seed, create_user, create_user_as_ambassador,
    create_user_as_admin.
  erewrite bind_ok.
  2:{ apply create_user_with_role_ok. cbn [db].
      apply existsb_none. apply no_user_named. reflexivity. }
  erewrite bind_ok.
  2:{ apply create_user_with_role_ok.
      read_tables. rewrite existsb_app.
      rewrite (existsb_none _ _ (no_user_named "ambassador" eq_refl)).
      reflexivity. }
  erewrite bind_ok.
  2:{ apply create_user_with_role_ok.
      read_tables. rewrite !existsb_app.
      rewrite (existsb_none _ _ (no_user_named "administrator" eq_refl)).
      reflexivity. }
  unfold ret. do 2 f_equal.
  apply db_ext; read_tables; rewrite <- ?app_assoc; reflexivity.
Qed.

(** The profile of a seeded user is found by the name of the user, as
    long as the seeded users and profiles are in the tables. *)
Lemma Profile_get_username_seeded (name : string) (p : RevolvUserProfile)
  (d' : DB) (w : World) :
  db w = d' ->
  users d' = users d ++ seed_user_rows (next_user d) ->
  profiles d' = profiles d
                ++ seed_profile_rows (next_user d) (next_profile d) ->
  In (name, p)
     [ ("donor", mkProfile (next_profile d) (next_user d) Donor);
       ("ambassador",
        mkProfile (S (next_profile d)) (S (next_user d)) Ambassador);
       ("administrator",
        mkProfile (S (S (next_profile d))) (S (S (next_user d)))
          Administrator) ] ->
  Profile_get_username name w = (Ok p, w).
Proof.
  intros Hw Hu Hp Hin. unfold Profile_get_username, bind, get_db.
  rewrite Hw, Hu, Hp, filter_app.
  assert (Hseed : seed_username name = true).
  { cbn in Hin. destruct Hin as [H|[H|[H|[]]]]; injection H as <- _;
      reflexivity. }
  assert (Hold : forall q : nat,
            existsb (fun u => (user_id u =? q)%nat && (username u =? name))
              (users d) = false).
  { intros q. apply existsb_none. intros u Hin'.
    rewrite (no_user_named name Hseed u Hin'). apply andb_false_r. }
  rewrite filter_keeps_none.
  2:{ intros x Hx. rewrite existsb_app, Hold.
      destruct (ready_profiles d ready x Hx) as [_ Hlt].
      unfold seed_user_rows. cbn [existsb user_id username orb].
      decide_keys. reflexivity. }
  unfold seed_profile_rows, seed_user_rows.
  cbn [filter app profile_user].
  rewrite !existsb_app, !Hold.
  cbn [existsb user_id username orb].
  decide_keys.
  cbn in Hin. destruct Hin as [H|[H|[H|[]]]]; injection H as <- <-;
    reflexivity.
Qed.

Lemma Project_get_tagline_seeded (t : string) (j : Project) (d' : DB)
  (w : World) :
  db w = d' ->
  projects d' = projects d
                ++ seed_project_rows (next_profile d) (next_project d) ->
  In (t, j)
     [ (tagline studio,
        mkProject (next_project d) (S (next_profile d)) Active studio);
       (tagline dairy,
        mkProject (S (next_project d)) (S (next_profile d)) Completed
          dairy) ] ->
  Project_get_tagline t w = (Ok j, w).
Proof.
  intros Hw Hj Hin. unfold Project_get_tagline, bind, get_db.
  rewrite Hw, Hj, filter_app.
  assert (Hseed : seed_tagline t = true).
  { cbn [In] in Hin. destruct Hin as [H|[H|[]]]; injection H as <- _;
      reflexivity. }
  rewrite (filter_keeps_none _ _ (no_project_tagged t Hseed)).
  cbn [In] in Hin. destruct Hin as [H|[H|[]]]; injection H as <- <-;
    reflexivity.
Qed.

Lemma Project_seed_ok (q : bool) :
  Project_seed q (mkWorld (after_users d) out log)
  = (Ok tt, mkWorld (after_projects d) out log).
Proof.
  unfold Project_seed.
  erewrite bind_ok.
  2:{ eapply Profile_get_username_seeded with (d' := after_users d);
        [reflexivity | reflexivity | reflexivity |].
      right. left. reflexivity. }
  unfold Project_create, bind, get_db, modify_db, ret.
  cbn [db stdout raised profile_id]. do 2 f_equal.
  apply db_ext; read_tables; rewrite <- ?app_assoc; reflexivity.
Qed.

Lemma Payment_seed_ok (q : bool) :
  Payment_seed q (mkWorld (after_projects d) out log)
  = (Ok tt, mkWorld (after_payments d) out log).
Proof.
  unfold Payment_seed.
  erewrite bind_ok.
  2:{ eapply Profile_get_username_seeded with (d' := after_projects d);
        [reflexivity | reflexivity | reflexivity |].
      left. reflexivity. }
  erewrite bind_ok.
  2:{ eapply Profile_get_username_seeded with (d' := after_projects d);
        [reflexivity | reflexivity | reflexivity |].
      right. left. reflexivity. }
  erewrite bind_ok.
  2:{ eapply Profile_get_username_seeded with (d' := after_projects d);
        [reflexivity | reflexivity | reflexivity |].
      right. right. left. reflexivity. }
  erewrite bind_ok.
  2:{ eapply Project_get_tagline_seeded with (d' := after_projects d);
        [reflexivity | reflexivity |].
      left. reflexivity. }
  erewrite bind_ok.
  2:{ eapply Project_get_tagline_seeded with (d' := after_projects d);
        [reflexivity | reflexivity |].
      right. left. reflexivity. }
  unfold Payment_create, bind, get_db, modify_db, ret.
  cbn [db stdout raised profile_id project_id]. do 2 f_equal.
  apply db_ext; read_tables; rewrite <- ?app_assoc; reflexivity.
Qed.

End SeedRuns.

Section Succeeds.

Lemma succeeds_ret {A} (P : DB -> Prop) (a : A) : succeeds P (ret a) P.
Proof. intros w H. exists a, w. split; [reflexivity | exact H]. Qed.

Lemma succeeds_bind {A B} (P Q R : DB -> Prop) (c : M A) (k : A -> M B) :
  succeeds P c Q -> (forall a, succeeds Q (k a) R) ->
  succeeds P (bind c k) R.
Proof.
  intros Hc Hk w HP. destruct (Hc w HP) as (a & w1 & E1 & HQ).
  destruct (Hk a w1 HQ) as (b & w2 & E2 & HR).
  exists b, w2. split; [| exact HR].
  rewrite (bind_ok _ _ _ _ _ E1). exact E2.
Qed.

Lemma succeeds_for_each {A} (P : DB -> Prop) (xs : list A)
  (f : A -> M unit) :
  Forall (fun x => succeeds P (f x) P) xs ->
  succeeds P (for_each xs f) P.
Proof.
  intros H. induction H as [|x xs Hx Hxs IH]; cbn [for_each].
  - apply succeeds_ret.
  - apply succeeds_bind with (Q := P); [exact Hx | intros _; exact IH].
Qed.

End Succeeds.

Section CmsSeed.

Variables (s : Site) (rest : list Site).

(** What the CMS specification needs and keeps: the site comes first
    and its root page is in place. *)
Let site_inv : DB -> Prop := site_in_place s rest.

Lemma get_one_single {R} (m : Model) (rows : list R) (w : World) :
  length rows = 1 -> exists r, get_one m rows w = (Ok r, w).
Proof.
  destruct rows as [|r [|r' rows]]; cbn; intros H; try discriminate H.
  exists r. reflexivity.
Qed.

Lemma publish_succeeds (t slug : string) (c : PageContent)
  (parent : option Page) (user : User) :
  succeeds site_inv (publish_page_for_parent t slug c parent user)
    site_inv.
Proof.
  intros w [Hs [Hr Hlt]].
  assert (Hparent : exists p,
    match parent with
    | Some p => ret p
    | None => only_site <- Site_first ;; Site_root_page only_site
    end w = (Ok p, w)).
  { destruct parent as [p|]; [exists p; reflexivity|].
    unfold Site_first, Site_root_page, bind, get_db. rewrite Hs.
    cbn [ret]. apply get_one_single. exact Hr. }
  destruct Hparent as [p Ep].
  unfold publish_page_for_parent. rewrite (bind_ok _ _ _ _ _ Ep).
  unfold add_child, save_revision_publish, bind, get_db, modify_db, ret.
  cbn [db stdout raised page_id].
  eexists. eexists. split; [reflexivity|].
  unfold site_inv, site_in_place, root_in_place. read_tables.
  split; [exact Hs|]. split; [| lia].
  rewrite filter_map_length.
  - rewrite filter_app, length_app, Hr. cbn [filter page_id].
    replace (next_page (db w) =? root_page s)%nat with false
      by (symmetry; apply Nat.eqb_neq; lia).
    reflexivity.
  - intros x. destruct (page_id x =? next_page (db w))%nat; reflexivity.
Qed.

Lemma seed_page_tuple_succeeds (x : PageTuple) :
  forall user parent,
    succeeds site_inv (seed_page_tuple x user parent) site_inv.
Proof.
  induction x as [t h|t l IH] using PageTuple_nested_ind;
    intros user parent; cbn [seed_page_tuple].
  - unfold publish_link_page.
    apply succeeds_bind with (Q := site_inv);
      [apply publish_succeeds | intros _; apply succeeds_ret].
  - unfold publish_page.
    apply succeeds_bind with (Q := site_inv); [apply publish_succeeds |].
    intros new_page. induction IH as [|x l Hx Hl IHl].
    + apply succeeds_ret.
    + apply succeeds_bind with (Q := site_inv);
        [apply Hx | intros _; exact IHl].
Qed.

Lemma recursively_seed_pages_succeeds (user : User) :
  succeeds site_inv (recursively_seed_pages page_hierarchy user None)
    site_inv.
Proof.
  unfold recursively_seed_pages. apply succeeds_for_each.
  rewrite Forall_forall. intros x _. apply seed_page_tuple_succeeds.
Qed.

End CmsSeed.

Section Logging.

Lemma log_ok (o : Options) (msg : string) (w : World) :
  exists out, log o msg w = (Ok tt, mkWorld (db w) out (raised w)).
Proof.
  unfold log, when, print, ret.
  destruct (negb (opt_quiet o)); destruct w; eexists; reflexivity.
Qed.

(** A log line before or after a computation changes neither the
    database it leaves nor whether it returns. *)
Lemma log_then {A} (o : Options) (msg : string) (c : M A) (w : World) :
  exists out, (log o msg ;;; c) w = c (mkWorld (db w) out (raised w)).
Proof.
  destruct (log_ok o msg w) as [out E]. exists out.
  rewrite (bind_ok _ _ _ _ _ E). reflexivity.
Qed.

Lemma then_log (o : Options) (msg : string) (c : M unit) (w : World) :
  db (snd ((c ;;; log o msg) w)) = db (snd (c w))
  /\ (fst (c w) = Ok tt -> fst ((c ;;; log o msg) w) = Ok tt).
Proof.
  unfold bind. destruct (c w) as [[[]|e] w']; cbn [fst snd].
  - destruct (log_ok o msg w') as [out E]. rewrite E. cbn. auto.
  - split; [reflexivity | discriminate].
Qed.

End Logging.

Section FullSeed.

Variable d : DB.
Hypothesis ready : Ready d.

Lemma User_get_administrator (w : World) :
  users (db w) = users d ++ seed_user_rows (next_user d) ->
  exists u, User_get "administrator" w = (Ok u, w).
Proof.
  intros Hu. unfold User_get, bind, get_db. rewrite Hu, filter_app.
  rewrite (filter_keeps_none _ _
             (no_user_named d ready "administrator" eq_refl)).
  eexists. reflexivity.
Qed.

Lemma CMSPage_seed_tables (q : bool) (w : World) :
  seeded_from d (db w) -> seeded_from d (db (snd (CMSPage_seed q w))).
Proof.
  pose proof (frame_seed_cms q) as (F1 & F2 & F3 & F4 & _).
  unfold seeded_from, extends.
  rewrite (F1 w), (F2 w), (F3 w), (F4 w). auto.
Qed.

Lemma CMSPage_seed_ok (q : bool) (s : Site) (rest : list Site)
  (w : World) :
  seeded_from d (db w) -> site_in_place s rest (db w) ->
  exists w',
    CMSPage_seed q w = (Ok tt, w') /\ site_in_place s rest (db w').
Proof.
  intros (HU & _) Hsite.
  destruct (User_get_administrator w HU) as [u Eu].
  destruct (recursively_seed_pages_succeeds s rest u w Hsite)
    as ([] & w' & E & Hinv).
  exists w'. split; [| exact Hinv].
  unfold CMSPage_seed. rewrite (bind_ok _ _ _ _ _ Eu). exact E.
Qed.

Lemma after_payments_seeded : seeded_from d (after_payments d).
Proof. repeat split. Qed.

(** The loop of [handle] over the four specifications, seeding. *)
Let seed_all (q : bool) : M unit :=
  for_each (map snd SPECS_TO_RUN) (fun spec => seed spec q).

Lemma seed_all_eq (q : bool) (out : list string) (log : list exn) :
  seed_all q (mkWorld d out log)
  = (CMSPage_seed q ;;; ret tt) (mkWorld (after_payments d) out log).
Proof.
  unfold seed_all.
  cbn [map snd SPECS_TO_RUN for_each seed RevolvUserProfileSeedSpec
       ProjectSeedSpec PaymentSeedSpec CMSPageSeedSpec].
  rewrite (bind_ok _ _ _ _ _ (RevolvUserProfile_seed_ok d ready _ _ q)).
  rewrite (bind_ok _ _ _ _ _ (Project_seed_ok d ready _ _ q)).
  rewrite (bind_ok _ _ _ _ _ (Payment_seed_ok d ready _ _ q)).
  reflexivity.
Qed.

Lemma seed_all_tables (q : bool) (out : list string) (log : list exn) :
  seeded_from d (db (snd (seed_all q (mkWorld d out log)))).
Proof.
  rewrite seed_all_eq.
  pose proof (CMSPage_seed_tables q (mkWorld (after_payments d) out log)
                after_payments_seeded) as H.
  unfold bind.
  destruct (CMSPage_seed q (mkWorld (after_payments d) out log))
    as [[[]|e] w']; exact H.
Qed.

Lemma seed_all_ok (q : bool) (s : Site) (rest : list Site)
  (out : list string) (log : list exn) :
  site_in_place s rest d ->
  fst (seed_all q (mkWorld d out log)) = Ok tt
  /\ site_in_place s rest (db (snd (seed_all q (mkWorld d out log)))).
Proof.
  intros Hsite. rewrite seed_all_eq.
  destruct (CMSPage_seed_ok q s rest (mkWorld (after_payments d) out log)
              after_payments_seeded Hsite) as (w' & E & Hw').
  rewrite (bind_ok _ _ _ _ _ E). split; [reflexivity | exact Hw'].
Qed.

Lemma handle_seed_eq (q : bool) (s : option string) (w : World) :
  spec_given (mkOptions false s q false) = None ->
  exists out,
    handle (mkOptions false s q false) w
    = (seed_all q ;;; log (mkOptions false s q false) "[Seed:Info] Done!")
        (mkWorld (db w) out (raised w)).
Proof.
  intros Hs. unfold handle, select_specs. rewrite Hs.
  cbn [opt_list opt_clear opt_quiet].
  rewrite (bind_ok _ _ _ _ _ (eq_refl : ret _ w = (Ok _, w))).
  apply log_then.
Qed.

(** A full seed leaves the rows of the seed at the ends of the four
    tables, whatever becomes of the pages. *)
Lemma handle_seed_tables (q : bool) (s : option string)
  (out : list string) (log : list exn) :
  spec_given (mkOptions false s q false) = None ->
  seeded_from d
    (db (snd (handle (mkOptions false s q false) (mkWorld d out log)))).
Proof.
  intros Hs.
  destruct (handle_seed_eq q s (mkWorld d out log) Hs) as [out1 E].
  rewrite E. cbn [db raised].
  rewrite (proj1 (then_log _ _ _ _)). apply seed_all_tables.
Qed.

(** With the site in place, the full seed returns. *)
Lemma handle_seed_ok (q : bool) (s : option string) (site : Site)
  (rest : list Site) (out : list string) (log : list exn) :
  spec_given (mkOptions false s q false) = None ->
  site_in_place site rest d ->
  fst (handle (mkOptions false s q false) (mkWorld d out log)) = Ok tt
  /\ site_in_place site rest
       (db (snd (handle (mkOptions false s q false)
                   (mkWorld d out log)))).
Proof.
  intros Hs Hsite.
  destruct (handle_seed_eq q s (mkWorld d out log) Hs) as [out1 E].
  rewrite E. cbn [db raised].
  destruct (seed_all_ok q site rest out1 log Hsite) as [Hok Hin].
  destruct (then_log (mkOptions false s q false) "[Seed:Info] Done!"
              (seed_all q) (mkWorld d out1 log)) as [Hdb Hfst].
  rewrite Hdb. split; [apply Hfst; exact Hok | exact Hin].
Qed.

End FullSeed.

Section Deletion.

Variable d : DB.
Hypothesis ready : Ready d.

Lemma mem_map_fresh {R} (key : R -> nat) (l : list R) (n i : nat) :
  Forall (fun x => n <= key x) l -> i < n -> mem i (map key l) = false.
Proof.
  intros H Hi. unfold mem. apply existsb_none. intros k Hk.
  apply in_map_iff in Hk. destruct Hk as (x & <- & Hx).
  rewrite Forall_forall in H. specialize (H x Hx).
  apply Nat.eqb_neq. lia.
Qed.

Lemma Forall_filter {R} (P : R -> Prop) (f : R -> bool) (l : list R) :
  Forall P l -> Forall P (filter f l).
Proof.
  rewrite !Forall_forall. intros H x Hx. apply filter_In in Hx.
  apply H. tauto.
Qed.

Lemma delete_projects_extends (dead : Project -> bool) (d' : DB)
  nus nps njs nys :
  extends d d' nus nps njs nys -> fresh_rows d nus nps njs ->
  (forall j, In j (projects d) -> dead j = false) ->
  extends d (delete_projects dead d') nus nps
    (filter (fun j => negb (dead j)) njs)
    (filter (fun y => negb (mem (pay_project y)
                              (map project_id (filter dead njs)))) nys).
Proof.
  intros (HU & HP & HJ & HY) (FU & FP & FJ) Hold.
  unfold extends, delete_projects. read_tables.
  rewrite HU, HP, HJ, HY, !filter_app.
  rewrite (filter_keeps_none dead (projects d) Hold). cbn [app].
  repeat split; f_equal.
  - apply filter_keeps_all. intros j Hj. rewrite (Hold j Hj). reflexivity.
  - apply filter_keeps_all. intros y Hy.
    destruct (ready_payments d ready y Hy) as (H1 & _ & _).
    rewrite (mem_map_fresh project_id _ (next_project d));
      [reflexivity | apply Forall_filter; exact FJ | exact H1].
Qed.

Lemma delete_profiles_extends (dead : RevolvUserProfile -> bool)
  (d' : DB) nus nps njs nys :
  extends d d' nus nps njs nys -> fresh_rows d nus nps njs ->
  (forall p, In p (profiles d) -> dead p = false) ->
  let ids := map profile_id (filter dead nps) in
  extends d (delete_profiles dead d') nus
    (filter (fun p => negb (dead p)) nps)
    (filter (fun j => negb (mem (ambassador j) ids)) njs)
    (filter (fun y => negb (mem (pay_user y) ids || mem (pay_entrant y) ids))
       (filter (fun y =>
                  negb (mem (pay_project y)
                          (map project_id
                             (filter (fun j => mem (ambassador j) ids)
                                njs)))) nys)).
Proof.
  intros Hext Hfresh Hold ids.
  pose proof Hext as (HU & HP & HJ & HY).
  pose proof Hfresh as (FU & FP & FJ).
  assert (Hids : map profile_id (filter dead (profiles d')) = ids).
  { rewrite HP, filter_app, (filter_keeps_none dead _ Hold).
    reflexivity. }
  assert (Fids : forall i, i < next_profile d -> mem i ids = false).
  { intros i Hi. apply (mem_map_fresh profile_id _ (next_profile d));
      [apply Forall_filter; exact FP | exact Hi]. }
  pose proof (delete_projects_extends
                (fun j => mem (ambassador j) ids) d' nus nps njs nys
                Hext Hfresh) as Hproj.
  destruct Hproj as (HU1 & HP1 & HJ1 & HY1).
  { intros j Hj. apply Fids.
    apply (ready_projects d ready j Hj). }
  unfold extends, delete_profiles. rewrite Hids. read_tables.
  rewrite HU1, HP1, HJ1, HY1, !filter_app.
  repeat split; f_equal.
  - apply filter_keeps_all. intros p Hp. rewrite (Hold p Hp). reflexivity.
  - apply filter_keeps_all. intros y Hy.
    destruct (ready_payments d ready y Hy) as (_ & H2 & H3).
    rewrite (Fids _ H2), (Fids _ H3). reflexivity.
Qed.

Lemma delete_users_extends (dead : User -> bool) (d' : DB)
  nus nps njs nys :
  extends d d' nus nps njs nys -> fresh_rows d nus nps njs ->
  (forall u, In u (users d) -> dead u = false) ->
  let uids := map user_id (filter dead nus) in
  let gone := fun p => mem (profile_user p) uids in
  let ids := map profile_id (filter gone nps) in
  extends d (delete_users dead d')
    (filter (fun u => negb (dead u)) nus)
    (filter (fun p => negb (gone p)) nps)
    (filter (fun j => negb (mem (ambassador j) ids)) njs)
    (filter (fun y => negb (mem (pay_user y) ids || mem (pay_entrant y) ids))
       (filter (fun y =>
                  negb (mem (pay_project y)
                          (map project_id
                             (filter (fun j => mem (ambassador j) ids)
                                njs)))) nys)).
Proof.
  intros Hext Hfresh Hold uids gone ids.
  pose proof Hext as (HU & HP & HJ & HY).
  pose proof Hfresh as (FU & FP & FJ).
  assert (Huids : map user_id (filter dead (users d')) = uids).
  { rewrite HU, filter_app, (filter_keeps_none dead _ Hold).
    reflexivity. }
  pose proof (delete_profiles_extends gone d' nus nps njs nys
                Hext Hfresh) as Hprof.
  destruct Hprof as (HU1 & HP1 & HJ1 & HY1).
  { intros p Hp. unfold gone.
    apply (mem_map_fresh user_id _ (next_user d));
      [apply Forall_filter; exact FU |].
    apply (ready_profiles d ready p Hp). }
  unfold extends, delete_users. rewrite Huids. read_tables.
  fold gone. rewrite HU1, HP1, HJ1, HY1, filter_app.
  repeat split. f_equal.
  apply filter_keeps_all. intros u Hu. rewrite (Hold u Hu). reflexivity.
Qed.

End Deletion.

Section ClearRuns.

Variable d : DB.
Hypothesis ready : Ready d.

Lemma extends_eq (d' : DB) nus nps njs nys nus' nps' njs' nys' :
  extends d d' nus nps njs nys ->
  nus = nus' -> nps = nps' -> njs = njs' -> nys = nys' ->
  extends d d' nus' nps' njs' nys'.
Proof. intros H -> -> -> ->. exact H. Qed.

Lemma try_except_ok {A} (body : M A) (catches : exn -> bool)
  (handler : exn -> M A) (w w' : World) (a : A) :
  body w = (Ok a, w') -> try_except body catches handler w = (Ok a, w').
Proof. intros H. unfold try_except. rewrite H. reflexivity. Qed.

(** One round of the loop of [RevolvUserProfileSeedSpec.clear], for a
    user [u] with profile [p] among the added rows. *)
Lemma clear_one_seeded (name : string) (u : User) (p : RevolvUserProfile)
  (d' : DB) nus nps njs nys (out : list string) (log : list exn) :
  extends d d' nus nps njs nys -> fresh_rows d nus nps njs ->
  seed_username name = true ->
  filter (fun v => username v =? name) nus = [u] ->
  filter (fun q => profile_user q =? user_id u)%nat nps = [p] ->
  next_user d <= user_id u -> next_profile d <= profile_id p ->
  RevolvUserProfile_clear_one name (mkWorld d' out log)
  = (Ok tt,
     mkWorld
       (delete_users (fun v => user_id v =? user_id u)%nat
          (delete_profiles (fun q => profile_id q =? profile_id p)%nat d'))
       out log).
Proof.
  intros (HU & HP & HJ & HY) Hfresh Hname Hu Hp Hnu Hnp.
  unfold RevolvUserProfile_clear_one.
  erewrite bind_ok.
  2:{ unfold User_get, bind, get_db. cbn [db].
      rewrite HU, filter_app, Hu.
      rewrite (filter_keeps_none _ _ (no_user_named d ready name Hname)).
      reflexivity. }
  erewrite bind_ok.
  2:{ unfold Profile_get_user, bind, get_db. cbn [db].
      rewrite HP, filter_app, Hp. rewrite filter_keeps_none.
      - reflexivity.
      - intros q Hq. destruct (ready_profiles d ready q Hq) as [_ Hlt].
        apply Nat.eqb_neq. lia. }
  reflexivity.
Qed.

(** The same round, with what it leaves. *)
Lemma clear_one_extends (u : User) (p : RevolvUserProfile)
  (d' : DB) nus nps njs nys :
  extends d d' nus nps njs nys -> fresh_rows d nus nps njs ->
  next_user d <= user_id u -> next_profile d <= profile_id p ->
  let pids :=
    map profile_id (filter (fun q => profile_id q =? profile_id p)%nat nps) in
  let njs1 := filter (fun j => negb (mem (ambassador j) pids)) njs in
  let nps1 := filter (fun q => negb (profile_id q =? profile_id p)%nat) nps in
  let nys1 :=
    filter (fun y => negb (mem (pay_user y) pids || mem (pay_entrant y) pids))
      (filter (fun y =>
                 negb (mem (pay_project y)
                         (map project_id
                            (filter (fun j => mem (ambassador j) pids)
                               njs)))) nys) in
  let uids :=
    map user_id (filter (fun v => user_id v =? user_id u)%nat nus) in
  let gone := fun q => mem (profile_user q) uids in
  let ids := map profile_id (filter gone nps1) in
  extends d
    (delete_users (fun v => user_id v =? user_id u)%nat
       (delete_profiles (fun q => profile_id q =? profile_id p)%nat d'))
    (filter (fun v => negb (user_id v =? user_id u)%nat) nus)
    (filter (fun q => negb (gone q)) nps1)
    (filter (fun j => negb (mem (ambassador j) ids)) njs1)
    (filter (fun y => negb (mem (pay_user y) ids || mem (pay_entrant y) ids))
       (filter (fun y =>
                  negb (mem (pay_project y)
                          (map project_id
                             (filter (fun j => mem (ambassador j) ids)
                                njs1)))) nys1)).
Proof.
  intros Hext Hfresh Hnu Hnp. cbv zeta.
  apply (delete_users_extends d ready).
  - apply (delete_profiles_extends d ready); [exact Hext | exact Hfresh |].
    intros q Hq. destruct (ready_profiles d ready q Hq) as [Hlt _].
    apply Nat.eqb_neq. lia.
  - destruct Hfresh as (FU & FP & FJ).
    repeat split; [exact FU | |]; apply Forall_filter; assumption.
  - intros v Hv. pose proof (ready_users d ready v Hv).
    apply Nat.eqb_neq. lia.
Qed.

End ClearRuns.

(** Computes what the deletions leave of the added rows. *)
Ltac compute_rows :=
  repeat match goal with x := _ |- _ => subst x end;
  unfold seed_user_rows, seed_profile_rows, seed_project_rows,
    seed_payment_rows;
  repeat (progress
            (cbn [filter map mem existsb negb orb andb app skipn user_id
                  username
                  profile_id profile_user ambassador project_id pay_user
                  pay_entrant pay_project];
             decide_keys));
  reflexivity.

Ltac fresh_rows_tac :=
  repeat match goal with x := _ |- _ => subst x end;
  unfold fresh_rows, seed_user_rows, seed_profile_rows, seed_project_rows;
  repeat split;
  repeat (constructor;
          [cbn [user_id profile_id project_id]; lia|]);
  constructor.

Section UserClear.

Variable d : DB.
Hypothesis ready : Ready d.

Let nu := next_user d.
Let np := next_profile d.
Let nj := next_project d.
Let ny := next_payment d.

Let u1 := mkUser nu "donor" "donor@re-volv.org" "Joe" "Donor" "password".
Let u2 := mkUser (S nu) "ambassador" "ambassador@re-volv.org" "Joe"
            "Ambassador" "password".
Let u3 := mkUser (S (S nu)) "administrator" "administrator@re-volv.org"
            "Joe" "Admin" "password".
Let p1 := mkProfile np nu Donor.
Let p2 := mkProfile (S np) (S nu) Ambassador.
Let p3 := mkProfile (S (S np)) (S (S nu)) Administrator.

Let cleared (u : User) (p : RevolvUserProfile) (d' : DB) : DB :=
  delete_users (fun v => user_id v =? user_id u)%nat
    (delete_profiles (fun q => profile_id q =? profile_id p)%nat d').

Lemma RevolvUserProfile_clear_ok (q : bool) (d1 : DB)
  (out : list string) (log : list exn) :
  extends d d1 (seed_user_rows nu) (seed_profile_rows nu np)
    (seed_project_rows np nj) (seed_payment_rows np nj ny) ->
  exists d2,
    RevolvUserProfile_clear q (mkWorld d1 out log)
    = (Ok tt, mkWorld d2 out log)
    /\ extends d d2 [] [] [] [].
Proof.
  intros H1.
  assert (F1 : fresh_rows d (seed_user_rows nu) (seed_profile_rows nu np)
                 (seed_project_rows np nj)) by fresh_rows_tac.
  (* after the round of the donor: the four payments of the donor go *)
  assert (HA : extends d (cleared u1 p1 d1) [u2; u3] [p2; p3]
                 (seed_project_rows np nj)
                 (skipn 4 (seed_payment_rows np nj ny))).
  { eapply extends_eq;
      [ apply (clear_one_extends d ready u1 p1);
        [exact H1 | exact F1 | cbn; subst nu; lia | cbn; subst np; lia]
      | compute_rows .. ]. }
  assert (FA : fresh_rows d [u2; u3] [p2; p3] (seed_project_rows np nj))
    by fresh_rows_tac.
  (* after the round of the ambassador: the projects go, and with them
     the payments that are left *)
  assert (HB : extends d (cleared u2 p2 (cleared u1 p1 d1)) [u3] [p3]
                 [] []).
  { eapply extends_eq;
      [ apply (clear_one_extends d ready u2 p2);
        [exact HA | exact FA | cbn; subst nu; lia | cbn; subst np; lia]
      | compute_rows .. ]. }
  assert (FB : fresh_rows d [u3] [p3] []) by fresh_rows_tac.
  assert (HC : extends d
                 (cleared u3 p3 (cleared u2 p2 (cleared u1 p1 d1)))
                 [] [] [] []).
  { eapply extends_eq;
      [ apply (clear_one_extends d ready u3 p3);
        [exact HB | exact FB | cbn; subst nu; lia | cbn; subst np; lia]
      | compute_rows .. ]. }
  exists (cleared u3 p3 (cleared u2 p2 (cleared u1 p1 d1))).
  split; [| exact HC].
  unfold RevolvUserProfile_clear, usernames_to_clear. cbn [for_each].
  erewrite bind_ok.
  2:{ apply try_except_ok.
      eapply (clear_one_seeded d ready "donor" u1 p1);
        [exact H1 | exact F1 | reflexivity | reflexivity | compute_rows
        | cbn; subst nu; lia | cbn; subst np; lia]. }
  erewrite bind_ok.
  2:{ apply try_except_ok.
      eapply (clear_one_seeded d ready "ambassador" u2 p2);
        [exact HA | exact FA | reflexivity | reflexivity | compute_rows
        | cbn; subst nu; lia | cbn; subst np; lia]. }
  erewrite bind_ok.
  2:{ apply try_except_ok.
      eapply (clear_one_seeded d ready "administrator" u3 p3);
        [exact HB | exact FB | reflexivity | reflexivity | compute_rows
        | cbn; subst nu; lia | cbn; subst np; lia]. }
  reflexivity.
Qed.

End UserClear.

Section OtherClears.

Variable d : DB.
Hypothesis ready : Ready d.

Lemma warn_unless_ok (q : bool) (cls : string) (e : exn) (w : World) :
  exists w', warn_unless q cls e w = (Ok tt, w') /\ db w' = db w.
Proof.
  unfold warn_unless, when, print, ret.
  destruct q; cbn [negb]; eexists; split; reflexivity.
Qed.

Lemma try_except_caught (body : M unit) (catches : exn -> bool)
  (q : bool) (cls : string) (e : exn) (w w1 : World) :
  body w = (Raise e, w1) -> catches e = true -> db w1 = db w ->
  exists w',
    try_except body catches (warn_unless q cls) w = (Ok tt, w')
    /\ db w' = db w.
Proof.
  intros Hb Hc Hd. unfold try_except. rewrite Hb, Hc.
  destruct (warn_unless_ok q cls e w1) as (w' & E & Hw).
  exists w'. split; [exact E | congruence].
Qed.

(** With no seeded project left, every look-up of
    [ProjectSeedSpec.clear] fails and is caught. *)
Lemma Project_clear_ok (q : bool) (d2 : DB) :
  projects d2 = projects d ->
  succeeds (eq d2) (Project_clear q) (eq d2).
Proof.
  intros HJ. unfold Project_clear. apply succeeds_for_each.
  rewrite Forall_forall. intros project Hin w Hw.
  assert (Hseed : seed_tagline (tagline project) = true).
  { unfold seed_tagline. apply existsb_exists. exists project.
    split; [exact Hin | apply String.eqb_refl]. }
  destruct (try_except_caught (Project_clear_one project)
              (is_DoesNotExist MProject) q "ProjectSeedSpec"
              (DoesNotExist MProject) w
              (mkWorld (db w) (stdout w)
                 (raised w ++ [DoesNotExist MProject])))
    as (w' & E & Hw').
  - unfold Project_clear_one. apply bind_raise.
    unfold Project_get_tagline, bind, get_db. rewrite Hw in HJ.
    rewrite HJ.
    rewrite (filter_keeps_none _ _ (no_project_tagged d ready _ Hseed)).
    reflexivity.
  - reflexivity.
  - reflexivity.
  - exists tt, w'. split; [exact E | congruence].
Qed.

(** With no seeded user left, the first look-up of
    [PaymentSeedSpec.clear] fails and is caught. *)
Lemma Payment_clear_ok (q : bool) (d2 : DB) :
  users d2 = users d ->
  succeeds (eq d2) (Payment_clear q) (eq d2).
Proof.
  intros HU w Hw. unfold Payment_clear.
  destruct (try_except_caught Payment_clear_body
              (is_DoesNotExist MRevolvUserProfile) q "PaymentSeedSpec"
              (DoesNotExist MRevolvUserProfile) w
              (mkWorld (db w) (stdout w)
                 (raised w ++ [DoesNotExist MRevolvUserProfile])))
    as (w' & E & Hw').
  - unfold Payment_clear_body. apply bind_raise.
    unfold Profile_get_username, bind, get_db. rewrite Hw in HU.
    rewrite HU.
    rewrite filter_keeps_none; [reflexivity|].
    intros p _. apply existsb_none. intros u Hu.
    rewrite (no_user_named d ready "donor" eq_refl u Hu).
    apply andb_false_r.
  - reflexivity.
  - reflexivity.
  - exists tt, w'. split; [exact E | congruence].
Qed.

(** With the site and its root page in place, [CMSPageSeedSpec.clear]
    goes through. *)
Lemma CMSPage_clear_ok (q : bool) (s : Site) (rest : list Site)
  (w : World) :
  sites (db w) = s :: rest ->
  length (filter (fun p => page_id p =? root_page s)%nat (pages (db w))) = 1 ->
  exists w', CMSPage_clear q w = (Ok tt, w').
Proof.
  intros Hs Hr. unfold CMSPage_clear.
  destruct (get_one_single MPage _ w Hr) as [r Er].
  eexists. apply try_except_ok. unfold CMSPage_clear_body.
  erewrite bind_ok.
  2:{ unfold Site_first, bind, get_db. rewrite Hs. reflexivity. }
  erewrite bind_ok.
  2:{ unfold Site_root_page, bind, get_db. exact Er. }
  reflexivity.
Qed.

End OtherClears.

Section FullClear.

Variable d : DB.
Hypothesis ready : Ready d.

(** The loop of [handle] over the four specifications, clearing. *)
Let clear_all (q : bool) : M unit :=
  for_each (map snd SPECS_TO_RUN) (fun spec => clear spec q).

(** After the first three specifications have cleared a seeded
    database, the four tables are back, and the CMS specification is
    left to run on untouched pages and sites. *)
Lemma clear_all_eq (q : bool) (d1 : DB) (out : list string)
  (log : list exn) :
  seeded_from d d1 ->
  exists w,
    clear_all q (mkWorld d1 out log) = (CMSPage_clear q ;;; ret tt) w
    /\ extends d (db w) [] [] [] []
    /\ pages (db w) = pages d1 /\ sites (db w) = sites d1.
Proof.
  intros H1.
  destruct (RevolvUserProfile_clear_ok d ready q d1 out log H1)
    as (d2 & E2 & H2).
  pose proof (frame_clear_users q) as (Fp & Fs).
  specialize (Fp (mkWorld d1 out log)).
  specialize (Fs (mkWorld d1 out log)).
  rewrite E2 in Fp, Fs. cbn [snd db] in Fp, Fs.
  destruct H2 as (HU & HP & HJ & HY). rewrite app_nil_r in HU, HP, HJ, HY.
  destruct (Project_clear_ok d ready q d2 HJ (mkWorld d2 out log) eq_refl)
    as ([] & w3 & E3 & H3).
  destruct (Payment_clear_ok d ready q d2 HU w3 H3)
    as ([] & w4 & E4 & H4).
  exists w4. split.
  - unfold clear_all.
    cbn [map snd SPECS_TO_RUN for_each clear RevolvUserProfileSeedSpec
         ProjectSeedSpec PaymentSeedSpec CMSPageSeedSpec].
    rewrite (bind_ok _ _ _ _ _ E2), (bind_ok _ _ _ _ _ E3),
      (bind_ok _ _ _ _ _ E4).
    reflexivity.
  - rewrite <- H4. unfold extends. rewrite !app_nil_r.
    repeat split; assumption.
Qed.

Lemma clear_all_tables (q : bool) (d1 : DB) (out : list string)
  (log : list exn) :
  seeded_from d d1 ->
  extends d (db (snd (clear_all q (mkWorld d1 out log)))) [] [] [] [].
Proof.
  intros H1.
  destruct (clear_all_eq q d1 out log H1) as (w & E & Hw & _).
  rewrite E.
  pose proof (frame_clear_cms q) as (F1 & F2 & F3 & F4).
  specialize (F1 w). specialize (F2 w). specialize (F3 w).
  specialize (F4 w).
  unfold bind. destruct (CMSPage_clear q w) as [[[]|e] w'];
    cbn [snd ret] in *; unfold extends in *;
    rewrite F1, F2, F3, F4; exact Hw.
Qed.

Lemma clear_all_ok (q : bool) (d1 : DB) (s : Site) (rest : list Site)
  (out : list string) (log : list exn) :
  seeded_from d d1 -> site_in_place s rest d1 ->
  fst (clear_all q (mkWorld d1 out log)) = Ok tt.
Proof.
  intros H1 [Hs [Hroot _]].
  destruct (clear_all_eq q d1 out log H1) as (w & E & _ & Hp & Hsites).
  rewrite E.
  destruct (CMSPage_clear_ok q s rest w) as [w' E'].
  - rewrite Hsites. exact Hs.
  - rewrite Hp. exact Hroot.
  - rewrite (bind_ok _ _ _ _ _ E'). reflexivity.
Qed.

Lemma handle_clear_eq (q : bool) (s : option string) (w : World) :
  spec_given (mkOptions true s q false) = None ->
  exists out,
    handle (mkOptions true s q false) w
    = (clear_all q ;;; log (mkOptions true s q false) "[Seed:Info] Done!")
        (mkWorld (db w) out (raised w)).
Proof.
  intros Hs. unfold handle, select_specs. rewrite Hs.
  cbn [opt_list opt_clear opt_quiet].
  rewrite (bind_ok _ _ _ _ _ (eq_refl : ret _ w = (Ok _, w))).
  apply log_then.
Qed.

(** Clearing a seeded database takes the rows of the seed away again,
    whatever becomes of the pages. *)
Lemma handle_clear_tables (q : bool) (s : option string) (d1 : DB)
  (out : list string) (log : list exn) :
  spec_given (mkOptions true s q false) = None ->
  seeded_from d d1 ->
  extends d
    (db (snd (handle (mkOptions true s q false) (mkWorld d1 out log))))
    [] [] [] [].
Proof.
  intros Hs H1.
  destruct (handle_clear_eq q s (mkWorld d1 out log) Hs) as [out1 E].
  rewrite E. cbn [db raised].
  rewrite (proj1 (then_log _ _ _ _)). apply clear_all_tables. exact H1.
Qed.

(** With the site in place, clearing a seeded database returns. *)
Lemma handle_clear_ok (q : bool) (s : option string) (d1 : DB)
  (site : Site) (rest : list Site) (out : list string) (log : list exn) :
  spec_given (mkOptions true s q false) = None ->
  seeded_from d d1 -> site_in_place site rest d1 ->
  fst (handle (mkOptions true s q false) (mkWorld d1 out log)) = Ok tt.
Proof.
  intros Hs H1 Hsite.
  destruct (handle_clear_eq q s (mkWorld d1 out log) Hs) as [out1 E].
  rewrite E. cbn [db raised].
  apply (proj2 (then_log _ _ _ _)).
  apply (clear_all_ok q d1 site rest); assumption.
Qed.

End FullClear.

(** ** Seeding *)

(** C5, as the code has it: without [--spec] and [--list] the command
    runs the four specifications in the order revolvuserprofile, project,
    payment, cms.  On a database that holds the site of the CMS with its
    root page, and in which no seeded user name and no seeded tagline is
    taken, every look-up of the seeding finds its row: the run returns, and
    it leaves the rows of the seed at the ends of the four tables. *)
Theorem seed_order_and_success (d : DB) (c q : bool) (w : World) :
  seedable d = true ->
  select_specs (mkOptions c None q false) w
  = (Ok [ RevolvUserProfileSeedSpec; ProjectSeedSpec; PaymentSeedSpec;
          CMSPageSeedSpec ], w)
  /\ outcome (mkOptions false None q false) d = Ok tt
  /\ seeded_from d (db_after (mkOptions false None q false) d).
Proof.
  intros H. apply andb_prop in H as [Hr Hs].
  pose proof (restorable_Ready d Hr) as ready.
  destruct (site_ready_in_place d Hs) as (s & rest & Hsite).
  split; [reflexivity|]. split.
  - apply (handle_seed_ok d ready q None s rest [] [] eq_refl Hsite).
  - apply (handle_seed_tables d ready q None [] [] eq_refl).
Qed.

Lemma seed_order_and_success_witness :
  seedable busy_db = true
  /\ (select_specs (mkOptions false None false false)
        (mkWorld busy_db [] [])
      = (Ok [ RevolvUserProfileSeedSpec; ProjectSeedSpec; PaymentSeedSpec;
              CMSPageSeedSpec ], mkWorld busy_db [] [])
      /\ outcome (mkOptions false None false false) busy_db = Ok tt
      /\ seeded_from busy_db
           (db_after (mkOptions false None false false) busy_db)).
Proof.
  split; [reflexivity|].
  refine (seed_order_and_success busy_db false false
            (mkWorld busy_db [] []) _).
  reflexivity.
Defined.

(** C5 fails on the database with no rows at all: the seeding of the
    pages asks for the first site, and there is none. *)
Lemma seed_needs_a_site :
  users empty_db = [] /\ profiles empty_db = [] /\ projects empty_db = []
  /\ payments empty_db = [] /\ pages empty_db = [] /\ sites empty_db = []
  /\ outcome seed_options empty_db = Raise IndexError.
Proof. repeat split; vm_compute; reflexivity. Qed.

(** ** Seeding, then clearing *)

(** C1, as the code has it: on a database in which no seeded user name
    and no seeded tagline is taken, a full seed followed by a full clear
    leaves the users, the profiles, the projects and the payments as they
    were, row by row, and so in number.  If the site of the CMS is in
    place as well, both runs return. *)
Theorem seed_then_clear_restores (d : DB) (q1 q2 : bool) :
  restorable d = true ->
  (users (db_after (mkOptions true None q2 false)
            (db_after (mkOptions false None q1 false) d)) = users d
   /\ profiles (db_after (mkOptions true None q2 false)
                  (db_after (mkOptions false None q1 false) d)) = profiles d
   /\ projects (db_after (mkOptions true None q2 false)
                  (db_after (mkOptions false None q1 false) d)) = projects d
   /\ payments (db_after (mkOptions true None q2 false)
                  (db_after (mkOptions false None q1 false) d)) = payments d)
  /\ (length (users (db_after (mkOptions true None q2 false)
                       (db_after (mkOptions false None q1 false) d)))
      = length (users d)
      /\ length (profiles (db_after (mkOptions true None q2 false)
                             (db_after (mkOptions false None q1 false) d)))
         = length (profiles d)
      /\ length (projects (db_after (mkOptions true None q2 false)
                             (db_after (mkOptions false None q1 false) d)))
         = length (projects d)
      /\ length (payments (db_after (mkOptions true None q2 false)
                             (db_after (mkOptions false None q1 false) d)))
         = length (payments d))
  /\ (site_ready d = true ->
      outcome (mkOptions false None q1 false) d = Ok tt
      /\ outcome (mkOptions true None q2 false)
           (db_after (mkOptions false None q1 false) d) = Ok tt).
Proof.
  intros Hr. pose proof (restorable_Ready d Hr) as ready.
  pose proof (handle_seed_tables d ready q1 None [] [] eq_refl) as H1.
  fold (run (handle (mkOptions false None q1 false)) d) in H1.
  fold (db_after (mkOptions false None q1 false) d) in H1.
  pose proof (handle_clear_tables d ready q2 None _ [] [] eq_refl H1) as H2.
  fold (run (handle (mkOptions true None q2 false))
          (db_after (mkOptions false None q1 false) d)) in H2.
  fold (db_after (mkOptions true None q2 false)
          (db_after (mkOptions false None q1 false) d)) in H2.
  destruct H2 as (HU & HP & HJ & HY). rewrite app_nil_r in HU, HP, HJ, HY.
  split; [repeat split; assumption|].
  split; [rewrite HU, HP, HJ, HY; repeat split; reflexivity|].
  intros Hs. destruct (site_ready_in_place d Hs) as (s & rest & Hsite).
  destruct (handle_seed_ok d ready q1 None s rest [] [] eq_refl Hsite)
    as [Hok Hsite1].
  split; [exact Hok|].
  apply (handle_clear_ok d ready q2 None _ s rest [] [] eq_refl H1 Hsite1).
Qed.

Lemma seed_then_clear_restores_witness :
  restorable busy_db = true
  /\ site_ready busy_db = true
  /\ length (users (db_after (mkOptions true None false false)
                      (db_after (mkOptions false None false false)
                         busy_db)))
     = length (users busy_db)
  /\ length (payments (db_after (mkOptions true None false false)
                         (db_after (mkOptions false None false false)
                            busy_db)))
     = length (payments busy_db)
  /\ outcome (mkOptions true None false false)
       (db_after (mkOptions false None false false) busy_db) = Ok tt.
Proof.
  split; [reflexivity|]. split; [reflexivity|].
  destruct (seed_then_clear_restores busy_db false false eq_refl)
    as (_ & (HU & _ & _ & HY) & Hok).
  split; [exact HU|]. split; [exact HY|].
  exact (proj2 (Hok eq_refl)).
Defined.

(** C1 fails where a seeded tagline is already taken: somebody else's
    project of the tagline of [emblem] is there before the seed, and the
    clear deletes it by its tagline.  Both runs return; one project row
    before, none after. *)
Lemma clear_deletes_a_namesake :
  outcome seed_options namesake_db = Ok tt
  /\ outcome clear_options (db_after seed_options namesake_db) = Ok tt
  /\ length (projects namesake_db) = 1
  /\ length (projects (db_after seed_options namesake_db)) = 5
  /\ length (projects (db_after clear_options
                         (db_after seed_options namesake_db))) = 0.
Proof. repeat split; vm_compute; reflexivity. Qed.

(** * Further properties *)

(** ** The slug of a page *)

Lemma slug_char_facts (c : ascii) :
  let c' := lower_ascii c in
  let k := if Ascii.eqb c' " " then "-"%char else c' in
  k <> " "%char /\ is_upper k = false
  /\ (if Ascii.eqb (lower_ascii k) " " then "-"%char else lower_ascii k) = k.
Proof.
  destruct c as [[] [] [] [] [] [] [] []]; vm_compute;
    repeat split; discriminate.
Qed.

(** X1: the slug that [publish_page] and [publish_link_page] make of a
    title is as long as the title, holds no space and no upper-case
    letter of ASCII, and is its own slug. *)
Theorem slugify_properties (s : string) :
  String.length (slugify s) = String.length s
  /\ (forall k, In k (list_ascii_of_string (slugify s)) ->
        k <> " "%char /\ is_upper k = false)
  /\ slugify (slugify s) = slugify s.
Proof.
  induction s as [|c s (IHlen & IHchars & IHidem)].
  - repeat split; try reflexivity; destruct H.
  - pose proof (slug_char_facts c) as (Hsp & Hup & Hfix).
    cbn [slugify String.length list_ascii_of_string] in *.
    split; [f_equal; exact IHlen|]. split.
    + intros k [<-|Hk]; [split; assumption | apply IHchars; exact Hk].
    + cbn [slugify]. rewrite Hfix, IHidem. reflexivity.
Qed.

(** ** What a run may do to the four tables *)

Lemma filter_twice {A} (f g : A -> bool) (l : list A) :
  filter g (filter f l) = filter (fun x => f x && g x) l.
Proof.
  induction l as [|x l IH]; cbn; [reflexivity|].
  destruct (f x); cbn; [destruct (g x)|]; rewrite IH; reflexivity.
Qed.

Lemma filter_everything {A} (l : list A) : filter (fun _ => true) l = l.
Proof. induction l as [|x l IH]; cbn; [|rewrite IH]; reflexivity. Qed.

Lemma appended_refl (d : DB) : appended d d.
Proof. repeat split; exists []; rewrite app_nil_r; reflexivity. Qed.

Lemma appended_trans (a b c : DB) :
  appended a b -> appended b c -> appended a c.
Proof.
  intros ([l1 H1] & [l2 H2] & [l3 H3] & [l4 H4])
         ([m1 G1] & [m2 G2] & [m3 G3] & [m4 G4]).
  repeat split;
    [exists (l1 ++ m1) | exists (l2 ++ m2) | exists (l3 ++ m3)
    | exists (l4 ++ m4)];
    rewrite app_assoc; congruence.
Qed.

Lemma thinned_refl (d : DB) : thinned d d.
Proof.
  repeat split; exists (fun _ => true); rewrite filter_everything;
    reflexivity.
Qed.

Lemma thinned_trans (a b c : DB) :
  thinned a b -> thinned b c -> thinned a c.
Proof.
  intros ([k1 H1] & [k2 H2] & [k3 H3] & [k4 H4])
         ([m1 G1] & [m2 G2] & [m3 G3] & [m4 G4]).
  repeat split;
    [ exists (fun x => k1 x && m1 x) | exists (fun x => k2 x && m2 x)
    | exists (fun x => k3 x && m3 x) | exists (fun x => k4 x && m4 x) ];
    rewrite <- filter_twice; congruence.
Qed.

Section Keeps.

Variable R : DB -> DB -> Prop.
Hypothesis R_refl : forall d, R d d.
Hypothesis R_trans : forall a b c, R a b -> R b c -> R a c.

Lemma keeps_ret {A} (a : A) : keeps R (ret a).
Proof. intros w. apply R_refl. Qed.

Lemma keeps_raise {A} (e : exn) : keeps R (@raise A e).
Proof. intros w. apply R_refl. Qed.

Lemma keeps_get_db : keeps R get_db.
Proof. intros w. apply R_refl. Qed.

Lemma keeps_print (s : string) : keeps R (print s).
Proof. intros w. apply R_refl. Qed.

Lemma keeps_modify_db (g : DB -> DB) :
  (forall d, R d (g d)) -> keeps R (modify_db g).
Proof. intros H w. apply H. Qed.

Lemma keeps_bind_post {A B} (P : A -> Prop) (c : M A) (k : A -> M B) :
  keeps R c ->
  (forall w, match fst (c w) with Ok a => P a | Raise _ => True end) ->
  (forall a, P a -> keeps R (k a)) ->
  keeps R (bind c k).
Proof.
  intros Hc HP Hk w. unfold bind. specialize (Hc w). specialize (HP w).
  destruct (c w) as [[a|e] w']; cbn [fst snd] in *.
  - apply R_trans with (b := db w'); [exact Hc | apply (Hk a HP)].
  - exact Hc.
Qed.

Lemma keeps_bind {A B} (c : M A) (k : A -> M B) :
  keeps R c -> (forall a, keeps R (k a)) -> keeps R (bind c k).
Proof.
  intros Hc Hk. apply keeps_bind_post with (P := fun _ => True).
  - exact Hc.
  - intros w. destruct (fst (c w)); exact I.
  - intros a _. apply Hk.
Qed.

Lemma keeps_try {A} (body : M A) (catches : exn -> bool)
  (handler : exn -> M A) :
  keeps R body -> (forall e, keeps R (handler e)) ->
  keeps R (try_except body catches handler).
Proof.
  intros Hb Hh w. unfold try_except. specialize (Hb w).
  destruct (body w) as [[a|e] w']; cbn [snd] in *.
  - exact Hb.
  - destruct (catches e); [| exact Hb].
    apply R_trans with (b := db w'); [exact Hb | apply Hh].
Qed.

Lemma keeps_for_each {A} (xs : list A) (g : A -> M unit) :
  Forall (fun x => keeps R (g x)) xs -> keeps R (for_each xs g).
Proof.
  intros H. induction H as [|x xs Hx Hxs IH]; cbn [for_each].
  - apply keeps_ret.
  - apply keeps_bind; [exact Hx | intros _; exact IH].
Qed.

Lemma keeps_when (c : bool) (body : M unit) :
  keeps R body -> keeps R (when c body).
Proof. intros H. destruct c; [exact H | apply keeps_ret]. Qed.

(** What holds of every computation that leaves the four tables alone
    holds of the page operations. *)
Lemma keeps_preserved {A} (c : M A) :
  (forall a b, users b = users a -> profiles b = profiles a ->
               projects b = projects a -> payments b = payments a ->
               R a b) ->
  preserves users c -> preserves profiles c -> preserves projects c ->
  preserves payments c -> keeps R c.
Proof. intros HR H1 H2 H3 H4 w. apply HR; auto. Qed.

End Keeps.

(** Takes a goal [keeps R c] apart along the structure of [c]; [side]
    shows that a write to the database respects [R]. *)
Ltac keep_with refl trans side :=
  repeat first
    [ apply (keeps_ret _ refl) | apply (keeps_raise _ refl)
    | apply (keeps_get_db _ refl) | apply (keeps_print _ refl)
    | apply keeps_modify_db; intros ?; side
    | apply (keeps_when _ refl)
    | apply (keeps_bind _ trans); [| intros ?]
    | apply (keeps_try _ trans); [| intros ?]
    | apply (keeps_for_each _ refl trans); apply Forall_forall; intros ? _
    | match goal with
      | |- keeps _ (match ?x with _ => _ end) => destruct x
      end ].

(** A write that adds rows at the ends of tables. *)
Ltac appended_write :=
  unfold appended; read_tables; repeat split;
  first [ exists []; rewrite app_nil_r; reflexivity
        | eexists; reflexivity ].

(** A write that takes rows out of tables. *)
Ltac thinned_write :=
  unfold thinned;
  cbn [users profiles projects payments delete_users delete_profiles
       delete_projects delete_page set_users set_profiles set_projects
       set_payments set_pages set_sites bump_page];
  repeat split;
  first [ exists (fun _ => true); rewrite filter_everything; reflexivity
        | eexists; reflexivity
        | eexists; rewrite filter_twice; reflexivity ].

Section TableRelations.

Variable q : bool.

Lemma appended_frame (a b : DB) :
  users b = users a -> profiles b = profiles a ->
  projects b = projects a -> payments b = payments a -> appended a b.
Proof.
  intros H1 H2 H3 H4.
  repeat split; exists []; rewrite app_nil_r; assumption.
Qed.

Lemma thinned_frame (a b : DB) :
  users b = users a -> profiles b = profiles a ->
  projects b = projects a -> payments b = payments a -> thinned a b.
Proof.
  intros H1 H2 H3 H4.
  repeat split; exists (fun _ => true); rewrite filter_everything;
    assumption.
Qed.

Lemma appended_seed (spec : SeedSpec) :
  In spec (map snd SPECS_TO_RUN) -> keeps appended (seed spec q).
Proof.
  cbn. intros [<-|[<-|[<-|[<-|[]]]]];
    cbn [seed RevolvUserProfileSeedSpec ProjectSeedSpec PaymentSeedSpec
         CMSPageSeedSpec].
  - open_calls. keep_with appended_refl appended_trans appended_write.
  - open_calls. keep_with appended_refl appended_trans appended_write.
  - open_calls. keep_with appended_refl appended_trans appended_write.
  - pose proof (frame_seed_cms q) as (F1 & F2 & F3 & F4 & _).
    apply keeps_preserved; [exact appended_frame | assumption ..].
Qed.

Lemma thinned_clear (spec : SeedSpec) :
  In spec (map snd SPECS_TO_RUN) -> keeps thinned (clear spec q).
Proof.
  cbn. intros [<-|[<-|[<-|[<-|[]]]]];
    cbn [clear RevolvUserProfileSeedSpec ProjectSeedSpec PaymentSeedSpec
         CMSPageSeedSpec].
  - open_calls. unfold when.
    keep_with thinned_refl thinned_trans thinned_write.
  - open_calls. unfold when.
    keep_with thinned_refl thinned_trans thinned_write.
  - open_calls. unfold when.
    keep_with thinned_refl thinned_trans thinned_write.
  - pose proof (frame_clear_cms q) as (F1 & F2 & F3 & F4).
    apply keeps_preserved; [exact thinned_frame | assumption ..].
Qed.

End TableRelations.

Section HandleKeeps.

Variable R : DB -> DB -> Prop.
Hypothesis R_refl : forall d, R d d.
Hypothesis R_trans : forall a b c, R a b -> R b c -> R a c.

Lemma keeps_log (o : Options) (msg : string) : keeps R (log o msg).
Proof. unfold log. apply (keeps_when _ R_refl). apply (keeps_print _ R_refl). Qed.

Lemma keeps_select_specs (o : Options) : keeps R (select_specs o).
Proof.
  unfold select_specs. destruct (spec_given o) as [name|];
    [| apply (keeps_ret _ R_refl)].
  destruct (dict_get SPECS_TO_RUN name); [apply (keeps_ret _ R_refl)|].
  apply (keeps_bind _ R_trans); [apply keeps_log |].
  intros _. apply (keeps_ret _ R_refl).
Qed.

(** A run of [handle] respects what every step of its specifications
    respects. *)
Lemma keeps_handle (o : Options) :
  (forall spec, In spec (map snd SPECS_TO_RUN) ->
     keeps R (if opt_clear o then clear spec (opt_quiet o)
              else seed spec (opt_quiet o))) ->
  keeps R (handle o).
Proof.
  intros Hspec. unfold handle. destruct (opt_list o).
  - repeat (apply (keeps_bind _ R_trans); [apply keeps_log | intros _]).
    apply keeps_log.
  - apply (keeps_bind_post _ R_trans)
      with (P := Forall (fun spec => In spec (map snd SPECS_TO_RUN))).
    + apply keeps_select_specs.
    + intros w. pose proof (select_specs_registered o w) as H.
      destruct (fst (select_specs o w)); [exact H | exact I].
    + intros specs Hspecs.
      apply (keeps_bind _ R_trans); [apply keeps_log | intros _].
      apply (keeps_bind _ R_trans); [| intros _; apply keeps_log].
      apply (keeps_for_each _ R_refl R_trans).
      apply Forall_impl with (2 := Hspecs). intros spec Hin.
      apply Hspec. exact Hin.
Qed.

End HandleKeeps.

(** X2: a run that seeds never deletes or changes a user, a profile, a
    project or a payment: whatever the options and the outcome, each of
    the four tables afterwards is the table before with rows added at its
    end. *)
Theorem seeding_only_appends (o : Options) (w : World) :
  opt_clear o = false -> appended (db w) (db (snd (handle o w))).
Proof.
  intros Hc.
  apply (keeps_handle appended appended_refl appended_trans o).
  intros spec Hin. rewrite Hc. apply appended_seed. exact Hin.
Qed.

Lemma seeding_only_appends_witness :
  appended (db (mkWorld busy_db [] []))
    (db (snd (handle (mkOptions false (Some "project") false false)
                (mkWorld busy_db [] [])))).
Proof.
  refine (seeding_only_appends
            (mkOptions false (Some "project") false false)
            (mkWorld busy_db [] []) _).
  reflexivity.
Defined.

(** X3: a run that clears never adds or changes a user, a profile, a
    project or a payment: whatever the options and the outcome, each of
    the four tables afterwards is the table before with rows taken out. *)
Theorem clearing_only_deletes (o : Options) (w : World) :
  opt_clear o = true -> thinned (db w) (db (snd (handle o w))).
Proof.
  intros Hc.
  apply (keeps_handle thinned thinned_refl thinned_trans o).
  intros spec Hin. rewrite Hc. apply thinned_clear. exact Hin.
Qed.

Lemma clearing_only_deletes_witness :
  thinned (db (mkWorld busy_db [] []))
    (db (snd (handle (mkOptions true None false false)
                (mkWorld busy_db [] [])))).
Proof.
  refine (clearing_only_deletes (mkOptions true None false false)
            (mkWorld busy_db [] []) _).
  reflexivity.
Defined.

(** ** The seeds, one by one *)

Lemma get_one_outcome {R} (m : Model) (rows : list R) (w : World) :
  match get_failure m rows with
  | None => exists r, rows = [r] /\ get_one m rows w = (Ok r, w)
  | Some e =>
      get_one m rows w
      = (Raise e, mkWorld (db w) (stdout w) (raised w ++ [e]))
  end.
Proof.
  destruct rows as [|r [|r' rows]]; cbn; try reflexivity.
  exists r. split; reflexivity.
Qed.

Lemma existsb_seed_username (l : list User) :
  existsb (fun u => seed_username (username u)) l
  = existsb (fun u => username u =? "donor") l
    || existsb (fun u => username u =? "ambassador") l
    || existsb (fun u => username u =? "administrator") l.
Proof.
  induction l as [|u l IH]; [reflexivity|].
  cbn [existsb]. rewrite IH. unfold seed_username, usernames_to_clear.
  cbn [existsb].
  destruct (username u =? "donor"), (username u =? "ambassador"),
    (username u =? "administrator"),
    (existsb (fun u => username u =? "donor") l),
    (existsb (fun u => username u =? "ambassador") l),
    (existsb (fun u => username u =? "administrator") l); reflexivity.
Qed.

Lemma create_user_with_role_new (role : Role) (n e f l p : string)
  (w : World) :
  existsb (fun u => username u =? n) (users (db w)) = false ->
  create_user_with_role role n e f l p w =
    (Ok (mkProfile (next_profile (db w)) (next_user (db w)) role),
     mkWorld
       (bump_profile (bump_user
          (set_profiles
             (fun x => x ++ [mkProfile (next_profile (db w))
                               (next_user (db w)) role])
             (set_users
                (fun x => x ++ [mkUser (next_user (db w)) n e f l p])
                (db w)))))
       (stdout w) (raised w)).
Proof.
  intros H. unfold create_user_with_role, bind, get_db. rewrite H.
  reflexivity.
Qed.

Lemma create_user_with_role_taken (role : Role) (n e f l p : string)
  (w : World) :
  existsb (fun u => username u =? n) (users (db w)) = true ->
  create_user_with_role role n e f l p w =
    (Raise IntegrityError,
     mkWorld (db w) (stdout w) (raised w ++ [IntegrityError])).
Proof.
  intros H. unfold create_user_with_role, bind, get_db. rewrite H.
  reflexivity.
Qed.

(** X4: [RevolvUserProfileSeedSpec.seed] returns exactly when none of the
    three user names is taken; it has then added the three users and
    their profiles, one of each role, and nothing else.  When a name is
    taken the framework refuses the user and the seed ends with the
    [IntegrityError]. *)
Theorem user_seed_needs_free_names (q : bool) (w : World) :
  if existsb (fun u => seed_username (username u)) (users (db w))
  then fst (RevolvUserProfile_seed q w) = Raise IntegrityError
  else RevolvUserProfile_seed q w
       = (Ok tt, mkWorld (after_users (db w)) (stdout w) (raised w)).
Proof.
  rewrite existsb_seed_username.
  unfold RevolvUserProfile_seed, create_user, create_user_as_ambassador,
    create_user_as_admin.
  destruct (existsb (fun u => username u =? "donor") (users (db w)))
    eqn:Ed; cbn [orb].
  { rewrite (bind_raise _ _ _ _ _ (create_user_with_role_taken _ _ _ _ _ _ _ Ed)).
    reflexivity. }
  rewrite (bind_ok _ _ _ _ _ (create_user_with_role_new _ _ _ _ _ _ _ Ed)).
  destruct (existsb (fun u => username u =? "ambassador") (users (db w)))
    eqn:Ea; cbn [orb].
  { erewrite bind_raise; [reflexivity|].
    apply create_user_with_role_taken. read_tables.
    rewrite existsb_app, Ea. reflexivity. }
  erewrite bind_ok.
  2:{ apply create_user_with_role_new. read_tables.
      rewrite existsb_app, Ea. reflexivity. }
  destruct (existsb (fun u => username u =? "administrator") (users (db w)))
    eqn:Eb.
  { erewrite bind_raise; [reflexivity|].
    apply create_user_with_role_taken. read_tables.
    rewrite !existsb_app, Eb. reflexivity. }
  erewrite bind_ok.
  2:{ apply create_user_with_role_new. read_tables.
      rewrite !existsb_app, Eb. reflexivity. }
  unfold ret. destruct w as [d out log]. do 2 f_equal.
  apply db_ext; read_tables; rewrite <- ?app_assoc; reflexivity.
Qed.

(** X5: [ProjectSeedSpec.seed] is all or nothing.  If exactly one profile
    belongs to a user named ambassador, it adds the four projects, each
    run by that profile, with the statuses active, completed, proposed and
    drafted.  Otherwise the look-up raises (no such profile, or more than
    one) and nothing is written. *)
Theorem project_seed_all_or_nothing (q : bool) (w : World) :
  match profiles_named "ambassador" (db w) with
  | [p] =>
      Project_seed q w
      = (Ok tt,
         mkWorld
           (add_projects
              (project_rows_for (profile_id p) (next_project (db w)))
              (db w))
           (stdout w) (raised w))
  | rows =>
      exists e,
        get_failure MRevolvUserProfile rows = Some e
        /\ Project_seed q w
           = (Raise e, mkWorld (db w) (stdout w) (raised w ++ [e]))
  end.
Proof.
  unfold Project_seed.
  pose proof (get_one_outcome MRevolvUserProfile
                (profiles_named "ambassador" (db w)) w) as H.
  change (get_one MRevolvUserProfile (profiles_named "ambassador" (db w)) w)
    with (Profile_get_username "ambassador" w) in H.
  destruct (profiles_named "ambassador" (db w)) as [|p [|p' rows]];
    cbn [get_failure] in H.
  - eexists. split; [reflexivity|]. apply bind_raise. exact H.
  - destruct H as (r & [= <-] & E). rewrite (bind_ok _ _ _ _ _ E).
    unfold Project_create, bind, get_db, modify_db, ret.
    cbn [db stdout raised profile_id]. destruct w as [d out log].
    do 2 f_equal. apply db_ext; unfold add_projects, project_rows_for;
      read_tables; rewrite <- ?app_assoc; reflexivity.
  - eexists. split; [reflexivity|]. apply bind_raise. exact H.
Qed.

Lemma get_one_found {R} (m : Model) (rows : list R) (w : World) :
  match found rows with
  | Some r => get_one m rows w = (Ok r, w)
  | None =>
      exists e,
        get_failure m rows = Some e
        /\ get_one m rows w
           = (Raise e, mkWorld (db w) (stdout w) (raised w ++ [e]))
  end.
Proof.
  destruct rows as [|r [|r' rows]]; cbn; try reflexivity;
    eexists; split; reflexivity.
Qed.

Lemma Profile_get_username_found (name : string) (w : World) :
  match found (profiles_named name (db w)) with
  | Some p => Profile_get_username name w = (Ok p, w)
  | None =>
      exists e,
        get_failure MRevolvUserProfile (profiles_named name (db w)) = Some e
        /\ Profile_get_username name w
           = (Raise e, mkWorld (db w) (stdout w) (raised w ++ [e]))
  end.
Proof. exact (get_one_found MRevolvUserProfile _ w). Qed.

Lemma Project_get_tagline_found (t : string) (w : World) :
  match found (projects_tagged t (db w)) with
  | Some j => Project_get_tagline t w = (Ok j, w)
  | None =>
      exists e,
        get_failure MProject (projects_tagged t (db w)) = Some e
        /\ Project_get_tagline t w
           = (Raise e, mkWorld (db w) (stdout w) (raised w ++ [e]))
  end.
Proof. exact (get_one_found MProject _ w). Qed.

Lemma User_get_found (name : string) (w : World) :
  match found (users_named name (db w)) with
  | Some u => User_get name w = (Ok u, w)
  | None =>
      exists e,
        get_failure MUser (users_named name (db w)) = Some e
        /\ User_get name w
           = (Raise e, mkWorld (db w) (stdout w) (raised w ++ [e]))
  end.
Proof. exact (get_one_found MUser _ w). Qed.

(** X6: [PaymentSeedSpec.seed] is all or nothing.  If each of its five
    look-ups (the profiles of donor, ambassador and administrator, the
    projects of the taglines of [studio] and [dairy]) finds exactly one
    row, it adds the six payments between those rows.  Otherwise it ends
    with the exception of the first look-up that fails, and nothing is
    written. *)
Theorem payment_seed_all_or_nothing (q : bool) (w : World) :
  match found (profiles_named "donor" (db w)),
        found (profiles_named "ambassador" (db w)),
        found (profiles_named "administrator" (db w)),
        found (projects_tagged (tagline studio) (db w)),
        found (projects_tagged (tagline dairy) (db w)) with
  | Some pd, Some pa, Some pad, Some js, Some jd =>
      Payment_seed q w
      = (Ok tt,
         mkWorld
           (add_payments
              (payment_rows_for (profile_id pd) (profile_id pa)
                 (profile_id pad) (project_id js) (project_id jd)
                 (next_payment (db w)))
              (db w))
           (stdout w) (raised w))
  | _, _, _, _, _ =>
      exists e,
        Payment_seed q w
        = (Raise e, mkWorld (db w) (stdout w) (raised w ++ [e]))
  end.
Proof.
  unfold Payment_seed.
  pose proof (Profile_get_username_found "donor" w) as H1.
  pose proof (Profile_get_username_found "ambassador" w) as H2.
  pose proof (Profile_get_username_found "administrator" w) as H3.
  pose proof (Project_get_tagline_found (tagline studio) w) as H4.
  pose proof (Project_get_tagline_found (tagline dairy) w) as H5.
  destruct (found (profiles_named "donor" (db w))) as [pd|].
  2:{ destruct H1 as (e & _ & E). exists e. apply bind_raise. exact E. }
  rewrite (bind_ok _ _ _ _ _ H1).
  destruct (found (profiles_named "ambassador" (db w))) as [pa|].
  2:{ destruct H2 as (e & _ & E). exists e. apply bind_raise. exact E. }
  rewrite (bind_ok _ _ _ _ _ H2).
  destruct (found (profiles_named "administrator" (db w))) as [pad|].
  2:{ destruct H3 as (e & _ & E). exists e. apply bind_raise. exact E. }
  rewrite (bind_ok _ _ _ _ _ H3).
  destruct (found (projects_tagged (tagline studio) (db w))) as [js|].
  2:{ destruct H4 as (e & _ & E). exists e. apply bind_raise. exact E. }
  rewrite (bind_ok _ _ _ _ _ H4).
  destruct (found (projects_tagged (tagline dairy) (db w))) as [jd|].
  2:{ destruct H5 as (e & _ & E). exists e. apply bind_raise. exact E. }
  rewrite (bind_ok _ _ _ _ _ H5).
  unfold Payment_create, bind, get_db, modify_db, ret.
  cbn [db stdout raised]. destruct w as [d out log].
  do 2 f_equal. apply db_ext; unfold add_payments, payment_rows_for;
    read_tables; rewrite <- ?app_assoc; reflexivity.
Qed.

(** ** The clears, one by one *)

(** X7: [PaymentSeedSpec.clear] is all or nothing.  If each of the three
    seeded user names leads to exactly one profile, it deletes the
    payments whose user is one of the three profiles and no other payment
    (a payment that one of them only entered stays).  If a look-up fails,
    no payment is deleted at all, not even of the users that were found,
    and no other table is written in either case. *)
Theorem payment_clear_all_or_nothing (q : bool) (w : World) :
  match found (profiles_named "donor" (db w)),
        found (profiles_named "ambassador" (db w)),
        found (profiles_named "administrator" (db w)) with
  | Some pd, Some pa, Some pad =>
      Payment_clear q w
      = (Ok tt,
         mkWorld
           (set_payments
              (filter (fun y =>
                         negb (pay_user y =? profile_id pd)%nat
                         && negb (pay_user y =? profile_id pa)%nat
                         && negb (pay_user y =? profile_id pad)%nat))
              (db w))
           (stdout w) (raised w))
  | _, _, _ => db (snd (Payment_clear q w)) = db w
  end.
Proof.
  unfold Payment_clear, try_except, Payment_clear_body.
  pose proof (Profile_get_username_found "donor" w) as H1.
  pose proof (Profile_get_username_found "ambassador" w) as H2.
  pose proof (Profile_get_username_found "administrator" w) as H3.
  assert (Hfail : forall (k : M unit) e,
            k w = (Raise e, mkWorld (db w) (stdout w) (raised w ++ [e])) ->
            db (snd (match k w with
                     | (Ok a, w') => (Ok a, w')
                     | (Raise e, w') =>
                         if is_DoesNotExist MRevolvUserProfile e
                         then warn_unless q "PaymentSeedSpec" e w'
                         else (Raise e, w')
                     end)) = db w).
  { intros k e E. rewrite E.
    destruct (is_DoesNotExist MRevolvUserProfile e); [| reflexivity].
    unfold warn_unless, when, print, ret. destruct q; reflexivity. }
  destruct (found (profiles_named "donor" (db w))) as [pd|].
  2:{ destruct H1 as (e & _ & E). cbv beta iota.
      apply (Hfail _ e). apply bind_raise. exact E. }
  destruct (found (profiles_named "ambassador" (db w))) as [pa|].
  2:{ destruct H2 as (e & _ & E). cbv beta iota.
      apply (Hfail _ e). rewrite (bind_ok _ _ _ _ _ H1).
      apply bind_raise. exact E. }
  destruct (found (profiles_named "administrator" (db w))) as [pad|].
  2:{ destruct H3 as (e & _ & E). cbv beta iota.
      apply (Hfail _ e).
      rewrite (bind_ok _ _ _ _ _ H1), (bind_ok _ _ _ _ _ H2).
      apply bind_raise; exact E. }
  rewrite (bind_ok _ _ _ _ _ H1), (bind_ok _ _ _ _ _ H2),
    (bind_ok _ _ _ _ _ H3).
  unfold Payments_of_user_delete, bind, modify_db.
  cbn [db stdout raised]. destruct w as [d out log].
  do 2 f_equal. apply db_ext; read_tables; try reflexivity.
  rewrite !filter_twice. apply filter_ext. intros y.
  apply andb_assoc.
Qed.

(** ** Runs of the command on databases that are not ready *)

Lemma log_line (o : Options) (msg : string) (w : World) :
  log o msg w
  = (Ok tt,
     mkWorld (db w) (stdout w ++ unless_quiet (opt_quiet o) [msg])
       (raised w)).
Proof.
  unfold log, when, print, ret, unless_quiet.
  destruct (opt_quiet o), w; cbn; rewrite ?app_nil_r; reflexivity.
Qed.

(** [handle] on all specifications: the head line, the loop, the last
    line. *)
Lemma handle_all_eq (c q : bool) (s : option string) (w : World) :
  spec_given (mkOptions c s q false) = None ->
  handle (mkOptions c s q false) w
  = (for_each (map snd SPECS_TO_RUN)
       (fun spec => if c then clear spec q else seed spec q) ;;;
     log (mkOptions c s q false) "[Seed:Info] Done!")
      (mkWorld (db w)
         (stdout w
          ++ unless_quiet q
               [("[Seed:Info] " ++ (if c then "Clearing" else "Seeding")
                 ++ " objects from 4 seed spec(s)...")%string])
         (raised w)).
Proof.
  intros Hs. unfold handle, select_specs. rewrite Hs.
  cbn [opt_list opt_clear opt_quiet].
  rewrite (bind_ok _ _ _ _ _ (eq_refl : ret _ w = (Ok _, w))).
  erewrite bind_ok; [| apply log_line]. reflexivity.
Qed.

(** [handle] on one registered specification. *)
Lemma handle_single_eq (c q : bool) (name : string) (spec : SeedSpec)
  (w : World) :
  In (name, spec) SPECS_TO_RUN ->
  handle (mkOptions c (Some name) q false) w
  = (((if c then clear spec q else seed spec q) ;;; ret tt) ;;;
     log (mkOptions c (Some name) q false) "[Seed:Info] Done!")
      (mkWorld (db w)
         (stdout w
          ++ unless_quiet q
               [("[Seed:Info] " ++ (if c then "Clearing" else "Seeding")
                 ++ " objects from 1 seed spec(s)...")%string])
         (raised w)).
Proof.
  intros Hin. unfold handle. cbn [opt_list opt_clear opt_quiet].
  assert (Hsel : select_specs (mkOptions c (Some name) q false)
                 = ret [spec]).
  { cbn in Hin.
    destruct Hin as [H|[H|[H|[H|[]]]]]; injection H as <- <-; reflexivity. }
  rewrite Hsel.
  rewrite (bind_ok _ _ _ _ _ (eq_refl : ret _ w = (Ok _, w))).
  erewrite bind_ok; [| apply log_line]. reflexivity.
Qed.

(** X8: seeding is not repeatable.  On a database that holds a user named
    donor (as it does after a seed), a full seed ends with the
    [IntegrityError] of the first user it tries to create, and writes
    nothing. *)
Theorem seed_refuses_taken_donor (d : DB) (q : bool) :
  existsb (fun u => username u =? "donor") (users d) = true ->
  outcome (mkOptions false None q false) d = Raise IntegrityError
  /\ db_after (mkOptions false None q false) d = d.
Proof.
  intros Hd. unfold outcome, db_after, run.
  rewrite (handle_all_eq false q None _ eq_refl).
  cbn [map snd SPECS_TO_RUN for_each seed RevolvUserProfileSeedSpec].
  unfold RevolvUserProfile_seed, create_user.
  erewrite bind_raise.
  2:{ apply bind_raise. apply bind_raise.
      apply create_user_with_role_taken. exact Hd. }
  split; reflexivity.
Qed.

Lemma seed_refuses_taken_donor_witness :
  existsb (fun u => username u =? "donor") (users seeded_db) = true
  /\ outcome (mkOptions false None false false) seeded_db
     = Raise IntegrityError
  /\ db_after (mkOptions false None false false) seeded_db = seeded_db.
Proof.
  split; [vm_compute; reflexivity|].
  refine (seed_refuses_taken_donor seeded_db false _).
  vm_compute. reflexivity.
Defined.

Lemma no_profile_without_user (name : string) (d : DB) :
  existsb (fun u => username u =? name) (users d) = false ->
  profiles_named name d = [].
Proof.
  intros H. unfold profiles_named. apply filter_keeps_none. intros p _.
  apply existsb_none. intros u Hu.
  rewrite (existsb_false_all _ _ H u Hu). apply andb_false_r.
Qed.

Lemma no_seeded_name (d : DB) :
  existsb (fun u => seed_username (username u)) (users d) = false ->
  existsb (fun u => username u =? "donor") (users d) = false
  /\ existsb (fun u => username u =? "ambassador") (users d) = false
  /\ existsb (fun u => username u =? "administrator") (users d) = false.
Proof.
  rewrite existsb_seed_username. intros H.
  apply orb_false_iff in H as [H H3]. apply orb_false_iff in H as [H1 H2].
  auto.
Qed.

(** A run on one specification whose step raises without writing. *)
Lemma handle_single_raises (c q : bool) (name : string) (spec : SeedSpec)
  (e : exn) (d : DB) :
  In (name, spec) SPECS_TO_RUN ->
  (forall out log,
     (if c then clear spec q else seed spec q) (mkWorld d out log)
     = (Raise e, mkWorld d out (log ++ [e]))) ->
  outcome (mkOptions c (Some name) q false) d = Raise e
  /\ db_after (mkOptions c (Some name) q false) d = d.
Proof.
  intros Hin Hstep. unfold outcome, db_after, run.
  rewrite (handle_single_eq c q name spec _ Hin). cbn [db stdout raised].
  erewrite bind_raise; [| apply bind_raise; apply Hstep].
  split; reflexivity.
Qed.

(** X9: the data dependencies of the specifications.  On a database that
    holds none of the three seeded users, seeding the projects alone or
    the payments alone ends with [RevolvUserProfile.DoesNotExist], seeding
    the pages alone ends with [User.DoesNotExist], and none of the three
    runs writes anything. *)
Theorem specs_need_the_users (d : DB) (q : bool) :
  existsb (fun u => seed_username (username u)) (users d) = false ->
  (outcome (mkOptions false (Some "project") q false) d
   = Raise (DoesNotExist MRevolvUserProfile)
   /\ db_after (mkOptions false (Some "project") q false) d = d)
  /\ (outcome (mkOptions false (Some "payment") q false) d
      = Raise (DoesNotExist MRevolvUserProfile)
      /\ db_after (mkOptions false (Some "payment") q false) d = d)
  /\ (outcome (mkOptions false (Some "cms") q false) d
      = Raise (DoesNotExist MUser)
      /\ db_after (mkOptions false (Some "cms") q false) d = d).
Proof.
  intros H. destruct (no_seeded_name d H) as (Hd & Ha & Hadm).
  split; [| split].
  - apply (handle_single_raises false q "project" ProjectSeedSpec).
    + right. left. reflexivity.
    + intros out log. cbn [seed ProjectSeedSpec]. unfold Project_seed.
      apply bind_raise. unfold Profile_get_username, bind, get_db.
      cbn [db]. fold (profiles_named "ambassador" d).
      rewrite (no_profile_without_user _ _ Ha). reflexivity.
  - apply (handle_single_raises false q "payment" PaymentSeedSpec).
    + right. right. left. reflexivity.
    + intros out log. cbn [seed PaymentSeedSpec]. unfold Payment_seed.
      apply bind_raise. unfold Profile_get_username, bind, get_db.
      cbn [db]. fold (profiles_named "donor" d).
      rewrite (no_profile_without_user _ _ Hd). reflexivity.
  - apply (handle_single_raises false q "cms" CMSPageSeedSpec).
    + right. right. right. left. reflexivity.
    + intros out log. cbn [seed CMSPageSeedSpec]. unfold CMSPage_seed.
      apply bind_raise. unfold User_get, bind, get_db. cbn [db].
      rewrite (filter_keeps_none _ _ (existsb_false_all _ _ Hadm)).
      reflexivity.
Qed.

Lemma specs_need_the_users_witness :
  (outcome (mkOptions false (Some "project") false false) busy_db
   = Raise (DoesNotExist MRevolvUserProfile)
   /\ db_after (mkOptions false (Some "project") false false) busy_db
      = busy_db)
  /\ (outcome (mkOptions false (Some "payment") false false) busy_db
      = Raise (DoesNotExist MRevolvUserProfile)
      /\ db_after (mkOptions false (Some "payment") false false) busy_db
         = busy_db)
  /\ (outcome (mkOptions false (Some "cms") false false) busy_db
      = Raise (DoesNotExist MUser)
      /\ db_after (mkOptions false (Some "cms") false false) busy_db
         = busy_db).
Proof.
  refine (specs_need_the_users busy_db false _). reflexivity.
Defined.

Lemma caught_round (body : M unit) (catches : exn -> bool) (q : bool)
  (cls : string) (e : exn) (w : World) :
  body w = (Raise e, mkWorld (db w) (stdout w) (raised w ++ [e])) ->
  catches e = true ->
  try_except body catches (warn_unless q cls) w
  = (Ok tt,
     mkWorld (db w) (stdout w ++ unless_quiet q [clear_warning cls e])
       (raised w ++ [e])).
Proof.
  intros Hb Hc. unfold try_except. rewrite Hb, Hc.
  unfold warn_unless, when, print, ret, unless_quiet.
  destruct q; cbn; rewrite ?app_nil_r; reflexivity.
Qed.

Lemma unless_quiet_app (q : bool) (a b : list string) :
  unless_quiet q a ++ unless_quiet q b = unless_quiet q (a ++ b).
Proof. destruct q; reflexivity. Qed.

Section NothingToClear.

Variables (d : DB) (q : bool).
Hypothesis no_names :
  existsb (fun u => seed_username (username u)) (users d) = false.
Hypothesis no_taglines :
  existsb (fun j => seed_tagline (tagline (project_data j))) (projects d)
  = false.

Let warnings (n k : nat) : list string :=
  map (fun ce => clear_warning (fst ce) (snd ce))
    (firstn k (skipn n clear_misses)).

Let misses (n k : nat) : list exn :=
  map snd (firstn k (skipn n clear_misses)).

Lemma user_round_misses (name : string) (out : list string)
  (log : list exn) :
  In name usernames_to_clear ->
  try_except (RevolvUserProfile_clear_one name) (is_DoesNotExist MUser)
    (warn_unless q "RevolvUserProfileSeedSpec") (mkWorld d out log)
  = (Ok tt,
     mkWorld d
       (out ++ unless_quiet q
                 [clear_warning "RevolvUserProfileSeedSpec"
                    (DoesNotExist MUser)])
       (log ++ [DoesNotExist MUser])).
Proof.
  intros Hin. apply (caught_round _ _ q _ _ (mkWorld d out log));
    [| reflexivity].
  unfold RevolvUserProfile_clear_one. apply bind_raise.
  unfold User_get, bind, get_db. cbn [db].
  rewrite filter_keeps_none; [reflexivity|].
  intros u Hu. pose proof (existsb_false_all _ _ no_names u Hu) as H.
  destruct (username u =? name) eqn:E; [| reflexivity].
  apply String.eqb_eq in E. rewrite <- H. symmetry.
  unfold seed_username. apply existsb_exists. exists name.
  split; [exact Hin | rewrite E; apply String.eqb_refl].
Qed.

Lemma RevolvUserProfile_clear_misses (out : list string) (log : list exn) :
  RevolvUserProfile_clear q (mkWorld d out log)
  = (Ok tt,
     mkWorld d (out ++ unless_quiet q (warnings 0 3)) (log ++ misses 0 3)).
Proof.
  unfold RevolvUserProfile_clear, usernames_to_clear. cbn [for_each].
  rewrite (bind_ok _ _ _ _ _ (user_round_misses "donor" _ _
             (or_introl eq_refl))).
  rewrite (bind_ok _ _ _ _ _ (user_round_misses "ambassador" _ _
             (or_intror (or_introl eq_refl)))).
  rewrite (bind_ok _ _ _ _ _ (user_round_misses "administrator" _ _
             (or_intror (or_intror (or_introl eq_refl))))).
  unfold ret. rewrite <- !app_assoc, !unless_quiet_app. reflexivity.
Qed.

Lemma project_round_misses (project : ProjectData) (out : list string)
  (log : list exn) :
  In project projects_to_clear ->
  try_except (Project_clear_one project) (is_DoesNotExist MProject)
    (warn_unless q "ProjectSeedSpec") (mkWorld d out log)
  = (Ok tt,
     mkWorld d
       (out ++ unless_quiet q
                 [clear_warning "ProjectSeedSpec" (DoesNotExist MProject)])
       (log ++ [DoesNotExist MProject])).
Proof.
  intros Hin. apply (caught_round _ _ q _ _ (mkWorld d out log));
    [| reflexivity].
  unfold Project_clear_one. apply bind_raise.
  unfold Project_get_tagline, bind, get_db. cbn [db].
  rewrite filter_keeps_none; [reflexivity|].
  intros j Hj. pose proof (existsb_false_all _ _ no_taglines j Hj) as H.
  destruct (tagline (project_data j) =? tagline project) eqn:E;
    [| reflexivity].
  rewrite <- H. symmetry. unfold seed_tagline. apply existsb_exists.
  exists project. split; assumption.
Qed.

Lemma Project_clear_misses (out : list string) (log : list exn) :
  Project_clear q (mkWorld d out log)
  = (Ok tt,
     mkWorld d (out ++ unless_quiet q (warnings 3 4)) (log ++ misses 3 4)).
Proof.
  unfold Project_clear, projects_to_clear. cbn [for_each].
  rewrite (bind_ok _ _ _ _ _ (project_round_misses studio _ _
             (or_introl eq_refl))).
  rewrite (bind_ok _ _ _ _ _ (project_round_misses dairy _ _
             (or_intror (or_introl eq_refl)))).
  rewrite (bind_ok _ _ _ _ _ (project_round_misses educathing _ _
             (or_intror (or_intror (or_introl eq_refl))))).
  rewrite (bind_ok _ _ _ _ _ (project_round_misses emblem _ _
             (or_intror (or_intror (or_intror (or_introl eq_refl)))))).
  unfold ret. rewrite <- !app_assoc, !unless_quiet_app. reflexivity.
Qed.

Lemma Payment_clear_misses (out : list string) (log : list exn) :
  Payment_clear q (mkWorld d out log)
  = (Ok tt,
     mkWorld d (out ++ unless_quiet q (warnings 7 1)) (log ++ misses 7 1)).
Proof.
  unfold Payment_clear.
  apply (caught_round _ _ q _ _ (mkWorld d out log)); [| reflexivity].
  unfold Payment_clear_body. apply bind_raise.
  unfold Profile_get_username, bind, get_db. cbn [db].
  fold (profiles_named "donor" d).
  rewrite (no_profile_without_user _ _ (proj1 (no_seeded_name d no_names))).
  reflexivity.
Qed.

(** The first three specifications of a full clear find nothing, and the
    CMS specification is left to run. *)
Lemma clear_misses_eq (out : list string) (log : list exn) :
  for_each (map snd SPECS_TO_RUN) (fun spec => clear spec q)
    (mkWorld d out log)
  = (CMSPage_clear q ;;; ret tt)
      (mkWorld d
         (out ++ unless_quiet q
                   (map (fun ce => clear_warning (fst ce) (snd ce))
                      clear_misses))
         (log ++ map snd clear_misses)).
Proof.
  cbn [map snd SPECS_TO_RUN for_each clear RevolvUserProfileSeedSpec
       ProjectSeedSpec PaymentSeedSpec CMSPageSeedSpec].
  rewrite (bind_ok _ _ _ _ _ (RevolvUserProfile_clear_misses _ _)).
  rewrite (bind_ok _ _ _ _ _ (Project_clear_misses _ _)).
  rewrite (bind_ok _ _ _ _ _ (Payment_clear_misses _ _)).
  rewrite <- !app_assoc, !unless_quiet_app. reflexivity.
Qed.

End NothingToClear.

(** ** The pages *)

Lemma mem_app (i : nat) (a b : list nat) :
  mem i (a ++ b) = mem i a || mem i b.
Proof. unfold mem. apply existsb_app. Qed.

Lemma page_closure_grows (ps : list Page) (fuel : nat) :
  forall ids i, mem i ids = true -> mem i (page_closure ps fuel ids) = true.
Proof.
  induction fuel as [|fuel IH]; intros ids i Hi; cbn [page_closure].
  - exact Hi.
  - apply IH. rewrite mem_app, Hi. reflexivity.
Qed.

Lemma page_closure_children (ps : list Page) (fuel : nat) (ids : list nat)
  (p : Page) (q : nat) :
  In p ps -> page_parent p = Some q -> mem q ids = true ->
  mem (page_id p) (page_closure ps (S fuel) ids) = true.
Proof.
  intros Hp Hq Hi. cbn [page_closure]. apply page_closure_grows.
  rewrite mem_app. destruct (mem (page_id p) ids) eqn:E; [reflexivity|].
  cbn [orb]. unfold mem at 1. apply existsb_exists. exists (page_id p).
  split; [| apply Nat.eqb_refl].
  apply in_map. apply filter_In. split; [exact Hp|].
  rewrite Hq, Hi, E. reflexivity.
Qed.

Lemma filter_single_In {A} (f : A -> bool) (l : list A) :
  length (filter f l) = 1 ->
  exists r, filter f l = [r] /\ In r l /\ f r = true.
Proof.
  intros H. destruct (filter f l) as [|r [|r' rest]] eqn:E;
    try discriminate H.
  exists r. split; [reflexivity|].
  apply filter_In. rewrite E. left. reflexivity.
Qed.

(** [CMSPageSeedSpec.clear] on the one site of a database. *)
Lemma CMSPage_clear_reroots (q : bool) (s : Site) (w : World) :
  sites (db w) = [s] ->
  length (filter (fun p => page_id p =? root_page s)%nat (pages (db w))) = 1 ->
  CMSPage_clear q w
  = (Ok tt, mkWorld (rerooted s (db w)) (stdout w) (raised w)).
Proof.
  intros Hs Hr. destruct (filter_single_In _ _ Hr) as (r & Er & Hin & Hid).
  apply Nat.eqb_eq in Hid.
  unfold CMSPage_clear. apply try_except_ok. unfold CMSPage_clear_body.
  erewrite bind_ok.
  2:{ unfold Site_first, bind, get_db. rewrite Hs. reflexivity. }
  erewrite bind_ok.
  2:{ unfold Site_root_page, bind, get_db. rewrite Er. reflexivity. }
  unfold Page_delete, Page_add_root, Site_save_root, bind, get_db,
    modify_db, ret.
  cbn [db stdout raised page_id site_id]. rewrite Hid.
  destruct w as [d out log]. cbn [db stdout raised] in *.
  do 2 f_equal.
  assert (Hroot : mem (root_page s)
                    (page_closure (pages d) (length (pages d))
                       [root_page s]) = true).
  { apply page_closure_grows. cbn. rewrite Nat.eqb_refl. reflexivity. }
  apply db_ext; unfold rerooted, delete_page;
    cbn [users profiles projects payments pages sites next_user
         next_profile next_project next_payment next_page set_users
         set_profiles set_projects set_payments set_pages set_sites
         bump_page];
    try reflexivity.
  rewrite Hs. cbn [filter]. rewrite Hroot. reflexivity.
Qed.

Section Closure.

Variable ps : list Page.

(** The pages a round of [page_closure] adds to [ids]. *)
Let more (ids : list nat) : list Page :=
  filter (fun p =>
            match page_parent p with
            | Some q => mem q ids && negb (mem (page_id p) ids)
            | None => false
            end) ps.

(** The pages that are not in [ids] yet. *)
Let outside (ids : list nat) : list Page :=
  filter (fun p => negb (mem (page_id p) ids)) ps.

Lemma filter_length_le {A} (f g : A -> bool) (l : list A) :
  (forall x, f x = true -> g x = true) ->
  length (filter f l) <= length (filter g l).
Proof.
  intros H. induction l as [|x l IH]; cbn; [lia|].
  destruct (f x) eqn:Ef.
  - rewrite (H x Ef). cbn. lia.
  - destruct (g x); cbn; lia.
Qed.

Lemma filter_length_lt {A} (f g : A -> bool) (l : list A) (x : A) :
  (forall y, f y = true -> g y = true) ->
  In x l -> g x = true -> f x = false ->
  length (filter f l) < length (filter g l).
Proof.
  intros H. induction l as [|y l IH]; cbn; intros Hin Hg Hf; [tauto|].
  destruct Hin as [<-|Hin].
  - rewrite Hg, Hf. cbn.
    pose proof (filter_length_le f g l H). lia.
  - specialize (IH Hin Hg Hf). destruct (f y) eqn:Ef.
    + rewrite (H y Ef). cbn. lia.
    + destruct (g y); cbn; lia.
Qed.

Lemma closure_stable (fuel : nat) (ids : list nat) :
  more ids = [] -> page_closure ps fuel ids = ids.
Proof.
  intros H. induction fuel as [|fuel IH]; cbn [page_closure];
    [reflexivity|].
  fold (more ids). rewrite H. cbn [map]. rewrite app_nil_r. exact IH.
Qed.

Lemma closed_when_stable (ids : list nat) (p : Page) (q : nat) :
  more ids = [] -> In p ps -> page_parent p = Some q ->
  mem q ids = true -> mem (page_id p) ids = true.
Proof.
  intros H Hp Hq Hi. destruct (mem (page_id p) ids) eqn:E; [reflexivity|].
  assert (Hin : In p (more ids)).
  { apply filter_In. split; [exact Hp|]. rewrite Hq, Hi, E. reflexivity. }
  rewrite H in Hin. destruct Hin.
Qed.

Lemma outside_shrinks (ids : list nat) :
  more ids <> [] ->
  length (outside (ids ++ map page_id (more ids))) < length (outside ids).
Proof.
  intros H. destruct (more ids) as [|p rest] eqn:E; [congruence|].
  assert (Hp : In p (more ids)) by (rewrite E; left; reflexivity).
  apply filter_In in Hp. destruct Hp as [Hps Hcond].
  destruct (page_parent p) as [q|]; [| discriminate Hcond].
  apply andb_prop in Hcond as [_ Hout].
  apply (filter_length_lt _ _ ps p).
  - intros y Hy. rewrite mem_app in Hy.
    apply negb_true_iff in Hy. apply orb_false_iff in Hy as [Hy _].
    rewrite Hy. reflexivity.
  - exact Hps.
  - exact Hout.
  - rewrite mem_app. apply negb_false_iff.
    apply orb_true_iff. right. unfold mem. apply existsb_exists.
    exists (page_id p). split; [| apply Nat.eqb_refl].
    cbn [map]. left. reflexivity.
Qed.

(** Enough rounds close the set under children. *)
Lemma page_closure_closed_fuel (fuel : nat) :
  forall ids, length (outside ids) <= fuel ->
  forall p q, In p ps -> page_parent p = Some q ->
    mem q (page_closure ps fuel ids) = true ->
    mem (page_id p) (page_closure ps fuel ids) = true.
Proof.
  induction fuel as [|fuel IH]; intros ids Hm p q Hp Hq Hi.
  - cbn [page_closure] in *.
    destruct (mem (page_id p) ids) eqn:E; [reflexivity|].
    assert (Hin : In p (outside ids)).
    { apply filter_In. split; [exact Hp | rewrite E; reflexivity]. }
    destruct (outside ids); [destruct Hin | cbn in Hm; lia].
  - destruct (more ids) as [|p0 rest] eqn:E.
    + rewrite (closure_stable _ _ E) in *.
      exact (closed_when_stable ids p q E Hp Hq Hi).
    + cbn [page_closure] in *. fold (more ids) in *.
      apply (IH _) with (q := q); try assumption.
      assert (Hne : more ids <> []) by (rewrite E; discriminate).
      pose proof (outside_shrinks ids Hne). lia.
Qed.

Lemma page_closure_closed (ids : list nat) (p : Page) (q : nat) :
  In p ps -> page_parent p = Some q ->
  mem q (page_closure ps (length ps) ids) = true ->
  mem (page_id p) (page_closure ps (length ps) ids) = true.
Proof.
  apply page_closure_closed_fuel.
  pose proof (filter_length_le (fun p => negb (mem (page_id p) ids))
                (fun _ => true) ps (fun _ _ => eq_refl)) as H.
  rewrite (filter_everything ps) in H. exact H.
Qed.

End Closure.

(** ** A clear with nothing to clear *)

(** With the first site and its root page in place,
    [CMSPageSeedSpec.clear] returns without a line and without an
    exception. *)
Lemma CMSPage_clear_silent (q : bool) (s : Site) (rest : list Site)
  (w : World) :
  sites (db w) = s :: rest ->
  length (filter (fun p => page_id p =? root_page s)%nat (pages (db w))) = 1 ->
  exists d', CMSPage_clear q w = (Ok tt, mkWorld d' (stdout w) (raised w)).
Proof.
  intros Hs Hr. destruct (filter_single_In _ _ Hr) as (r & Er & _ & _).
  unfold CMSPage_clear. eexists. apply try_except_ok.
  unfold CMSPage_clear_body.
  erewrite bind_ok.
  2:{ unfold Site_first, bind, get_db. rewrite Hs. reflexivity. }
  erewrite bind_ok.
  2:{ unfold Site_root_page, bind, get_db. rewrite Er. reflexivity. }
  unfold Page_delete, Page_add_root, Site_save_root, bind, get_db,
    modify_db, ret.
  cbn [db stdout raised]. reflexivity.
Qed.

(** X10: a full clear of a database that holds no seeded user name and no
    seeded tagline, with the site of the CMS in place.  Each of the eight
    look-ups of the first three specifications fails with its
    [DoesNotExist] and is caught; the run returns, leaves the users,
    profiles, projects and payments as they are, and prints one warning
    for each miss between the two lines of the command, unless it is
    quiet. *)
Theorem clear_finds_nothing (d : DB) (q : bool) :
  unseeded d = true -> site_ready d = true ->
  outcome (mkOptions true None q false) d = Ok tt
  /\ raised (snd (run (handle (mkOptions true None q false)) d))
     = map snd clear_misses
  /\ output (mkOptions true None q false) d
     = unless_quiet q
         ("[Seed:Info] Clearing objects from 4 seed spec(s)..."
          :: map (fun ce => clear_warning (fst ce) (snd ce)) clear_misses
          ++ ["[Seed:Info] Done!"])
  /\ users (db_after (mkOptions true None q false) d) = users d
  /\ profiles (db_after (mkOptions true None q false) d) = profiles d
  /\ projects (db_after (mkOptions true None q false) d) = projects d
  /\ payments (db_after (mkOptions true None q false) d) = payments d.
Proof.
  intros Hu Hs. unfold unseeded in Hu.
  apply andb_prop in Hu as [Hn Ht].
  apply negb_true_iff in Hn, Ht.
  unfold site_ready in Hs. destruct (sites d) as [|s rest] eqn:Es;
    [discriminate Hs|].
  apply andb_prop in Hs as [Hr _]. apply Nat.eqb_eq in Hr.
  assert (E : exists d',
    run (handle (mkOptions true None q false)) d
    = (Ok tt,
       mkWorld d'
         (unless_quiet q
            ("[Seed:Info] Clearing objects from 4 seed spec(s)..."
             :: map (fun ce => clear_warning (fst ce) (snd ce)) clear_misses
             ++ ["[Seed:Info] Done!"]))
         (map snd clear_misses))
    /\ users d' = users d /\ profiles d' = profiles d
    /\ projects d' = projects d /\ payments d' = payments d).
  { unfold run. rewrite (handle_all_eq true q None _ eq_refl).
    cbn [db stdout raised]. unfold bind at 1.
    rewrite (clear_misses_eq d q Hn Ht).
    match goal with
    | |- context [(CMSPage_clear q ;;; ret tt) ?w] =>
        destruct (CMSPage_clear_silent q s rest w Es Hr) as [d' E];
        pose proof (frame_clear_cms q) as (F1 & F2 & F3 & F4);
        specialize (F1 w); specialize (F2 w); specialize (F3 w);
        specialize (F4 w)
    end.
    rewrite E in F1, F2, F3, F4. cbn [snd db] in F1, F2, F3, F4.
    exists d'. rewrite (bind_ok _ _ _ _ _ E). unfold ret.
    rewrite log_line. cbn [fst snd db stdout raised opt_quiet].
    repeat split; try assumption.
    destruct q; reflexivity. }
  destruct E as (d' & E & F1 & F2 & F3 & F4).
  unfold outcome, output, db_after. rewrite E. cbn [fst snd db stdout raised].
  repeat split; assumption.
Qed.

Lemma clear_finds_nothing_witness :
  unseeded busy_db = true /\ site_ready busy_db = true
  /\ outcome (mkOptions true None false false) busy_db = Ok tt
  /\ raised (snd (run (handle (mkOptions true None false false)) busy_db))
     = map snd clear_misses
  /\ output (mkOptions true None false false) busy_db
     = unless_quiet false
         ("[Seed:Info] Clearing objects from 4 seed spec(s)..."
          :: map (fun ce => clear_warning (fst ce) (snd ce)) clear_misses
          ++ ["[Seed:Info] Done!"])
  /\ users (db_after (mkOptions true None false false) busy_db)
     = users busy_db
  /\ profiles (db_after (mkOptions true None false false) busy_db)
     = profiles busy_db
  /\ projects (db_after (mkOptions true None false false) busy_db)
     = projects busy_db
  /\ payments (db_after (mkOptions true None false false) busy_db)
     = payments busy_db.
Proof.
  split; [reflexivity|]. split; [reflexivity|].
  refine (clear_finds_nothing busy_db false _ _); reflexivity.
Defined.

(** ** Clearing the pages *)

Lemma forallb_filter {A} (f g : A -> bool) (l : list A) :
  forallb f l = true -> forallb f (filter g l) = true.
Proof.
  rewrite !forallb_forall. intros H x Hx. apply filter_In in Hx.
  apply H. apply Hx.
Qed.

Lemma filter_filter_none {A} (f g : A -> bool) (l : list A) :
  (forall x, In x l -> f x = false) -> filter f (filter g l) = [].
Proof.
  intros H. apply filter_keeps_none. intros x Hx. apply filter_In in Hx.
  apply H. apply Hx.
Qed.

Lemma rerooted_ready (s : Site) (d : DB) :
  sites d = [s] -> one_site_ready d = true ->
  one_site_ready (rerooted s d) = true.
Proof.
  intros Hs H. unfold one_site_ready in H. rewrite Hs in H.
  apply andb_prop in H as [_ Hbelow].
  unfold one_site_ready, rerooted. cbn [sites pages next_page root_page].
  rewrite filter_app, length_app, forallb_app.
  rewrite filter_filter_none.
  2:{ intros p Hp. rewrite forallb_forall in Hbelow.
      specialize (Hbelow p Hp). apply Nat.ltb_lt in Hbelow.
      apply Nat.eqb_neq. lia. }
  cbn [filter new_root_page page_id length forallb Nat.add].
  rewrite Nat.eqb_refl. cbn [length Nat.eqb andb].
  replace (next_page d <? S (next_page d))%nat with true
    by (symmetry; apply Nat.ltb_lt; lia).
  rewrite andb_true_r. apply forallb_filter.
  rewrite forallb_forall in *. intros p Hp. specialize (Hbelow p Hp).
  apply Nat.ltb_lt in Hbelow. apply Nat.ltb_lt. lia.
Qed.

(** X11: [seed --spec cms --clear] on a database with one site whose root
    page is in place.  The run returns and prints no warning; the root
    page of the site is deleted with all the pages below it, a new root
    page is made and the site is rooted in it, so that the command can be
    run again.  No page is left with the key of the old root, and a page
    that is left has not lost its parent. *)
Theorem cms_clear_reroots (d : DB) (s : Site) (q : bool) :
  sites d = [s] -> one_site_ready d = true ->
  run (handle (mkOptions true (Some "cms") q false)) d
  = (Ok tt,
     mkWorld (rerooted s d)
       (unless_quiet q
          ["[Seed:Info] Clearing objects from 1 seed spec(s)...";
           "[Seed:Info] Done!"])
       [])
  /\ one_site_ready (rerooted s d) = true
  /\ (forall p, In p (pages (rerooted s d)) -> page_id p <> root_page s)
  /\ (forall p r, In p (pages (rerooted s d)) -> In r (pages d) ->
        page_parent p = Some (page_id r) -> In r (pages (rerooted s d))).
Proof.
  intros Hs H. pose proof (rerooted_ready s d Hs H) as Hready.
  unfold one_site_ready in H. rewrite Hs in H.
  apply andb_prop in H as [Hr Hbelow]. apply Nat.eqb_eq in Hr.
  rewrite forallb_forall in Hbelow.
  assert (Hroot : mem (root_page s)
                    (page_closure (pages d) (length (pages d))
                       [root_page s]) = true).
  { apply page_closure_grows. cbn. rewrite Nat.eqb_refl. reflexivity. }
  assert (Hold : In (root_page s) (map page_id (pages d))).
  { destruct (filter_single_In _ _ Hr) as (r & _ & Hin & Hid).
    apply Nat.eqb_eq in Hid. rewrite <- Hid. apply in_map. exact Hin. }
  split; [| split; [exact Hready | split]].
  - unfold run.
    rewrite (handle_single_eq true q "cms" CMSPageSeedSpec _
               (or_intror (or_intror (or_intror (or_introl eq_refl))))).
    cbn [clear CMSPageSeedSpec db stdout raised].
    erewrite bind_ok.
    2:{ erewrite bind_ok; [reflexivity|].
        apply (CMSPage_clear_reroots q s); cbn [db]; assumption. }
    rewrite log_line. cbn [db stdout raised opt_quiet].
    destruct q; reflexivity.
  - intros p Hp E. unfold rerooted in Hp. cbn [pages] in Hp.
    apply in_app_or in Hp as [Hp | [<- | []]].
    + apply filter_In in Hp as [_ Hp]. rewrite E, Hroot in Hp.
      discriminate Hp.
    + cbn [new_root_page page_id] in E.
      apply in_map_iff in Hold as (r & Hid & Hin).
      specialize (Hbelow r Hin). apply Nat.ltb_lt in Hbelow. lia.
  - intros p r Hp Hin Hpar. unfold rerooted in *. cbn [pages] in *.
    apply in_or_app. left. apply filter_In. split; [exact Hin|].
    apply in_app_or in Hp as [Hp | [<- | []]];
      [| discriminate Hpar].
    apply filter_In in Hp as [Hp Hout].
    destruct (mem (page_id r) _) eqn:Er; [| reflexivity].
    rewrite (page_closure_closed (pages d) _ p (page_id r) Hp Hpar Er)
      in Hout.
    discriminate Hout.
Qed.

Lemma cms_clear_reroots_witness :
  sites fresh_db = [mkSite 1 2] /\ one_site_ready fresh_db = true
  /\ run (handle (mkOptions true (Some "cms") false false)) fresh_db
     = (Ok tt,
        mkWorld (rerooted (mkSite 1 2) fresh_db)
          (unless_quiet false
             ["[Seed:Info] Clearing objects from 1 seed spec(s)...";
              "[Seed:Info] Done!"])
          [])
  /\ one_site_ready (rerooted (mkSite 1 2) fresh_db) = true
  /\ (forall p, In p (pages (rerooted (mkSite 1 2) fresh_db)) ->
        page_id p <> root_page (mkSite 1 2))
  /\ (forall p r, In p (pages (rerooted (mkSite 1 2) fresh_db)) ->
        In r (pages fresh_db) ->
        page_parent p = Some (page_id r) ->
        In r (pages (rerooted (mkSite 1 2) fresh_db))).
Proof.
  split; [reflexivity|]. split; [reflexivity|].
  refine (cms_clear_reroots fresh_db (mkSite 1 2) false _ _); reflexivity.
Defined.

(** ** Seeding the pages *)

Section Publishing.

Lemma add_pages_nil (d : DB) : add_pages [] d = d.
Proof. apply db_ext; cbn; rewrite ?app_nil_r; reflexivity. Qed.

Lemma add_pages_app (a b : list Page) (d : DB) :
  add_pages b (add_pages a d) = add_pages (a ++ b) d.
Proof.
  apply db_ext; cbn [add_pages users profiles projects payments pages
                     sites next_user next_profile next_project next_payment
                     next_page]; rewrite ?app_assoc, ?length_app;
    try reflexivity; lia.
Qed.

Lemma seq_keys (k n : nat) (rows : list Page) (p : Page) :
  map page_id rows = seq k n -> In p rows -> k <= page_id p < k + n.
Proof.
  intros H Hp. apply (in_map page_id) in Hp. rewrite H in Hp.
  apply in_seq in Hp. exact Hp.
Qed.

Lemma pages_below_add (rows : list Page) (d : DB) :
  pages_below d = true ->
  map page_id rows = seq (next_page d) (length rows) ->
  pages_below (add_pages rows d) = true.
Proof.
  unfold pages_below. cbn [add_pages pages next_page].
  rewrite forallb_app, !forallb_forall. intros Hd Hrows.
  apply andb_true_intro. split; apply forallb_forall; intros p Hp.
  - specialize (Hd p Hp). apply Nat.ltb_lt in Hd. apply Nat.ltb_lt. lia.
  - pose proof (seq_keys _ _ _ p Hrows Hp). apply Nat.ltb_lt. lia.
Qed.

Lemma published_nil (parent k : nat) : published parent k [].
Proof. repeat split; constructor. Qed.

Lemma published_app (parent k : nat) (a b : list Page) :
  published parent k a -> published parent (length a + k) b ->
  published parent k (a ++ b).
Proof.
  intros (Ia & La & Pa) (Ib & Lb & Pb). repeat split.
  - rewrite map_app, length_app, seq_app, Ia, Ib.
    rewrite (Nat.add_comm k). reflexivity.
  - apply Forall_app. split; assumption.
  - apply Forall_app. split; [exact Pa|].
    eapply Forall_impl; [| exact Pb].
    intros p (q & Hq & H). exists q. split; [exact Hq|].
    destruct H as [H|H]; [left; exact H | right; lia].
Qed.

(** A page with the pages published below it. *)
Lemma published_cons (parent k : nat) (p : Page) (rows : list Page) :
  page_id p = k -> page_parent p = Some parent -> page_live p = true ->
  page_slug p = slugify (page_title p) ->
  published k (S k) rows ->
  published parent k (p :: rows).
Proof.
  intros Hid Hpar Hlive Hslug (Ir & Lr & Pr). repeat split.
  - cbn [map length seq]. rewrite Hid, Ir. reflexivity.
  - constructor; [split; assumption | exact Lr].
  - constructor.
    + exists parent. split; [exact Hpar | left; reflexivity].
    + rewrite Forall_forall in *. intros x Hx.
      destruct (Pr x Hx) as (q & Hq & H). exists q. split; [exact Hq|].
      pose proof (seq_keys _ _ _ x Ir Hx). right. lia.
Qed.

Lemma publishes_ret (parent : nat) : publishes (ret tt) parent 0.
Proof.
  intros w _. exists []. rewrite add_pages_nil. destruct w.
  repeat split; constructor.
Qed.

Lemma publishes_bind (c c' : M unit) (parent n m : nat) :
  publishes c parent n -> publishes c' parent m ->
  publishes (c ;;; c') parent (n + m).
Proof.
  intros Hc Hc' w Hw.
  destruct (Hc w Hw) as (a & Ea & La & Pa).
  pose proof (pages_below_add a (db w) Hw (proj1 Pa)) as Hw1.
  destruct (Hc' (mkWorld (add_pages a (db w)) (stdout w) (raised w)) Hw1)
    as (b & Eb & Lb & Pb).
  cbn [db stdout raised] in Eb, Pb. exists (a ++ b).
  rewrite (bind_ok _ _ _ _ _ Ea), Eb, add_pages_app, length_app.
  split; [reflexivity|]. split; [lia|].
  apply published_app; [exact Pa|]. exact Pb.
Qed.

Lemma publishes_for_each (xs : list PageTuple) (f : PageTuple -> M unit)
  (parent : nat) :
  Forall (fun x => publishes (f x) parent (count_entries x)) xs ->
  publishes (for_each xs f) parent (count_pages xs).
Proof.
  induction 1 as [|x xs Hx _ IH]; cbn [for_each].
  - apply publishes_ret.
  - change (count_pages (x :: xs))
      with (count_entries x + count_pages xs).
    apply publishes_bind; assumption.
Qed.

(** The writes of [publish_page_for_parent] below a page that is there. *)
Lemma publish_under (t slug : string) (c : PageContent) (par : Page)
  (user : User) (w : World) :
  pages_below (db w) = true ->
  add_child par t slug c true w
  = (Ok (mkPage (next_page (db w)) (Some (page_id par)) t slug c true),
     mkWorld
       (add_pages
          [mkPage (next_page (db w)) (Some (page_id par)) t slug c true]
          (db w))
       (stdout w) (raised w))
  /\ save_revision_publish
       (mkPage (next_page (db w)) (Some (page_id par)) t slug c true) user
       (mkWorld
          (add_pages
             [mkPage (next_page (db w)) (Some (page_id par)) t slug c true]
             (db w))
          (stdout w) (raised w))
     = (Ok tt,
        mkWorld
          (add_pages
             [mkPage (next_page (db w)) (Some (page_id par)) t slug c true]
             (db w))
          (stdout w) (raised w)).
Proof.
  intros Hw. split.
  - unfold add_child, bind, get_db, modify_db, ret.
    cbn [db stdout raised]. reflexivity.
  - unfold save_revision_publish, modify_db. cbn [db stdout raised].
    apply (f_equal (fun d => (Ok tt, mkWorld d (stdout w) (raised w)))).
    apply db_ext; read_tables; cbn [add_pages users profiles projects
      payments pages sites next_user next_profile next_project next_payment
      next_page length]; try reflexivity.
    rewrite map_app. cbn [map page_id]. rewrite Nat.eqb_refl. f_equal.
    rewrite <- (map_id (pages (db w))) at 2. apply map_ext_in.
    intros p Hp. unfold pages_below in Hw. rewrite forallb_forall in Hw.
    specialize (Hw p Hp). apply Nat.ltb_lt in Hw.
    replace (page_id p =? next_page (db w))%nat with false
      by (symmetry; apply Nat.eqb_neq; lia).
    reflexivity.
Qed.

Lemma publish_page_for_parent_under (t slug : string) (c : PageContent)
  (par : Page) (user : User) (w : World) :
  pages_below (db w) = true ->
  publish_page_for_parent t slug c (Some par) user w
  = (Ok (mkPage (next_page (db w)) (Some (page_id par)) t slug c true),
     mkWorld
       (add_pages
          [mkPage (next_page (db w)) (Some (page_id par)) t slug c true]
          (db w))
       (stdout w) (raised w)).
Proof.
  intros Hw. destruct (publish_under t slug c par user w Hw) as [E1 E2].
  unfold publish_page_for_parent.
  rewrite (bind_ok _ _ _ _ _ (eq_refl : ret par w = (Ok par, w))).
  rewrite (bind_ok _ _ _ _ _ E1), (bind_ok _ _ _ _ _ E2). reflexivity.
Qed.

(** Below the root page of the first site, found by the look-up. *)
Lemma publish_page_for_parent_root (t slug : string) (c : PageContent)
  (s : Site) (rest : list Site) (user : User) (w : World) :
  pages_below (db w) = true ->
  sites (db w) = s :: rest ->
  length (filter (fun p => page_id p =? root_page s)%nat (pages (db w))) = 1 ->
  publish_page_for_parent t slug c None user w
  = (Ok (mkPage (next_page (db w)) (Some (root_page s)) t slug c true),
     mkWorld
       (add_pages
          [mkPage (next_page (db w)) (Some (root_page s)) t slug c true]
          (db w))
       (stdout w) (raised w)).
Proof.
  intros Hw Hs Hr. destruct (filter_single_In _ _ Hr) as (r & Er & _ & Hid).
  apply Nat.eqb_eq in Hid.
  destruct (publish_under t slug c r user w Hw) as [E1 E2].
  rewrite Hid in E1, E2.
  unfold publish_page_for_parent.
  erewrite bind_ok.
  2:{ unfold Site_first, Site_root_page, bind, get_db. rewrite Hs.
      cbn [ret]. rewrite Er. reflexivity. }
  rewrite (bind_ok _ _ _ _ _ E1), (bind_ok _ _ _ _ _ E2). reflexivity.
Qed.

(** One entry of a hierarchy, below a page that has been made. *)
Lemma seed_page_tuple_publishes (x : PageTuple) :
  forall user par,
    publishes (seed_page_tuple x user (Some par)) (page_id par)
      (count_entries x).
Proof.
  induction x as [t h|t l IH] using PageTuple_nested_ind;
    intros user par w Hw; cbn [seed_page_tuple count_entries].
  - unfold publish_link_page.
    rewrite (bind_ok _ _ _ _ _
               (publish_page_for_parent_under t _ _ par user w Hw)).
    eexists. split; [reflexivity|]. split; [reflexivity|].
    apply published_cons; try reflexivity. apply published_nil.
  - unfold publish_page.
    rewrite (bind_ok _ _ _ _ _
               (publish_page_for_parent_under t _ _ par user w Hw)).
    set (p := mkPage (next_page (db w)) (Some (page_id par)) t (slugify t)
                (CustomPage "This is the body of the page") true).
    assert (Hchildren : publishes
      ((fix children (l : list PageTuple) : M unit :=
          match l with
          | [] => ret tt
          | x :: rest => seed_page_tuple x user (Some p) ;;; children rest
          end) l)
      (page_id p)
      ((fix sum (l : list PageTuple) : nat :=
          match l with
          | [] => 0
          | y :: rest => count_entries y + sum rest
          end) l)).
    { induction IH as [|x l Hx _ IHl].
      - apply publishes_ret.
      - apply publishes_bind; [apply Hx | exact IHl]. }
    assert (Hw1 : pages_below (add_pages [p] (db w)) = true).
    { apply pages_below_add; [exact Hw | reflexivity]. }
    destruct (Hchildren (mkWorld (add_pages [p] (db w)) (stdout w)
                           (raised w)) Hw1) as (rows & E & Len & Hrows).
    cbn [db stdout raised] in E, Hrows.
    exists (p :: rows). rewrite E, add_pages_app. cbn [app length].
    split; [reflexivity|]. split; [rewrite Len; reflexivity|].
    apply published_cons; try reflexivity. exact Hrows.
Qed.

End Publishing.

Section AtRoot.

Variables (s : Site) (rest : list Site).

(** What the entries at the top of a hierarchy need and keep: the site
    comes first and its root page is in place, below the sequence. *)
Let at_root (d : DB) : Prop :=
  pages_below d = true /\ sites d = s :: rest
  /\ length (filter (fun p => page_id p =? root_page s)%nat (pages d)) = 1.

Lemma at_root_add (rows : list Page) (d : DB) :
  at_root d -> map page_id rows = seq (next_page d) (length rows) ->
  at_root (add_pages rows d).
Proof.
  intros (Hb & Hs & Hr) Hrows. split; [| split].
  - apply pages_below_add; assumption.
  - exact Hs.
  - cbn [add_pages pages]. rewrite filter_app, length_app, Hr.
    rewrite (filter_keeps_none _ rows); [reflexivity|].
    intros p Hp. pose proof (seq_keys _ _ _ p Hrows Hp) as Hk.
    destruct (filter_single_In _ _ Hr) as (r & _ & Hin & Hid).
    apply Nat.eqb_eq in Hid. unfold pages_below in Hb.
    rewrite forallb_forall in Hb. specialize (Hb r Hin).
    apply Nat.ltb_lt in Hb. apply Nat.eqb_neq. lia.
Qed.

(** The entries below a page that has been made. *)
Lemma children_publish (l : list PageTuple) (user : User) (p : Page) :
  publishes
    ((fix children (l : list PageTuple) : M unit :=
        match l with
        | [] => ret tt
        | x :: rest => seed_page_tuple x user (Some p) ;;; children rest
        end) l)
    (page_id p)
    ((fix sum (l : list PageTuple) : nat :=
        match l with
        | [] => 0
        | y :: rest => count_entries y + sum rest
        end) l).
Proof.
  induction l as [|x l IH].
  - apply publishes_ret.
  - apply publishes_bind; [apply seed_page_tuple_publishes | exact IH].
Qed.

(** One entry at the top of a hierarchy: it goes below the root page of
    the site. *)
Lemma seed_page_tuple_at_root (x : PageTuple) (user : User) (w : World) :
  at_root (db w) ->
  exists rows,
    seed_page_tuple x user None w
    = (Ok tt, mkWorld (add_pages rows (db w)) (stdout w) (raised w))
    /\ length rows = count_entries x
    /\ published (root_page s) (next_page (db w)) rows.
Proof.
  intros (Hb & Hs & Hr). destruct x as [t h|t l];
    cbn [seed_page_tuple count_entries].
  - unfold publish_link_page.
    rewrite (bind_ok _ _ _ _ _
               (publish_page_for_parent_root t _ _ s rest user w Hb Hs Hr)).
    eexists. split; [reflexivity|]. split; [reflexivity|].
    apply published_cons; try reflexivity. apply published_nil.
  - unfold publish_page.
    rewrite (bind_ok _ _ _ _ _
               (publish_page_for_parent_root t _ _ s rest user w Hb Hs Hr)).
    set (p := mkPage (next_page (db w)) (Some (root_page s)) t (slugify t)
                (CustomPage "This is the body of the page") true).
    assert (Hw1 : pages_below (add_pages [p] (db w)) = true).
    { apply pages_below_add; [exact Hb | reflexivity]. }
    destruct (children_publish l user p
                (mkWorld (add_pages [p] (db w)) (stdout w) (raised w)) Hw1)
      as (rows & E & Len & Hrows).
    cbn [db stdout raised] in E, Hrows.
    exists (p :: rows). rewrite E, add_pages_app. cbn [app length].
    split; [reflexivity|]. split; [rewrite Len; reflexivity|].
    apply published_cons; try reflexivity. exact Hrows.
Qed.

Lemma recursively_seed_pages_at_root (l : list PageTuple) (user : User) :
  forall w, at_root (db w) ->
  exists rows,
    recursively_seed_pages l user None w
    = (Ok tt, mkWorld (add_pages rows (db w)) (stdout w) (raised w))
    /\ length rows = count_pages l
    /\ published (root_page s) (next_page (db w)) rows.
Proof.
  unfold recursively_seed_pages.
  induction l as [|x l IH]; intros w Hw; cbn [for_each].
  - exists []. rewrite add_pages_nil. destruct w.
    repeat split; constructor.
  - destruct (seed_page_tuple_at_root x user w Hw) as (a & Ea & La & Pa).
    pose proof (at_root_add a (db w) Hw (proj1 Pa)) as Hw1.
    destruct (IH (mkWorld (add_pages a (db w)) (stdout w) (raised w)) Hw1)
      as (b & Eb & Lb & Pb).
    cbn [db stdout raised] in Eb, Pb. exists (a ++ b).
    rewrite (bind_ok _ _ _ _ _ Ea), Eb, add_pages_app, length_app.
    split; [reflexivity|]. split.
    + change (count_pages (x :: l))
        with (count_entries x + count_pages l). lia.
    + apply published_app; assumption.
Qed.

(** [CMSPageSeedSpec.seed] with the administrator there. *)
Lemma CMSPage_seed_publishes (q : bool) (u : User) (w : World) :
  users_named "administrator" (db w) = [u] ->
  pages_below (db w) = true -> sites (db w) = s :: rest ->
  length (filter (fun p => page_id p =? root_page s)%nat (pages (db w))) = 1 ->
  exists rows,
    CMSPage_seed q w
    = (Ok tt, mkWorld (add_pages rows (db w)) (stdout w) (raised w))
    /\ length rows = count_pages page_hierarchy
    /\ published (root_page s) (next_page (db w)) rows.
Proof.
  intros Hu Hb Hs Hr. unfold CMSPage_seed.
  erewrite bind_ok.
  2:{ unfold User_get, bind, get_db. fold (users_named "administrator" (db w)).
      rewrite Hu. reflexivity. }
  apply recursively_seed_pages_at_root. repeat split; assumption.
Qed.

End AtRoot.



(** ** Seeding the pages, then clearing them *)

Lemma mem_In (i : nat) (ids : list nat) : mem i ids = true <-> In i ids.
Proof.
  unfold mem. rewrite existsb_exists. split.
  - intros (j & Hj & E). apply Nat.eqb_eq in E. subst j. exact Hj.
  - intros H. exists i. split; [exact H | apply Nat.eqb_refl].
Qed.

(** The closure is the least set that holds [ids] and is closed under
    children. *)
Lemma page_closure_least (ps : list Page) (good : nat -> bool) (fuel : nat) :
  (forall p q, In p ps -> page_parent p = Some q -> good q = true ->
     good (page_id p) = true) ->
  forall ids, (forall i, mem i ids = true -> good i = true) ->
  forall i, mem i (page_closure ps fuel ids) = true -> good i = true.
Proof.
  intros Hcl. induction fuel as [|fuel IH]; intros ids Hids i Hi;
    cbn [page_closure] in Hi.
  - apply Hids. exact Hi.
  - refine (IH _ _ i Hi).
    intros j Hj. rewrite mem_app in Hj.
    apply orb_true_iff in Hj as [Hj | Hj]; [apply Hids; exact Hj|].
    apply mem_In in Hj. apply in_map_iff in Hj as (p & <- & Hp).
    apply filter_In in Hp as [Hp Hcond].
    destruct (page_parent p) as [q|] eqn:Eq; [| discriminate Hcond].
    apply andb_prop in Hcond as [Hq _].
    apply (Hcl p q Hp Eq). apply Hids. exact Hq.
Qed.

Section SeedThenClear.

Variables (d : DB) (root : nat) (rows : list Page).
Hypothesis below : pages_below d = true.
Hypothesis parents : parents_below d = true.
Hypothesis root_below : root < next_page d.
Hypothesis rows_published : published root (next_page d) rows.

Let before : list nat := page_closure (pages d) (length (pages d)) [root].
Let after : list nat :=
  page_closure (pages d ++ rows) (length (pages d ++ rows)) [root].

Lemma root_in_closure (ps : list Page) (fuel : nat) :
  mem root (page_closure ps fuel [root]) = true.
Proof.
  apply page_closure_grows. cbn. rewrite Nat.eqb_refl. reflexivity.
Qed.

(** Every published page is below the root. *)
Lemma published_in_closure (p : Page) :
  In p rows -> mem (page_id p) after = true.
Proof.
  destruct rows_published as (Hids & _ & Hpar).
  rewrite Forall_forall in Hpar.
  assert (H : forall n p, In p rows -> page_id p < n ->
                mem (page_id p) after = true).
  { induction n as [|n IH]; intros x Hx Hn; [lia|].
    destruct (Hpar x Hx) as (q & Eq & Hq).
    apply (page_closure_closed (pages d ++ rows) [root] x q).
    - apply in_or_app. right. exact Hx.
    - exact Eq.
    - destruct Hq as [-> | Hq]; [apply root_in_closure|].
      pose proof (seq_keys _ _ _ x Hids Hx) as Hk.
      assert (Hin : In q (map page_id rows)).
      { rewrite Hids. apply in_seq. lia. }
      apply in_map_iff in Hin as (y & <- & Hy).
      apply (IH y Hy). lia. }
  intros Hp. apply (H (S (page_id p)) p Hp). lia.
Qed.

(** A page that was there before is below the root after the seed
    exactly if it was before. *)
Lemma old_in_closure (p : Page) :
  In p (pages d) -> mem (page_id p) after = mem (page_id p) before.
Proof.
  intros Hp. destruct rows_published as (Hids & _ & _).
  unfold pages_below in below. unfold parents_below in parents.
  rewrite forallb_forall in below, parents.
  destruct (mem (page_id p) before) eqn:Eb.
  - revert Eb. unfold before.
    apply (page_closure_least (pages d) (fun i => mem i after)).
    + intros x q Hx Eq Hq.
      apply (page_closure_closed (pages d ++ rows) [root] x q);
        [apply in_or_app; left; exact Hx | exact Eq | exact Hq].
    + intros i Hi. cbn in Hi. rewrite orb_false_r in Hi.
      apply Nat.eqb_eq in Hi. subst i. apply root_in_closure.
  - destruct (mem (page_id p) after) eqn:Ea; [| reflexivity].
    assert (H : mem (page_id p) before || (next_page d <=? page_id p)%nat
                = true).
    { revert Ea. unfold after.
      apply (page_closure_least (pages d ++ rows)
               (fun i => mem i before || (next_page d <=? i)%nat)).
      - intros x q Hx Eq Hq. apply in_app_or in Hx as [Hx | Hx].
        + apply orb_true_iff in Hq as [Hq | Hq].
          * apply orb_true_iff. left.
            exact (page_closure_closed (pages d) [root] x q Hx Eq Hq).
          * specialize (parents x Hx). rewrite Eq in parents.
            apply Nat.ltb_lt in parents. apply Nat.leb_le in Hq. lia.
        + pose proof (seq_keys _ _ _ x Hids Hx) as Hk.
          apply orb_true_iff. right. apply Nat.leb_le. lia.
      - intros i Hi. cbn in Hi. rewrite orb_false_r in Hi.
        apply Nat.eqb_eq in Hi. subst i.
        apply orb_true_iff. left. apply root_in_closure. }
    rewrite Eb in H. cbn [orb] in H. apply Nat.leb_le in H.
    specialize (below p Hp). apply Nat.ltb_lt in below. lia.
Qed.

(** Deleting the subtree of the root after the seed leaves the pages
    that deleting it before the seed leaves. *)
Lemma filter_after_seed :
  filter (fun p => negb (mem (page_id p) after)) (pages d ++ rows)
  = filter (fun p => negb (mem (page_id p) before)) (pages d).
Proof.
  rewrite filter_app. rewrite (filter_keeps_none _ rows).
  - rewrite app_nil_r. apply filter_ext_in. intros p Hp.
    rewrite (old_in_closure p Hp). reflexivity.
  - intros p Hp. rewrite (published_in_closure p Hp). reflexivity.
Qed.

End SeedThenClear.

Lemma rerooted_after_seed (s : Site) (d : DB) (rows : list Page) :
  pages_below d = true -> parents_below d = true ->
  root_page s < next_page d ->
  published (root_page s) (next_page d) rows ->
  rerooted s (add_pages rows d) = rerooted s (skip_pages (length rows) d).
Proof.
  intros Hb Hp Hr Hrows.
  apply db_ext; unfold rerooted;
    cbn [add_pages skip_pages users profiles projects payments pages sites
         next_user next_profile next_project next_payment next_page];
    try reflexivity.
  f_equal.
  apply (filter_after_seed d (root_page s) rows Hb Hp Hr Hrows).
Qed.

(** A run on one specification whose step returns without a line. *)
Lemma handle_single_returns (c q : bool) (name : string) (spec : SeedSpec)
  (d d' : DB) :
  In (name, spec) SPECS_TO_RUN ->
  (forall out log,
     (if c then clear spec q else seed spec q) (mkWorld d out log)
     = (Ok tt, mkWorld d' out log)) ->
  outcome (mkOptions c (Some name) q false) d = Ok tt
  /\ db_after (mkOptions c (Some name) q false) d = d'.
Proof.
  intros Hin Hstep. unfold outcome, db_after, run.
  rewrite (handle_single_eq c q name spec _ Hin). cbn [db stdout raised].
  erewrite bind_ok.
  2:{ erewrite bind_ok; [reflexivity | apply Hstep]. }
  rewrite log_line. split; reflexivity.
Qed.

(** X13: [seed --spec cms] followed by [seed --spec cms --clear], on a
    database with exactly one user named administrator and one site whose
    root page is in place, the keys and the parents of the pages below the
    sequence.  Both runs return, and the clear takes away every page the
    seed has published: the database is the one that the clear alone
    leaves, but for the 24 keys of the page table that are used up. *)
Theorem cms_seed_then_clear (d : DB) (q1 q2 : bool) (u : User) (s : Site) :
  users_named "administrator" d = [u] ->
  sites d = [s] -> one_site_ready d = true -> parents_below d = true ->
  outcome (mkOptions false (Some "cms") q1 false) d = Ok tt
  /\ outcome (mkOptions true (Some "cms") q2 false)
       (db_after (mkOptions false (Some "cms") q1 false) d) = Ok tt
  /\ db_after (mkOptions true (Some "cms") q2 false)
       (db_after (mkOptions false (Some "cms") q1 false) d)
     = rerooted s (skip_pages 24 d).
Proof.
  intros Hu Hs H Hp. unfold one_site_ready in H. rewrite Hs in H.
  apply andb_prop in H as [Hr Hb]. apply Nat.eqb_eq in Hr.
  fold (pages_below d) in Hb.
  assert (Hroot : root_page s < next_page d).
  { destruct (filter_single_In _ _ Hr) as (r & _ & Hin & Hid).
    apply Nat.eqb_eq in Hid. unfold pages_below in Hb.
    rewrite forallb_forall in Hb. specialize (Hb r Hin).
    apply Nat.ltb_lt in Hb. lia. }
  assert (Eseed : exists rows,
    run (handle (mkOptions false (Some "cms") q1 false)) d
    = (Ok tt,
       mkWorld (add_pages rows d)
         (unless_quiet q1
            ["[Seed:Info] Seeding objects from 1 seed spec(s)...";
             "[Seed:Info] Done!"])
         [])
    /\ length rows = 24
    /\ published (root_page s) (next_page d) rows).
  { unfold run.
    rewrite (handle_single_eq false q1 "cms" CMSPageSeedSpec _
               (or_intror (or_intror (or_intror (or_introl eq_refl))))).
    cbn [seed CMSPageSeedSpec db stdout raised].
    match goal with
    | |- context [((CMSPage_seed q1 ;;; ret tt) ;;; _) ?w] =>
        destruct (CMSPage_seed_publishes s [] q1 u w Hu Hb Hs Hr)
          as (rows & E & Len & Hrows)
    end.
    cbn [db stdout raised] in E, Hrows.
    exists rows. split; [| split; [exact Len | exact Hrows]].
    erewrite bind_ok.
    2:{ erewrite bind_ok; [reflexivity | exact E]. }
    rewrite log_line. cbn [db stdout raised opt_quiet].
    destruct q1; reflexivity. }
  destruct Eseed as (rows & Eseed & Len & Hrows).
  assert (Eo1 : outcome (mkOptions false (Some "cms") q1 false) d = Ok tt)
    by (unfold outcome; rewrite Eseed; reflexivity).
  assert (Ed1 : db_after (mkOptions false (Some "cms") q1 false) d
                = add_pages rows d)
    by (unfold db_after; rewrite Eseed; reflexivity).
  rewrite Ed1.
  destruct (at_root_add s [] rows d (conj Hb (conj Hs Hr)) (proj1 Hrows))
    as (_ & Hs1 & Hr1).
  destruct (handle_single_returns true q2 "cms" CMSPageSeedSpec
              (add_pages rows d) (rerooted s (add_pages rows d))
              (or_intror (or_intror (or_intror (or_introl eq_refl)))))
    as [Eo Ed].
  { intros out log. cbn [clear CMSPageSeedSpec].
    apply (CMSPage_clear_reroots q2 s (mkWorld (add_pages rows d) out log));
      cbn [db]; assumption. }
  split; [exact Eo1|]. split; [exact Eo|].
  rewrite Ed, <- Len.
  apply rerooted_after_seed; assumption.
Qed.

Lemma cms_seed_then_clear_witness :
  outcome (mkOptions false (Some "cms") false false) seeded_db = Ok tt
  /\ outcome (mkOptions true (Some "cms") false false)
       (db_after (mkOptions false (Some "cms") false false) seeded_db)
     = Ok tt
  /\ db_after (mkOptions true (Some "cms") false false)
       (db_after (mkOptions false (Some "cms") false false) seeded_db)
     = rerooted (mkSite 1 2) (skip_pages 24 seeded_db).
Proof.
  refine (cms_seed_then_clear seeded_db false false
            (mkUser 3 "administrator" "administrator@re-volv.org"
               "Joe" "Admin" "password")
            (mkSite 1 2) _ _ _ _); vm_compute; reflexivity.
Defined.

(** ** Clearing, seeding, clearing *)

Lemma one_site_ready_site_ready (d : DB) :
  one_site_ready d = true -> site_ready d = true.
Proof.
  unfold one_site_ready, site_ready.
  destruct (sites d) as [|s [|s' rest]]; try discriminate.
  intros H. apply andb_prop in H as [Hr Hb]. rewrite Hr. cbn [andb].
  apply Nat.eqb_eq in Hr.
  destruct (filter_single_In _ _ Hr) as (r & _ & Hin & Hid).
  apply Nat.eqb_eq in Hid. rewrite forallb_forall in Hb.
  specialize (Hb r Hin). rewrite Hid in Hb. exact Hb.
Qed.

(** A full clear of a database with one site and no seeded row. *)
Lemma clear_unseeded_reroots (d : DB) (s : Site) (q : bool) :
  unseeded d = true -> sites d = [s] -> one_site_ready d = true ->
  outcome (mkOptions true None q false) d = Ok tt
  /\ db_after (mkOptions true None q false) d = rerooted s d.
Proof.
  intros Hu Hs H. unfold unseeded in Hu.
  apply andb_prop in Hu as [Hn Ht]. apply negb_true_iff in Hn, Ht.
  unfold one_site_ready in H. rewrite Hs in H.
  apply andb_prop in H as [Hr _]. apply Nat.eqb_eq in Hr.
  assert (E : exists out log,
    run (handle (mkOptions true None q false)) d
    = (Ok tt, mkWorld (rerooted s d) out log)).
  { unfold run.
    rewrite (handle_all_eq true q None _ eq_refl). cbn [db stdout raised].
    unfold bind at 1.
    rewrite (clear_misses_eq d q Hn Ht).
    erewrite bind_ok.
    2:{ apply (CMSPage_clear_reroots q s); cbn [db]; assumption. }
    unfold ret. rewrite log_line. eexists. eexists. reflexivity. }
  destruct E as (out & log & E).
  unfold outcome, db_after. rewrite E. split; reflexivity.
Qed.

(** X14: the three runs of [test_seed_then_clear], a full clear, a full
    seed and a full clear again, on a database with one site whose root
    page is in place, in which no seeded user name and no seeded tagline
    is taken and the keys are below the sequences.  The three runs return,
    and the users, the profiles, the projects and the payments are
    afterwards what they were before, row by row, and so in number: the
    four assertions of the test hold. *)
Theorem clear_seed_clear_restores (d : DB) (q1 q2 q3 : bool) :
  restorable d = true -> one_site_ready d = true ->
  (outcome (mkOptions true None q1 false) d = Ok tt
   /\ outcome (mkOptions false None q2 false)
        (db_after (mkOptions true None q1 false) d) = Ok tt
   /\ outcome (mkOptions true None q3 false)
        (db_after (mkOptions false None q2 false)
           (db_after (mkOptions true None q1 false) d)) = Ok tt)
  /\ users (db_after (mkOptions true None q3 false)
              (db_after (mkOptions false None q2 false)
                 (db_after (mkOptions true None q1 false) d)))
     = users d
  /\ profiles (db_after (mkOptions true None q3 false)
                 (db_after (mkOptions false None q2 false)
                    (db_after (mkOptions true None q1 false) d)))
     = profiles d
  /\ projects (db_after (mkOptions true None q3 false)
                 (db_after (mkOptions false None q2 false)
                    (db_after (mkOptions true None q1 false) d)))
     = projects d
  /\ payments (db_after (mkOptions true None q3 false)
                 (db_after (mkOptions false None q2 false)
                    (db_after (mkOptions true None q1 false) d)))
     = payments d.
Proof.
  intros Hr Hone.
  assert (Hu : unseeded d = true).
  { unfold restorable in Hr. unfold unseeded.
    apply andb_prop in Hr as [Hr Ht]. apply andb_prop in Hr as [_ Hn].
    rewrite Hn, Ht. reflexivity. }
  assert (Hs : exists s, sites d = [s]).
  { unfold one_site_ready in Hone.
    destruct (sites d) as [|s [|s' rest]]; try discriminate Hone.
    exists s. reflexivity. }
  destruct Hs as [s Hs].
  destruct (clear_unseeded_reroots d s q1 Hu Hs Hone) as [Eo1 Ed1].
  rewrite Ed1.
  assert (Hr1 : restorable (rerooted s d) = true) by exact Hr.
  pose proof (one_site_ready_site_ready _ (rerooted_ready s d Hs Hone))
    as Hs1.
  pose proof (restorable_Ready _ Hr1) as ready.
  pose proof (handle_seed_tables _ ready q2 None [] [] eq_refl) as H1.
  fold (run (handle (mkOptions false None q2 false)) (rerooted s d)) in H1.
  fold (db_after (mkOptions false None q2 false) (rerooted s d)) in H1.
  pose proof (handle_clear_tables _ ready q3 None _ [] [] eq_refl H1) as H2.
  fold (run (handle (mkOptions true None q3 false))
          (db_after (mkOptions false None q2 false) (rerooted s d))) in H2.
  fold (db_after (mkOptions true None q3 false)
          (db_after (mkOptions false None q2 false) (rerooted s d))) in H2.
  destruct H2 as (HU & HP & HJ & HY). rewrite app_nil_r in HU, HP, HJ, HY.
  destruct (site_ready_in_place _ Hs1) as (s1 & rest & Hsite).
  destruct (handle_seed_ok _ ready q2 None s1 rest [] [] eq_refl Hsite)
    as [Hok Hsite1].
  split; [| repeat split; assumption].
  split; [exact Eo1|]. split; [exact Hok|].
  apply (handle_clear_ok _ ready q3 None _ s1 rest [] [] eq_refl H1 Hsite1).
Qed.

Lemma clear_seed_clear_restores_witness :
  restorable busy_db = true /\ one_site_ready busy_db = true
  /\ outcome (mkOptions true None false false)
       (db_after (mkOptions false None false false)
          (db_after (mkOptions true None false false) busy_db)) = Ok tt
  /\ users (db_after (mkOptions true None false false)
              (db_after (mkOptions false None false false)
                 (db_after (mkOptions true None false false) busy_db)))
     = users busy_db
  /\ payments (db_after (mkOptions true None false false)
                 (db_after (mkOptions false None false false)
                    (db_after (mkOptions true None false false) busy_db)))
     = payments busy_db.
Proof.
  split; [reflexivity|]. split; [reflexivity|].
  destruct (clear_seed_clear_restores busy_db false false false
              eq_refl eq_refl)
    as ((_ & _ & Hok) & HU & _ & _ & HY).
  split; [exact Hok|]. split; [exact HU | exact HY].
Defined.

(** ** What the clear of the projects deletes *)

Lemma NoDup_map_filter {A B} (f : A -> B) (g : A -> bool) (l : list A) :
  NoDup (map f l) -> NoDup (map f (filter g l)).
Proof.
  induction l as [|x l IH]; cbn; intros H; [constructor|].
  inversion H as [|? ? Hx Hl]; subst.
  destruct (g x); cbn; [constructor|]; try (apply IH; exact Hl).
  intros Hin. apply Hx. apply in_map_iff in Hin as (y & E & Hy).
  apply in_map_iff. exists y. split; [exact E|].
  apply filter_In in Hy. apply Hy.
Qed.

Lemma NoDup_map_eq {A B} (f : A -> B) (l : list A) (x y : A) :
  NoDup (map f l) -> In x l -> In y l -> f x = f y -> x = y.
Proof.
  induction l as [|z l IH]; cbn; intros H Hx Hy E; [destruct Hx|].
  inversion H as [|? ? Hz Hl]; subst.
  destruct Hx as [<-|Hx], Hy as [<-|Hy].
  - reflexivity.
  - exfalso. apply Hz. rewrite E. apply in_map. exact Hy.
  - exfalso. apply Hz. rewrite <- E. apply in_map. exact Hx.
  - apply IH; assumption.
Qed.

Lemma mem_map_filter_or {A} (key : A -> nat) (f g : A -> bool)
  (l : list A) (i : nat) :
  mem i (map key (filter (fun x => f x || g x) l))
  = mem i (map key (filter f l)) || mem i (map key (filter g l)).
Proof.
  unfold mem. induction l as [|x l IH]; cbn [filter map existsb];
    [reflexivity|].
  destruct (f x), (g x); cbn [orb filter map existsb]; rewrite IH;
    destruct (i =? key x)%nat; cbn [orb];
    repeat match goal with
           | |- context [existsb ?h ?r] => destruct (existsb h r)
           end; reflexivity.
Qed.

Lemma forallb_agree {A} (f g : A -> bool) (l : list A) :
  (forall x, In x l -> f x = g x) -> forallb f l = forallb g l.
Proof.
  induction l as [|x l IH]; cbn; intros H; [reflexivity|].
  rewrite (H x (or_introl eq_refl)), IH; [reflexivity|].
  intros y Hy. apply H. right. exact Hy.
Qed.

Section ProjectClear.

Variable q : bool.

(** One round of the loop of [ProjectSeedSpec.clear]. *)
Let round (project : ProjectData) : M unit :=
  try_except (Project_clear_one project) (is_DoesNotExist MProject)
    (warn_unless q "ProjectSeedSpec").

Let tagged (project : ProjectData) (j : Project) : bool :=
  tagline (project_data j) =? tagline project.

Lemma project_round (project : ProjectData) (w : World) :
  NoDup (map project_id (projects (db w))) ->
  match projects_tagged (tagline project) (db w) with
  | _ :: _ :: _ =>
      round project w
      = (Raise (MultipleObjectsReturned MProject),
         mkWorld (db w) (stdout w)
           (raised w ++ [MultipleObjectsReturned MProject]))
  | _ =>
      exists w',
        round project w = (Ok tt, w')
        /\ projects (db w')
           = filter (fun j => negb (tagged project j)) (projects (db w))
        /\ payments (db w')
           = filter (fun y =>
                       negb (mem (pay_project y)
                               (map project_id
                                  (filter (tagged project)
                                     (projects (db w))))))
               (payments (db w))
  end.
Proof.
  intros Hkeys. unfold round, try_except, Project_clear_one.
  pose proof (Project_get_tagline_found (tagline project) w) as H.
  unfold projects_tagged in *. fold (tagged project) in *.
  destruct (filter (tagged project) (projects (db w)))
    as [|j [|j' rows]] eqn:E; cbn [found] in H.
  - destruct H as (e & He & H). cbn in He. injection He as <-.
    rewrite (bind_raise _ _ _ _ _ H). cbn [is_DoesNotExist model_eqb].
    destruct (warn_unless_ok q "ProjectSeedSpec" (DoesNotExist MProject)
                (mkWorld (db w) (stdout w)
                   (raised w ++ [DoesNotExist MProject])))
      as (w' & Ew & Hw).
    exists w'. split; [exact Ew|]. rewrite Hw. cbn [db]. split.
    + symmetry. apply filter_keeps_all. intros x Hx.
      destruct (tagged project x) eqn:Ex; [| reflexivity].
      assert (Hin : In x []) by (rewrite <- E; apply filter_In; auto).
      destruct Hin.
    + symmetry. apply filter_keeps_all. intros y _. reflexivity.
  - rewrite (bind_ok _ _ _ _ _ H).
    unfold Project_delete, modify_db. eexists. split; [reflexivity|].
    unfold delete_projects. read_tables.
    assert (Hj : In j (projects (db w)) /\ tagged project j = true).
    { apply filter_In. rewrite E. left. reflexivity. }
    assert (Hsame : forall x, In x (projects (db w)) ->
              (project_id x =? project_id j)%nat = tagged project x).
    { intros x Hx. destruct (tagged project x) eqn:Ex.
      - assert (Hin : In x [j]) by (rewrite <- E; apply filter_In; auto).
        destruct Hin as [<-|[]]. apply Nat.eqb_refl.
      - apply Nat.eqb_neq. intros Hid.
        rewrite (NoDup_map_eq project_id _ x j Hkeys Hx (proj1 Hj) Hid)
          in Ex.
        rewrite (proj2 Hj) in Ex. discriminate Ex. }
    split.
    + apply filter_ext_in. intros x Hx. rewrite (Hsame x Hx). reflexivity.
    + rewrite (filter_ext_in _ _ _ Hsame).
      change (fun x => tagged project x) with (tagged project).
      rewrite E. reflexivity.
  - destruct H as (e & He & H). cbn in He. injection He as <-.
    rewrite (bind_raise _ _ _ _ _ H). reflexivity.
Qed.

(** The loop over any list of projects with different taglines. *)
Lemma project_rounds (l : list ProjectData) :
  NoDup (map tagline l) ->
  forall w, NoDup (map project_id (projects (db w))) ->
  if forallb (fun p =>
                (length (projects_tagged (tagline p) (db w)) <=? 1)%nat) l
  then
    exists w',
      for_each l round w = (Ok tt, w')
      /\ projects (db w')
         = filter (fun j => negb (existsb (fun p => tagged p j) l))
             (projects (db w))
      /\ payments (db w')
         = filter (fun y =>
                     negb (mem (pay_project y)
                             (map project_id
                                (filter (fun j => existsb (fun p => tagged p j) l)
                                   (projects (db w))))))
             (payments (db w))
  else
    fst (for_each l round w) = Raise (MultipleObjectsReturned MProject).
Proof.
  induction l as [|x l IH]; intros Htags w Hkeys;
    cbn [forallb for_each map existsb].
  - exists w. split; [reflexivity|]. split.
    + symmetry. apply filter_keeps_all. reflexivity.
    + symmetry. apply filter_keeps_all. intros y _.
      rewrite (filter_keeps_none (fun _ => false));
        [reflexivity | reflexivity].
  - inversion Htags as [|? ? Hx Hl]; subst.
    pose proof (project_round x w Hkeys) as Hround.
    destruct (projects_tagged (tagline x) (db w)) as [|j [|j' rows]] eqn:E;
      cbn [length Nat.leb andb].
    3:{ rewrite (bind_raise _ _ _ _ _ Hround). reflexivity. }
    all: destruct Hround as (w1 & E1 & HJ & HY);
      rewrite (bind_ok _ _ _ _ _ E1);
      assert (Hother : forall p, In p l -> forall j0,
                tagged p j0 = true -> tagged x j0 = false)
        by (intros p Hp j0 Hj0; unfold tagged in *;
            apply String.eqb_eq in Hj0; apply String.eqb_neq;
            intros Heq; apply Hx; rewrite <- Heq, Hj0;
            apply in_map; exact Hp);
      assert (Hcount : forall p, In p l ->
                projects_tagged (tagline p) (db w1)
                = projects_tagged (tagline p) (db w))
        by (intros p Hp; unfold projects_tagged; fold (tagged p);
            rewrite HJ, filter_twice; apply filter_ext;
            intros j0; destruct (tagged p j0) eqn:Ep;
            [rewrite (Hother p Hp j0 Ep); reflexivity
            | apply andb_false_r]);
      assert (Hkeys1 : NoDup (map project_id (projects (db w1))))
        by (rewrite HJ; apply NoDup_map_filter; exact Hkeys);
      specialize (IH Hl w1 Hkeys1);
      rewrite (forallb_agree _ _ l
                 (fun p Hp => f_equal (fun r => (length r <=? 1)%nat)
                                (Hcount p Hp))) in IH;
      destruct (forallb _ l); [| exact IH];
      destruct IH as (w' & E' & HJ' & HY');
      exists w'; (split; [exact E'|]); split.
    all: try (rewrite HJ', HJ, filter_twice; apply filter_ext; intros j0;
              rewrite negb_orb; reflexivity).
    all: rewrite HY', HY, filter_twice; apply filter_ext; intros y;
      rewrite mem_map_filter_or, negb_orb; f_equal; f_equal; f_equal;
      f_equal; rewrite HJ, filter_twice; apply filter_ext_in; intros j0 _;
      destruct (existsb (fun p => tagged p j0) l) eqn:Ex;
      [| apply andb_false_r];
      apply existsb_exists in Ex as (p & Hp & Ep);
      rewrite (Hother p Hp j0 Ep); reflexivity.
Qed.

End ProjectClear.

Lemma seeded_taglines_differ : NoDup (map tagline projects_to_clear).
Proof.
  repeat constructor; cbn; intros H;
    repeat (destruct H as [H|H]; [discriminate H|]); exact H.
Qed.

(** X15: what [ProjectSeedSpec.clear] does, on a project table whose keys
    are unique.  If no seeded tagline is carried by more than one project,
    it returns, and it has deleted exactly the projects that carry a seeded
    tagline and the payments made to them, whoever made them; users and
    profiles are as before.  If some seeded tagline is carried by two
    projects or more, the look-up raises [MultipleObjectsReturned], which
    the [except] clause does not catch, and the clear ends with it. *)
Theorem project_clear_outcome (q : bool) (w : World) :
  NoDup (map project_id (projects (db w))) ->
  if tagged_once (db w)
  then
    fst (Project_clear q w) = Ok tt
    /\ projects (db (snd (Project_clear q w)))
       = filter (fun j => negb (seed_tagline (tagline (project_data j))))
           (projects (db w))
    /\ payments (db (snd (Project_clear q w)))
       = filter (fun y =>
                   negb (mem (pay_project y)
                           (map project_id (seeded_projects (db w)))))
           (payments (db w))
    /\ users (db (snd (Project_clear q w))) = users (db w)
    /\ profiles (db (snd (Project_clear q w))) = profiles (db w)
  else
    fst (Project_clear q w) = Raise (MultipleObjectsReturned MProject).
Proof.
  intros Hkeys.
  pose proof (project_rounds q projects_to_clear seeded_taglines_differ
                w Hkeys) as H.
  unfold tagged_once.
  destruct (forallb _ projects_to_clear); [| exact H].
  destruct H as (w' & E & HJ & HY).
  pose proof (frame_clear_projects q) as (FU & FP & _).
  specialize (FU w). specialize (FP w).
  unfold Project_clear in *. rewrite E in *. cbn [fst snd] in *.
  repeat split; assumption.
Qed.

Lemma project_clear_outcome_witness :
  if tagged_once (db (mkWorld seeded_db [] []))
  then
    fst (Project_clear false (mkWorld seeded_db [] [])) = Ok tt
    /\ projects (db (snd (Project_clear false (mkWorld seeded_db [] []))))
       = filter (fun j => negb (seed_tagline (tagline (project_data j))))
           (projects (db (mkWorld seeded_db [] [])))
    /\ payments (db (snd (Project_clear false (mkWorld seeded_db [] []))))
       = filter (fun y =>
                   negb (mem (pay_project y)
                           (map project_id
                              (seeded_projects
                                 (db (mkWorld seeded_db [] []))))))
           (payments (db (mkWorld seeded_db [] [])))
    /\ users (db (snd (Project_clear false (mkWorld seeded_db [] []))))
       = users (db (mkWorld seeded_db [] []))
    /\ profiles (db (snd (Project_clear false (mkWorld seeded_db [] []))))
       = profiles (db (mkWorld seeded_db [] []))
  else
    fst (Project_clear false (mkWorld seeded_db [] []))
    = Raise (MultipleObjectsReturned MProject).
Proof.
  refine (project_clear_outcome false (mkWorld seeded_db [] []) _).
  vm_compute. repeat constructor; cbn; intros H;
    repeat (destruct H as [H|H]; [discriminate H|]); exact H.
Defined.

(** ** The exceptions that leave a clear *)

Section OnlyRaises.

Variable P : exn -> bool.

Lemma only_raises_ret {A} (a : A) : only_raises P (ret a).
Proof. intros w e H. discriminate H. Qed.

Lemma only_raises_raise {A} (e : exn) :
  P e = true -> only_raises P (raise e : M A).
Proof. intros He w e' H. injection H as <-. exact He. Qed.

Lemma only_raises_get_db : only_raises P get_db.
Proof. intros w e H. discriminate H. Qed.

Lemma only_raises_modify_db (f : DB -> DB) : only_raises P (modify_db f).
Proof. intros w e H. discriminate H. Qed.

Lemma only_raises_print (s : string) : only_raises P (print s).
Proof. intros w e H. discriminate H. Qed.

Lemma only_raises_bind {A B} (c : M A) (k : A -> M B) :
  only_raises P c -> (forall a, only_raises P (k a)) ->
  only_raises P (bind c k).
Proof.
  intros Hc Hk w e. unfold bind. specialize (Hc w).
  destruct (c w) as [[a|e'] w']; cbn [fst] in *.
  - apply Hk.
  - intros H. injection H as <-. apply Hc. reflexivity.
Qed.

Lemma only_raises_for_each {A} (xs : list A) (f : A -> M unit) :
  Forall (fun x => only_raises P (f x)) xs -> only_raises P (for_each xs f).
Proof.
  induction 1 as [|x xs Hx _ IH]; cbn [for_each].
  - apply only_raises_ret.
  - apply only_raises_bind; [exact Hx | intros _; exact IH].
Qed.

Lemma only_raises_when (c : bool) (body : M unit) :
  only_raises P body -> only_raises P (when c body).
Proof. destruct c; [auto | intros _; apply only_raises_ret]. Qed.

Lemma only_raises_get_one {R} (m : Model) (rows : list R) :
  P (DoesNotExist m) = true -> P (MultipleObjectsReturned m) = true ->
  only_raises P (get_one m rows).
Proof.
  intros H0 H2. destruct rows as [|r [|r' rows]]; cbn [get_one].
  - apply only_raises_raise. exact H0.
  - apply only_raises_ret.
  - apply only_raises_raise. exact H2.
Qed.

Lemma only_raises_log (o : Options) (msg : string) :
  only_raises P (log o msg).
Proof. apply only_raises_when, only_raises_print. Qed.

Lemma only_raises_warn (q : bool) (cls : string) (e : exn) :
  only_raises P (warn_unless q cls e).
Proof. apply only_raises_when, only_raises_print. Qed.

End OnlyRaises.

Lemma only_raises_bind_post {A B} (P : exn -> bool) (Q : A -> Prop)
  (c : M A) (k : A -> M B) :
  only_raises P c ->
  (forall w, match fst (c w) with Ok a => Q a | Raise _ => True end) ->
  (forall a, Q a -> only_raises P (k a)) ->
  only_raises P (bind c k).
Proof.
  intros Hc Hq Hk w e. unfold bind. specialize (Hc w). specialize (Hq w).
  destruct (c w) as [[a|e'] w']; cbn [fst] in *.
  - apply Hk. exact Hq.
  - intros H. injection H as <-. apply Hc. reflexivity.
Qed.

(** What the body of a [try] lets through and the [except] clause does
    not catch leaves the statement. *)
Lemma only_raises_try {A} (P : exn -> bool) (body : M A)
  (catches : exn -> bool) (handler : exn -> M A) :
  only_raises (fun e => P e || catches e) body ->
  (forall e, only_raises P (handler e)) ->
  only_raises P (try_except body catches handler).
Proof.
  intros Hb Hh w e. unfold try_except. specialize (Hb w).
  destruct (body w) as [[a|e'] w']; cbn [fst] in *.
  - discriminate.
  - specialize (Hb e' eq_refl). destruct (catches e') eqn:Ec.
    + apply Hh.
    + intros H. injection H as <-. rewrite orb_false_r in Hb. exact Hb.
Qed.

Ltac escape :=
  repeat first
    [ apply only_raises_ret
    | apply only_raises_get_db
    | apply only_raises_modify_db
    | apply only_raises_print
    | apply only_raises_log
    | apply only_raises_warn
    | apply only_raises_get_one; reflexivity
    | apply only_raises_raise; reflexivity
    | apply only_raises_bind; [| intros ?]
    | apply only_raises_try; [| intros ?] ].

Lemma clear_only_raises (spec : SeedSpec) (q : bool) :
  In spec (map snd SPECS_TO_RUN) -> only_raises clear_failure (clear spec q).
Proof.
  intros Hin. cbn in Hin.
  destruct Hin as [<-|[<-|[<-|[<-|[]]]]]; cbn [clear
    RevolvUserProfileSeedSpec ProjectSeedSpec PaymentSeedSpec
    CMSPageSeedSpec].
  - unfold RevolvUserProfile_clear. apply only_raises_for_each.
    rewrite Forall_forall. intros name _.
    unfold RevolvUserProfile_clear_one, User_get, Profile_get_user,
      Profile_delete, User_delete. escape.
  - unfold Project_clear. apply only_raises_for_each.
    rewrite Forall_forall. intros project _.
    unfold Project_clear_one, Project_get_tagline, Project_delete. escape.
  - unfold Payment_clear, Payment_clear_body, Profile_get_username,
      Payments_of_user_delete. escape.
  - unfold CMSPage_clear, CMSPage_clear_body, Site_first, Site_root_page,
      Page_delete, Page_add_root, Site_save_root. escape.
    match goal with
    | |- only_raises _ (match ?l with _ => _ end) => destruct l
    end; escape.
Qed.

(** X16: the exceptions that can leave a run with [--clear], whatever
    the other options and the database.  The run ends with no exception
    but [IndexError] (there is no site), [MultipleObjectsReturned] (a
    look-up finds more than one row) and [RevolvUserProfile.DoesNotExist]
    (a seeded user has no profile); [User.DoesNotExist],
    [Project.DoesNotExist] and [Page.DoesNotExist] never leave it. *)
Theorem clear_fails_only_with (o : Options) (d : DB) (e : exn) :
  opt_clear o = true -> outcome o d = Raise e -> clear_failure e = true.
Proof.
  intros Hc. unfold outcome, run.
  assert (H : only_raises clear_failure (handle o)).
  { unfold handle. destruct (opt_list o); [escape|]. rewrite Hc.
    apply only_raises_bind_post
      with (Q := Forall (fun spec => In spec (map snd SPECS_TO_RUN))).
    - unfold select_specs.
      destruct (spec_given o) as [name|]; [| apply only_raises_ret].
      destruct (dict_get SPECS_TO_RUN name); escape.
    - intros w. pose proof (select_specs_registered o w) as H.
      destruct (fst (select_specs o w)); [exact H | exact I].
    - intros specs Hspecs.
      apply only_raises_bind; [apply only_raises_log | intros _].
      apply only_raises_bind; [| intros _; apply only_raises_log].
      apply only_raises_for_each.
      apply Forall_impl with (2 := Hspecs). intros spec Hin.
      apply clear_only_raises. exact Hin. }
  apply H.
Qed.

Lemma clear_fails_only_with_witness :
  opt_clear clear_options = true
  /\ outcome clear_options orphan_user_db
     = Raise (DoesNotExist MRevolvUserProfile)
  /\ clear_failure (DoesNotExist MRevolvUserProfile) = true.
Proof.
  split; [reflexivity|]. split; [vm_compute; reflexivity|].
  refine (clear_fails_only_with clear_options orphan_user_db
            (DoesNotExist MRevolvUserProfile) _ _);
    vm_compute; reflexivity.
Defined.

(** ** A seed that stops half way *)

(** X17: [RevolvUserProfileSeedSpec.seed] is not all or nothing.  It makes
    the users donor, ambassador and administrator in this order, each
    with its profile, and stops with the [IntegrityError] at the first
    name that is taken: the users made before it stay in the database.
    With the three names free it returns, with the three users made. *)
Theorem user_seed_stops_at_taken_name (q : bool) (w : World) :
  RevolvUserProfile_seed q w
  = if (leading_free ["donor"; "ambassador"; "administrator"] (db w) <? 3)%nat
    then (Raise IntegrityError,
          mkWorld
            (after_first_users
               (leading_free ["donor"; "ambassador"; "administrator"] (db w))
               (db w))
            (stdout w) (raised w ++ [IntegrityError]))
    else (Ok tt, mkWorld (after_first_users 3 (db w)) (stdout w) (raised w)).
Proof.
  unfold RevolvUserProfile_seed, create_user, create_user_as_ambassador,
    create_user_as_admin. cbn [leading_free].
  destruct (existsb (fun u => username u =? "donor") (users (db w)))
    eqn:Ed.
  { rewrite (bind_raise _ _ _ _ _ (create_user_with_role_taken _ _ _ _ _ _ _ Ed)).
    cbn [Nat.ltb Nat.leb].
    apply (f_equal (fun d => (Raise IntegrityError,
                              mkWorld d (stdout w)
                                (raised w ++ [IntegrityError])))).
    apply db_ext; cbn; rewrite ?app_nil_r; reflexivity. }
  rewrite (bind_ok _ _ _ _ _ (create_user_with_role_new _ _ _ _ _ _ _ Ed)).
  destruct (existsb (fun u => username u =? "ambassador") (users (db w)))
    eqn:Ea.
  { erewrite bind_raise.
    2:{ apply create_user_with_role_taken. read_tables.
        rewrite existsb_app, Ea. reflexivity. }
    cbn [Nat.ltb Nat.leb]. read_tables.
    apply (f_equal (fun d => (Raise IntegrityError,
                              mkWorld d (stdout w)
                                (raised w ++ [IntegrityError])))).
    apply db_ext; read_tables; reflexivity. }
  erewrite bind_ok.
  2:{ apply create_user_with_role_new. read_tables.
      rewrite existsb_app, Ea. reflexivity. }
  destruct (existsb (fun u => username u =? "administrator") (users (db w)))
    eqn:Eb.
  { erewrite bind_raise.
    2:{ apply create_user_with_role_taken. read_tables.
        rewrite !existsb_app, Eb. reflexivity. }
    cbn [Nat.ltb Nat.leb]. read_tables.
    apply (f_equal (fun d => (Raise IntegrityError,
                              mkWorld d (stdout w)
                                (raised w ++ [IntegrityError])))).
    apply db_ext; read_tables; rewrite <- ?app_assoc; reflexivity. }
  erewrite bind_ok.
  2:{ apply create_user_with_role_new. read_tables.
      rewrite !existsb_app, Eb. reflexivity. }
  cbn [Nat.ltb Nat.leb]. unfold ret. read_tables.
  apply (f_equal (fun d => (Ok tt, mkWorld d (stdout w) (raised w)))).
  apply db_ext; read_tables; rewrite <- ?app_assoc; reflexivity.
Qed.

(** ** Seeding the pages without the site *)

(** The first page of the seed needs the root page of the first site. *)
Lemma CMSPage_seed_fails (q : bool) (u : User) (e : exn) (w : World) :
  users_named "administrator" (db w) = [u] ->
  (only_site <- Site_first ;; Site_root_page only_site) w
  = (Raise e, mkWorld (db w) (stdout w) (raised w ++ [e])) ->
  CMSPage_seed q w = (Raise e, mkWorld (db w) (stdout w) (raised w ++ [e])).
Proof.
  intros Hu He. unfold CMSPage_seed.
  erewrite bind_ok.
  2:{ unfold User_get, bind, get_db.
      fold (users_named "administrator" (db w)). rewrite Hu. reflexivity. }
  unfold recursively_seed_pages, page_hierarchy. cbn [for_each].
  apply bind_raise. cbn [seed_page_tuple]. apply bind_raise.
  unfold publish_page, publish_page_for_parent. apply bind_raise.
  exact He.
Qed.

(** X18: [seed --spec cms] with the administrator there but the site of
    the CMS not in place.  With no site at all the run ends with the
    [IndexError] of [Site.objects.all()[0]]; with a first site whose root
    page is not exactly one row it ends with the exception of that
    look-up.  Either way it happens at the first page, and no page has
    been written. *)
Theorem cms_seed_needs_the_site (d : DB) (q : bool) (u : User) :
  users_named "administrator" d = [u] ->
  match sites d with
  | [] =>
      outcome (mkOptions false (Some "cms") q false) d = Raise IndexError
      /\ db_after (mkOptions false (Some "cms") q false) d = d
  | s :: _ =>
      forall e,
        get_failure MPage
          (filter (fun p => page_id p =? root_page s)%nat (pages d))
        = Some e ->
        outcome (mkOptions false (Some "cms") q false) d = Raise e
        /\ db_after (mkOptions false (Some "cms") q false) d = d
  end.
Proof.
  intros Hu. destruct (sites d) as [|s rest] eqn:Es.
  - apply (handle_single_raises false q "cms" CMSPageSeedSpec);
      [right; right; right; left; reflexivity|].
    intros out log. cbn [seed CMSPageSeedSpec].
    apply (CMSPage_seed_fails q u IndexError (mkWorld d out log) Hu).
    unfold Site_first, bind, get_db. cbn [db]. rewrite Es. reflexivity.
  - intros e He.
    apply (handle_single_raises false q "cms" CMSPageSeedSpec);
      [right; right; right; left; reflexivity|].
    intros out log. cbn [seed CMSPageSeedSpec].
    apply (CMSPage_seed_fails q u e (mkWorld d out log) Hu).
    unfold Site_first, Site_root_page, bind, get_db. cbn [db].
    rewrite Es. cbn [ret db].
    pose proof (get_one_outcome MPage
                  (filter (fun p => (page_id p =? root_page s)%nat) (pages d))
                  (mkWorld d out log)) as H.
    rewrite He in H. exact H.
Qed.

Lemma cms_seed_needs_the_site_witness :
  outcome (mkOptions false (Some "cms") false false)
    (set_sites (fun _ => []) seeded_db) = Raise IndexError
  /\ db_after (mkOptions false (Some "cms") false false)
       (set_sites (fun _ => []) seeded_db)
     = set_sites (fun _ => []) seeded_db.
Proof.
  refine (cms_seed_needs_the_site (set_sites (fun _ => []) seeded_db) false
            (mkUser 3 "administrator" "administrator@re-volv.org"
               "Joe" "Admin" "password") _).
  vm_compute. reflexivity.
Defined.

(** ** Clearing the pages without the site *)

(** X19: [seed --spec cms --clear] with the site of the CMS not in place.
    With no site at all the run ends with the [IndexError] of
    [Site.objects.all()[0]], which [except ObjectDoesNotExist] does not
    catch.  With a first site whose root page is no row of the page table
    the look-up fails with [Page.DoesNotExist], which is caught: the run
    returns and prints the warning between its two lines.  The database
    is unchanged in both cases. *)
Theorem cms_clear_without_root (d : DB) (q : bool) :
  match sites d with
  | [] =>
      outcome (mkOptions true (Some "cms") q false) d = Raise IndexError
      /\ db_after (mkOptions true (Some "cms") q false) d = d
  | s :: _ =>
      filter (fun p => page_id p =? root_page s)%nat (pages d) = [] ->
      run (handle (mkOptions true (Some "cms") q false)) d
      = (Ok tt,
         mkWorld d
           (unless_quiet q
              ["[Seed:Info] Clearing objects from 1 seed spec(s)...";
               clear_warning "CMSPageSeedSpec" (DoesNotExist MPage);
               "[Seed:Info] Done!"])
           [DoesNotExist MPage])
  end.
Proof.
  destruct (sites d) as [|s rest] eqn:Es.
  - apply (handle_single_raises true q "cms" CMSPageSeedSpec);
      [right; right; right; left; reflexivity|].
    intros out log. cbn [clear CMSPageSeedSpec].
    assert (E : CMSPage_clear_body (mkWorld d out log)
                = (Raise IndexError, mkWorld d out (log ++ [IndexError]))).
    { unfold CMSPage_clear_body. apply bind_raise.
      unfold Site_first, bind, get_db. cbn [db]. rewrite Es. reflexivity. }
    unfold CMSPage_clear, try_except. rewrite E. reflexivity.
  - intros Hr. unfold run.
    rewrite (handle_single_eq true q "cms" CMSPageSeedSpec _
               (or_intror (or_intror (or_intror (or_introl eq_refl))))).
    cbn [clear CMSPageSeedSpec db stdout raised].
    erewrite bind_ok.
    2:{ erewrite bind_ok; [reflexivity|].
        unfold CMSPage_clear.
        apply (caught_round _ _ q "CMSPageSeedSpec" (DoesNotExist MPage));
          [| reflexivity].
        unfold CMSPage_clear_body. erewrite bind_ok.
        2:{ unfold Site_first, bind, get_db. cbn [db]. rewrite Es.
            reflexivity. }
        apply bind_raise. unfold Site_root_page, bind, get_db. cbn [db].
        rewrite Hr. reflexivity. }
    rewrite log_line. cbn [db stdout raised opt_quiet].
    destruct q; reflexivity.
Qed.

Lemma cms_clear_without_root_witness :
  outcome (mkOptions true (Some "cms") false false) empty_db
  = Raise IndexError
  /\ db_after (mkOptions true (Some "cms") false false) empty_db = empty_db.
Proof. exact (cms_clear_without_root empty_db false). Defined.
